(** * CloudSim: block store, RPC correlation layer and chunk distribution

    A shallow embedding of [CloudSim/virtual_disk.py] and of the RPC and
    distribution code of [CloudSim/virtual_node.py], with the properties of
    the design document stated and proved over it.

    Conventions of the embedding:
    - a Python [int] is a [Z]; [//] and [%] are [Z.div] and [Z.modulo]
      (both floor towards minus infinity, as Python does) and raise on a
      zero divisor;
    - [bytes] is [list byte], [str] is [string] (its UTF-8 bytes);
    - a [float] (a reading of [time.time()], a ratio of the storage report)
      is an exact rational [Q];
    - a [dict] keyed by strings is a [gmap string _];
    - a Python object that is mutated in place is a field of the state that
      is threaded through the operation; a list element that is reached
      through an alias is designated by its position in the list;
    - an operation that can raise returns a [res]; the state that the
      operation had reached when it raised is returned next to it. *)

From Stdlib Require Import ZArith QArith Strings.Byte Strings.String Strings.Ascii Lia.
From stdpp Require Import base option list gmap strings pretty sorting.

Local Open Scope Z_scope.

(** ** Python values and primitives *)

Module Py.

Inductive exn_class :=
| ZeroDivisionError | IndexError | KeyError | OSError | ValueError
| TypeError | TimeoutError | Exception.

(** A raised exception: its class and [str(e)]. *)
Record exn := mk_exn { exn_cls : exn_class; exn_str : string }.

Inductive res (A : Type) :=
| Ok (a : A)
| Raise (e : exn).
Global Arguments Ok {A} a.
Global Arguments Raise {A} e.

Definition bind {A B} (m : res A) (k : A -> res B) : res B :=
  match m with
  | Ok a => k a
  | Raise e => Raise e
  end.

Definition is_ok {A} (m : res A) : bool :=
  match m with Ok _ => true | Raise _ => false end.

(** [a // b] and [a % b]. *)
Definition floordiv (a b : Z) : res Z :=
  if b =? 0 then Raise (mk_exn ZeroDivisionError "integer division or modulo by zero")
  else Ok (a / b).

Definition modulo (a b : Z) : res Z :=
  if b =? 0 then Raise (mk_exn ZeroDivisionError "integer division or modulo by zero")
  else Ok (a mod b).

Definition len {A} (l : list A) : Z := Z.of_nat (length l).

(** [l[i]]: the position that the index [i] designates, counting from the
    end when [i] is negative; [None] stands for [IndexError]. *)
Definition index {A} (l : list A) (i : Z) : option nat :=
  if (0 <=? i) && (i <? len l) then Some (Z.to_nat i)
  else if (- len l <=? i) && (i <? 0) then Some (Z.to_nat (i + len l))
  else None.

(** [l[i]] with the position of the element. *)
Definition getitem {A} (l : list A) (i : Z) : option (nat * A) :=
  pos ← index l i; x ← l !! pos; Some (pos, x).

Definition index_error : exn := mk_exn IndexError "list index out of range".

(** A slice bound brought into [0 .. n]. *)
Definition clamp (n i : Z) : Z :=
  if i <? 0 then Z.max (i + n) 0 else Z.min i n.

(** [l[lo:hi]] and [l[lo:]]. *)
Definition slice {A} (l : list A) (lo hi : Z) : list A :=
  let lo' := clamp (len l) lo in
  let hi' := clamp (len l) hi in
  take (Z.to_nat (hi' - lo')) (drop (Z.to_nat lo') l).

Definition slice_from {A} (l : list A) (lo : Z) : list A :=
  drop (Z.to_nat (clamp (len l) lo)) l.

(** [range(n)] and [range(start, stop, step)] for a positive step. The
    second one is the loop that produces it: one more element while the
    counter is below [stop]. *)
Definition range (n : Z) : list Z := seqZ 0 n.

Fixpoint range_from (fuel : nat) (i stop step : Z) : list Z :=
  match fuel with
  | O => []
  | S fuel' =>
      if i <? stop then i :: range_from fuel' (i + step) stop step else []
  end.

Definition range3 (start stop step : Z) : list Z :=
  range_from (Z.to_nat (stop - start)) start stop step.

(** [s.encode()]. *)
Definition encode (s : string) : list byte := String.list_byte_of_string s.

(** [b'\0' * n]. *)
Definition zeros (n : Z) : list byte := replicate (Z.to_nat n) x00.

(** *** A binary file opened for update

    [file_write img pos data] is [f.seek(pos); f.write(data)] on a file
    whose content is [img]: a write past the end first fills the gap with
    zero bytes. [file_read img pos n] is [f.seek(pos); f.read(n)]: it
    stops at the end of the file, and reads up to the end when [n] is
    negative. [seek] refuses a negative position. *)
Definition seek (pos : Z) : res nat :=
  if pos <? 0 then Raise (mk_exn OSError "[Errno 22] Invalid argument")
  else Ok (Z.to_nat pos).

Definition file_write (img : list byte) (pos : nat) (data : list byte) : list byte :=
  take pos img ++ replicate (pos - length img) x00 ++ data
    ++ drop (pos + length data) img.

Definition file_read (img : list byte) (pos : nat) (n : Z) : list byte :=
  if n <? 0 then drop pos img else take (Z.to_nat n) (drop pos img).

End Py.

Global Instance res_ret : MRet Py.res := @Py.Ok.
Global Instance res_bind : MBind Py.res := fun A B k m => Py.bind m k.

(** ** Library functions: hexadecimal text and MD5 *)

Module Hex.

Definition digit (n : N) : ascii :=
  ascii_of_N (if (n <? 10)%N then 48 + n else 87 + n).

(** The value of one hexadecimal digit, in either case. *)
Definition digit_value (c : ascii) : option N :=
  let n := N_of_ascii c in
  if ((48 <=? n) && (n <=? 57))%N then Some (n - 48)%N
  else if ((97 <=? n) && (n <=? 102))%N then Some (n - 87)%N
  else if ((65 <=? n) && (n <=? 70))%N then Some (n - 55)%N
  else None.

Definition is_space (c : ascii) : bool :=
  let n := N_of_ascii c in
  ((n =? 32) || ((9 <=? n) && (n <=? 13)))%N.

Definition of_byte (b : byte) (rest : string) : string :=
  String (digit (Byte.to_N b / 16)) (String (digit (Byte.to_N b mod 16)) rest).

(** [data.hex()]. *)
Definition hex (data : list byte) : string := foldr of_byte EmptyString data.

Definition bad_digit (pos : Z) : Py.exn :=
  Py.mk_exn Py.ValueError
    ("non-hexadecimal number found in fromhex() arg at position " +:+ pretty pos).

Definition byte_of_digits (hi lo : N) : byte :=
  default x00 (Byte.of_N (16 * hi + lo)).

(** [bytes.fromhex(s)]: pairs of digits, white space allowed between the
    pairs. *)
Fixpoint fromhex_at (pos : Z) (s : string) : Py.res (list byte) :=
  match s with
  | EmptyString => Py.Ok []
  | String c s1 =>
      if is_space c then fromhex_at (pos + 1) s1
      else match digit_value c with
           | None => Py.Raise (bad_digit pos)
           | Some hi =>
               match s1 with
               | EmptyString => Py.Raise (bad_digit (pos + 1))
               | String c' s2 =>
                   match digit_value c' with
                   | None => Py.Raise (bad_digit (pos + 1))
                   | Some lo =>
                       match fromhex_at (pos + 2) s2 with
                       | Py.Ok rest => Py.Ok (byte_of_digits hi lo :: rest)
                       | Py.Raise e => Py.Raise e
                       end
                   end
               end
           end
  end.

Definition fromhex (s : string) : Py.res (list byte) := fromhex_at 0 s.

End Hex.

Module MD5.

Definition mask : Z := 0xffffffff.
Definition add32 (a b : Z) : Z := Z.land (a + b) mask.
Definition not32 (a : Z) : Z := Z.lxor a mask.
Definition rotl32 (x c : Z) : Z :=
  Z.land (Z.lor (Z.shiftl x c) (Z.shiftr x (32 - c))) mask.

Definition shifts : list Z :=
  [ 7; 12; 17; 22; 7; 12; 17; 22; 7; 12; 17; 22; 7; 12; 17; 22;
    5; 9; 14; 20; 5; 9; 14; 20; 5; 9; 14; 20; 5; 9; 14; 20;
    4; 11; 16; 23; 4; 11; 16; 23; 4; 11; 16; 23; 4; 11; 16; 23;
    6; 10; 15; 21; 6; 10; 15; 21; 6; 10; 15; 21; 6; 10; 15; 21 ].

Definition sines : list Z :=
  [ 0xd76aa478; 0xe8c7b756; 0x242070db; 0xc1bdceee;
    0xf57c0faf; 0x4787c62a; 0xa8304613; 0xfd469501;
    0x698098d8; 0x8b44f7af; 0xffff5bb1; 0x895cd7be;
    0x6b901122; 0xfd987193; 0xa679438e; 0x49b40821;
    0xf61e2562; 0xc040b340; 0x265e5a51; 0xe9b6c7aa;
    0xd62f105d; 0x02441453; 0xd8a1e681; 0xe7d3fbc8;
    0x21e1cde6; 0xc33707d6; 0xf4d50d87; 0x455a14ed;
    0xa9e3e905; 0xfcefa3f8; 0x676f02d9; 0x8d2a4c8a;
    0xfffa3942; 0x8771f681; 0x6d9d6122; 0xfde5380c;
    0xa4beea44; 0x4bdecfa9; 0xf6bb4b60; 0xbebfbc70;
    0x289b7ec6; 0xeaa127fa; 0xd4ef3085; 0x04881d05;
    0xd9d4d039; 0xe6db99e5; 0x1fa27cf8; 0xc4ac5665;
    0xf4292244; 0x432aff97; 0xab9423a7; 0xfc93a039;
    0x655b59c3; 0x8f0ccc92; 0xffeff47d; 0x85845dd1;
    0x6fa87e4f; 0xfe2ce6e0; 0xa3014314; 0x4e0811a1;
    0xf7537e82; 0xbd3af235; 0x2ad7d2bb; 0xeb86d391 ].

Definition word_of_bytes (bs : list byte) : Z :=
  foldr (fun b acc => Z.of_N (Byte.to_N b) + 256 * acc) 0 bs.

Definition bytes_of_word (n : nat) (w : Z) : list byte :=
  (fun k => default x00 (Byte.of_N (Z.to_N (Z.land (Z.shiftr w (8 * Z.of_nat k)) 255))))
    <$> seq 0 n.

Fixpoint words (n : nat) (bs : list byte) : list Z :=
  match n with
  | O => []
  | S n' => word_of_bytes (take 4 bs) :: words n' (drop 4 bs)
  end.

Definition pad (msg : list byte) : list byte :=
  let n := Py.len msg in
  msg ++ [x80] ++ Py.zeros ((55 - n) mod 64) ++ bytes_of_word 8 (8 * n).

Definition round (m : list Z) (st : Z * Z * Z * Z) (i : Z) : Z * Z * Z * Z :=
  let '(a, b, c, d) := st in
  let '(f, g) :=
    if i <? 16 then (Z.lor (Z.land b c) (Z.land (not32 b) d), i)
    else if i <? 32 then (Z.lor (Z.land d b) (Z.land (not32 d) c), (5 * i + 1) mod 16)
    else if i <? 48 then (Z.lxor (Z.lxor b c) d, (3 * i + 5) mod 16)
    else (Z.lxor c (Z.lor b (not32 d)), (7 * i) mod 16) in
  let f' := add32 (add32 (add32 f a) (sines !!! Z.to_nat i)) (m !!! Z.to_nat g) in
  (d, add32 b (rotl32 f' (shifts !!! Z.to_nat i)), b, c).

Definition block (st : Z * Z * Z * Z) (m : list Z) : Z * Z * Z * Z :=
  let '(a0, b0, c0, d0) := st in
  let '(a, b, c, d) := foldl (round m) st (seqZ 0 64) in
  (add32 a0 a, add32 b0 b, add32 c0 c, add32 d0 d).

Fixpoint blocks (n : nat) (bs : list byte) (st : Z * Z * Z * Z) : Z * Z * Z * Z :=
  match n with
  | O => st
  | S n' => blocks n' (drop 64 bs) (block st (words 16 (take 64 bs)))
  end.

Definition digest (msg : list byte) : list byte :=
  let p := pad msg in
  let '(a, b, c, d) :=
    blocks (length p / 64) p (0x67452301, 0xefcdab89, 0x98badcfe, 0x10325476) in
  bytes_of_word 4 a ++ bytes_of_word 4 b ++ bytes_of_word 4 c ++ bytes_of_word 4 d.

End MD5.

(** [hashlib.md5(data).hexdigest()]. *)
Definition md5_hexdigest (data : list byte) : string := Hex.hex (MD5.digest data).

(** ** The block store ([virtual_disk.py]) *)

Inductive BlockStatus := FREE | ALLOCATED | OCCUPIED.

Global Instance BlockStatus_eq_dec : EqDecision BlockStatus.
Proof. solve_decision. Defined.

Module StorageBlock.
Record t := mk {
  block_id : Z;
  start_offset : Z;
  size : Z;
  status : BlockStatus;
  file_id : option string;
  checksum : option string
}.

Definition set_status (s : BlockStatus) (b : t) : t :=
  mk (block_id b) (start_offset b) (size b) s (file_id b) (checksum b).
Definition set_file_id (f : option string) (b : t) : t :=
  mk (block_id b) (start_offset b) (size b) (status b) f (checksum b).
Definition set_checksum (c : option string) (b : t) : t :=
  mk (block_id b) (start_offset b) (size b) (status b) (file_id b) c.
End StorageBlock.

Module VirtualFile.
Record t := mk {
  file_id : string;
  filename : string;
  size : Z;
  blocks : list Z;
  created_at : Q;
  checksum : string
}.
End VirtualFile.

Module VirtualDisk.

(** The fields of the object, and [disk_img], the content of the file
    [disk_file]. The metadata file is written by every mutating call and
    never read back by the operations below; it is not part of the
    state. *)
Record t := mk {
  node_id : string;
  capacity_bytes : Z;
  block_size : Z;
  total_blocks : Z;
  blocks : list StorageBlock.t;
  files : gmap string VirtualFile.t;
  allocated_blocks : Z;
  used_storage : Z;
  disk_img : list byte
}.

Definition set_blocks (bl : list StorageBlock.t) (d : t) : t :=
  mk (node_id d) (capacity_bytes d) (block_size d) (total_blocks d) bl
     (files d) (allocated_blocks d) (used_storage d) (disk_img d).
Definition set_disk_img (img : list byte) (d : t) : t :=
  mk (node_id d) (capacity_bytes d) (block_size d) (total_blocks d) (blocks d)
     (files d) (allocated_blocks d) (used_storage d) img.
Definition set_files (fs : gmap string VirtualFile.t) (d : t) : t :=
  mk (node_id d) (capacity_bytes d) (block_size d) (total_blocks d) (blocks d)
     fs (allocated_blocks d) (used_storage d) (disk_img d).
Definition set_counters (a u : Z) (d : t) : t :=
  mk (node_id d) (capacity_bytes d) (block_size d) (total_blocks d) (blocks d)
     (files d) a u (disk_img d).

(** [_initialize_blocks]. *)
Definition initial_block (bs i : Z) : StorageBlock.t :=
  StorageBlock.mk i (i * bs) bs FREE None None.

Definition _initialize_blocks (bs total : Z) : list StorageBlock.t :=
  initial_block bs <$> Py.range total.

(** [_initialize_disk]: an image that exists is kept as it is, otherwise
    one byte is written at [capacity_bytes - 1]. *)
Definition _initialize_disk (capacity : Z) (existing : option (list byte))
  : Py.res (list byte) :=
  match existing with
  | Some img => Py.Ok img
  | None => pos ← Py.seek (capacity - 1); Py.Ok (Py.file_write [] pos [x00])
  end.

(** [VirtualDisk(node_id, capacity_gb, block_size_kb)]; [existing] is the
    content of [disk.img] when the file is already there. *)
Definition __init__ (nid : string) (capacity_gb block_size_kb : Z)
    (existing : option (list byte)) : Py.res t :=
  let capacity := capacity_gb * 1024 * 1024 * 1024 in
  let bs := block_size_kb * 1024 in
  total ← Py.floordiv capacity bs;
  img ← _initialize_disk capacity existing;
  Py.Ok (mk nid capacity bs total (_initialize_blocks bs total) ∅ 0 0 img).

(** [[b for b in self.blocks if b.status == BlockStatus.FREE]]: the free
    blocks, each designated by its position in [self.blocks]; [i] is the
    position of the head of [bl]. *)
Fixpoint free_from (i : nat) (bl : list StorageBlock.t) : list nat :=
  match bl with
  | [] => []
  | b :: bl' =>
      if decide (StorageBlock.status b = FREE)
      then i :: free_from (S i) bl'
      else free_from (S i) bl'
  end.

Definition free_blocks (bl : list StorageBlock.t) : list nat := free_from 0 bl.

(** The body of the allocation loop, for the block at position [pos]. *)
Definition allocate_block (fid : string) (acc : list StorageBlock.t * list Z)
    (pos : nat) : list StorageBlock.t * list Z :=
  match acc.1 !! pos with
  | Some b =>
      (<[pos := StorageBlock.set_file_id (Some fid)
                  (StorageBlock.set_status ALLOCATED b)]> acc.1,
       acc.2 ++ [StorageBlock.block_id b])
  | None => acc
  end.

Definition file_checksum (fid name : string) (size : Z) : string :=
  md5_hexdigest (Py.encode (fid +:+ "-" +:+ name +:+ "-" +:+ pretty size)).

(** [allocate_storage(file_id, filename, size)], at clock reading [now]. *)
Definition allocate_storage (fid name : string) (size : Z) (now : Q) (d : t)
  : Py.res (option (list Z)) * t :=
  match Py.floordiv (size + block_size d - 1) (block_size d) with
  | Py.Raise e => (Py.Raise e, d)
  | Py.Ok required_blocks =>
      let free := free_blocks (blocks d) in
      if Py.len free <? required_blocks then (Py.Ok None, d)
      else
        let '(bl, allocated) :=
          foldl (allocate_block fid) (blocks d, [])
                (take (Z.to_nat required_blocks) free) in
        let vf := VirtualFile.mk fid name size allocated now
                    (file_checksum fid name size) in
        (Py.Ok (Some allocated),
         mk (node_id d) (capacity_bytes d) (block_size d) (total_blocks d) bl
            (<[fid := vf]> (files d))
            (allocated_blocks d + required_blocks) (used_storage d + size)
            (disk_img d))
  end.

(** The loop of [write_data] over [virtual_file.blocks[start_block:]];
    [written] is [data_written]. *)
Fixpoint write_loop (data : list byte) (ids : list Z)
    (written block_offset : Z) (d : t) : Py.res unit * t :=
  match ids with
  | [] => (Py.Ok (), d)
  | id :: ids' =>
      if Py.len data <=? written then (Py.Ok (), d)
      else
        match Py.getitem (blocks d) id with
        | None => (Py.Raise Py.index_error, d)
        | Some (pos, block) =>
            let remaining_data := Py.len data - written in
            let bytes_to_write :=
              Z.min remaining_data (block_size d - block_offset) in
            let piece := Py.slice data written (written + bytes_to_write) in
            match Py.seek (StorageBlock.start_offset block + block_offset) with
            | Py.Raise e => (Py.Raise e, d)
            | Py.Ok p =>
                let block' :=
                  StorageBlock.set_checksum (Some (md5_hexdigest piece))
                    (StorageBlock.set_status OCCUPIED block) in
                write_loop data ids' (written + bytes_to_write) 0
                  (set_blocks (<[pos := block']> (blocks d))
                     (set_disk_img (Py.file_write (disk_img d) p piece) d))
            end
        end
  end.

(** [write_data(file_id, data, offset)]. *)
Definition write_data (fid : string) (data : list byte) (offset : Z) (d : t)
  : Py.res bool * t :=
  match files d !! fid with
  | None => (Py.Ok false, d)
  | Some virtual_file =>
      match Py.floordiv offset (block_size d), Py.modulo offset (block_size d) with
      | Py.Ok start_block, Py.Ok block_offset =>
          let '(r, d') :=
            write_loop data
              (Py.slice_from (VirtualFile.blocks virtual_file) start_block)
              0 block_offset d in
          (_ ← r; Py.Ok true, d')
      | Py.Raise e, _ | _, Py.Raise e => (Py.Raise e, d)
      end
  end.

(** The loop of [read_data]; [acc] is [data]. *)
Fixpoint read_loop (size : Z) (ids : list Z) (block_offset : Z)
    (acc : list byte) (d : t) : Py.res (list byte) :=
  match ids with
  | [] => Py.Ok acc
  | id :: ids' =>
      if size <=? Py.len acc then Py.Ok acc
      else
        match Py.getitem (blocks d) id with
        | None => Py.Raise Py.index_error
        | Some (_, block) =>
            let remaining_bytes := size - Py.len acc in
            let bytes_to_read :=
              Z.min remaining_bytes (block_size d - block_offset) in
            p ← Py.seek (StorageBlock.start_offset block + block_offset);
            read_loop size ids' 0
              (acc ++ Py.file_read (disk_img d) p bytes_to_read) d
        end
  end.

(** [read_data(file_id, size, offset)]; the disk is not modified. *)
Definition read_data (fid : string) (size offset : Z) (d : t)
  : Py.res (option (list byte)) :=
  match files d !! fid with
  | None => Py.Ok None
  | Some virtual_file =>
      start_block ← Py.floordiv offset (block_size d);
      block_offset ← Py.modulo offset (block_size d);
      data ← read_loop size
               (Py.slice_from (VirtualFile.blocks virtual_file) start_block)
               block_offset [] d;
      Py.Ok (Some data)
  end.

(** The loop of [delete_file]: the block is released, then its bytes are
    overwritten with zeros. *)
Fixpoint delete_loop (ids : list Z) (d : t) : Py.res unit * t :=
  match ids with
  | [] => (Py.Ok (), d)
  | id :: ids' =>
      match Py.getitem (blocks d) id with
      | None => (Py.Raise Py.index_error, d)
      | Some (pos, block) =>
          let block' :=
            StorageBlock.set_checksum None
              (StorageBlock.set_file_id None
                 (StorageBlock.set_status FREE block)) in
          let d1 := set_blocks (<[pos := block']> (blocks d)) d in
          match Py.seek (StorageBlock.start_offset block) with
          | Py.Raise e => (Py.Raise e, d1)
          | Py.Ok p =>
              delete_loop ids'
                (set_disk_img
                   (Py.file_write (disk_img d1) p
                      (Py.zeros (StorageBlock.size block))) d1)
          end
      end
  end.

(** [delete_file(file_id)]. *)
Definition delete_file (fid : string) (d : t) : Py.res bool * t :=
  match files d !! fid with
  | None => (Py.Ok false, d)
  | Some virtual_file =>
      match delete_loop (VirtualFile.blocks virtual_file) d with
      | (Py.Raise e, d') => (Py.Raise e, d')
      | (Py.Ok _, d') =>
          (Py.Ok true,
           set_files (delete fid (files d'))
             (set_counters
                (allocated_blocks d' - Py.len (VirtualFile.blocks virtual_file))
                (used_storage d' - VirtualFile.size virtual_file) d'))
      end
  end.

(** The report of [get_storage_info]. *)
Record storage_info := mk_info {
  info_node_id : string;
  info_capacity_gb : Q;
  info_total_blocks : Z;
  info_allocated_blocks : Z;
  info_free_blocks : Z;
  info_used_storage_gb : Q;
  info_free_storage_gb : Q;
  info_utilization_percent : Q;
  info_files_stored : Z;
  info_block_size_kb : Q
}.

(** [a / b] on integers, a float. *)
Definition truediv (a b : Z) : Py.res Q :=
  if b =? 0 then Py.Raise (Py.mk_exn Py.ZeroDivisionError "division by zero")
  else Py.Ok (inject_Z a / inject_Z b)%Q.

Definition get_storage_info (d : t) : Py.res storage_info :=
  capacity_gb ← truediv (capacity_bytes d) (1024 ^ 3);
  used_gb ← truediv (used_storage d) (1024 ^ 3);
  free_gb ← truediv (capacity_bytes d - used_storage d) (1024 ^ 3);
  utilization ← truediv (used_storage d) (capacity_bytes d);
  block_size_kb ← truediv (block_size d) 1024;
  Py.Ok (mk_info (node_id d) capacity_gb (total_blocks d) (allocated_blocks d)
           (total_blocks d - allocated_blocks d) used_gb free_gb
           (utilization * inject_Z 100)%Q
           (Z.of_nat (size (files d))) block_size_kb).

(** One call of the public interface, and a sequence of calls made one
    after the other on the same disk (a call that raises leaves the disk
    as it was when it raised). *)
Inductive op :=
| Allocate (fid name : string) (size : Z) (now : Q)
| Write (fid : string) (data : list byte) (offset : Z)
| Read (fid : string) (size offset : Z)
| Delete (fid : string).

Definition step (d : t) (o : op) : t :=
  match o with
  | Allocate fid name size now => (allocate_storage fid name size now d).2
  | Write fid data offset => (write_data fid data offset d).2
  | Read _ _ _ => d
  | Delete fid => (delete_file fid d).2
  end.

Definition run (ops : list op) (d : t) : t := foldl step d ops.

End VirtualDisk.

(** ** Values that travel in messages *)

Local Unset Elimination Schemes.
Inductive pyval :=
| VNone
| VBool (b : bool)
| VInt (z : Z)
| VFloat (q : Q)
| VStr (s : string)
| VList (l : list pyval)
| VDict (kv : list (string * pyval)).
Local Set Elimination Schemes.

Module Dict.

(** A [dict] in insertion order: [d.get(k)], and [d[k] = v], which
    replaces the value of a key that is there and appends a new key. *)
Fixpoint get {A} (k : string) (kv : list (string * A)) : option A :=
  match kv with
  | [] => None
  | (k', v) :: kv' => if decide (k' = k) then Some v else get k kv'
  end.

Fixpoint set {A} (k : string) (v : A) (kv : list (string * A)) : list (string * A) :=
  match kv with
  | [] => [(k, v)]
  | (k', v') :: kv' =>
      if decide (k' = k) then (k, v) :: kv' else (k', v') :: set k v kv'
  end.

Definition key_error (k : string) : Py.exn :=
  Py.mk_exn Py.KeyError ("'" +:+ k +:+ "'").

(** [v[k]] for a string key [k]. *)
Definition subscript (v : pyval) (k : string) : Py.res pyval :=
  match v with
  | VDict kv =>
      match get k kv with
      | Some x => Py.Ok x
      | None => Py.Raise (key_error k)
      end
  | _ => Py.Raise (Py.mk_exn Py.TypeError "object is not subscriptable")
  end.

(** [v.get(k, default)]. *)
Definition get_default (v : pyval) (k : string) (dflt : pyval) : Py.res pyval :=
  match v with
  | VDict kv => Py.Ok (default dflt (get k kv))
  | _ => Py.Raise (Py.mk_exn Py.TypeError "object has no attribute 'get'")
  end.

End Dict.

(** The truth value of a Python object. *)
Definition truthy (v : pyval) : bool :=
  match v with
  | VNone => false
  | VBool b => b
  | VInt z => negb (z =? 0)
  | VFloat q => negb (Qeq_bool q 0)
  | VStr s => negb (String.eqb s "")
  | VList l => match l with [] => false | _ => true end
  | VDict kv => match kv with [] => false | _ => true end
  end.

(** [f"{v}"] for the values that are not containers. *)
Definition scalar_str (float_repr : Q -> string) (v : pyval) : string :=
  match v with
  | VNone => "None"
  | VBool b => if b then "True" else "False"
  | VInt z => pretty z
  | VFloat q => float_repr q
  | VStr s => s
  | VList _ | VDict _ => ""
  end.

(** ** The transport, as far as the RPC layer uses it ([network_manager.py]) *)

Inductive MessageTypes :=
| HEARTBEAT | HEARTBEAT_RESPONSE | DATA_TRANSFER | DATA_ACK
| RPC_REQUEST | RPC_RESPONSE | NODE_DISCOVERY | NODE_ANNOUNCE.

Module NetworkMessage.
Record t := mk {
  message_id : string;
  message_type : MessageTypes;
  source_ip : string;
  target_ip : string;
  payload : pyval;
  timestamp : Q;
  requires_ack : bool
}.
End NetworkMessage.

Module TCPCommunication.
Record t := mk {
  node_id : string;
  ip : string;
  port : Z;
  pending_acks : gmap string (NetworkMessage.t * Q)
}.

(** [send_message(target_ip, target_port, message)]. Whether the
    connection and the write succeed is decided by the network: [sent].
    A failure is caught inside and reported as [False]. *)
Definition send_message (message : NetworkMessage.t) (now : Q) (sent : bool)
    (tcp : t) : bool * t :=
  if sent then
    (true,
     if NetworkMessage.requires_ack message
     then mk (node_id tcp) (ip tcp) (port tcp)
            (<[NetworkMessage.message_id message := (message, now)]> (pending_acks tcp))
     else tcp)
  else (false, tcp).
End TCPCommunication.

(** ** The RPC layer ([RPCService] of [virtual_node.py])

    [clock] gives the successive readings of [time.time()] made during one
    call: reading number [k] is [clk k]. A registered callable closes over
    the node that registered it; [S] is the type of that node's state. *)

Definition clock := nat -> Q.

Module RPCService.

(** The future-like object of one call. *)
Record container := mk_container {
  result : pyval;
  completed : bool;
  error : pyval
}.

Section Service.
Context {S : Type}.
Variable float_repr : Q -> string.

Definition callable := pyval -> clock -> S -> Py.res pyval * S.

(** [pending_calls] maps a call id to its container and the time of the
    call. The container is shared with the caller that waits on it: it
    lives in [containers] and is designated by its position there. *)
Record t := mk {
  node_id : string;
  tcp_comm : TCPCommunication.t;
  rpc_methods : gmap string callable;
  pending_calls : gmap string (nat * Q);
  containers : list container
}.

Definition set_pending (p : gmap string (nat * Q)) (st : t) : t :=
  mk (node_id st) (tcp_comm st) (rpc_methods st) p (containers st).
Definition set_containers (c : list container) (st : t) : t :=
  mk (node_id st) (tcp_comm st) (rpc_methods st) (pending_calls st) c.
Definition set_tcp_comm (tcp : TCPCommunication.t) (st : t) : t :=
  mk (node_id st) tcp (rpc_methods st) (pending_calls st) (containers st).

(** [register_method(method_name, method)]. *)
Definition register_method (method_name : string) (method : callable) (st : t) : t :=
  mk (node_id st) (tcp_comm st) (<[method_name := method]> (rpc_methods st))
     (pending_calls st) (containers st).

Definition call_id_of (nid method_name : string) (now : Q) : string :=
  md5_hexdigest
    (Py.encode (nid +:+ "-" +:+ method_name +:+ "-" +:+ float_repr now)).

Definition request_message (st : t) (call_id target_ip method_name : string)
    (params : pyval) (now : Q) : NetworkMessage.t :=
  NetworkMessage.mk call_id RPC_REQUEST (TCPCommunication.ip (tcp_comm st)) target_ip
    (VDict [("call_id", VStr call_id);
            ("method_name", VStr method_name);
            ("params", if truthy params then params else VDict []);
            ("source_port", VInt (TCPCommunication.port (tcp_comm st)))])
    now true.

(** [del self.pending_calls[call_id]]. *)
Definition del_pending (call_id : string) (st : t) : Py.res unit * t :=
  match pending_calls st !! call_id with
  | Some _ => (Py.Ok (), set_pending (delete call_id (pending_calls st)) st)
  | None => (Py.Raise (Dict.key_error call_id), st)
  end.

(** [_handle_rpc_response(message)], run by the receiving thread. *)
Definition _handle_rpc_response (message : NetworkMessage.t) (st : t)
  : Py.res unit * t :=
  let payload := NetworkMessage.payload message in
  match Dict.subscript payload "call_id" with
  | Py.Raise e => (Py.Raise e, st)
  | Py.Ok (VList _) =>
      (Py.Raise (Py.mk_exn Py.TypeError "unhashable type: 'list'"), st)
  | Py.Ok (VDict _) =>
      (Py.Raise (Py.mk_exn Py.TypeError "unhashable type: 'dict'"), st)
  | Py.Ok (VStr call_id) =>
      match pending_calls st !! call_id with
      | None => (Py.Ok (), st)
      | Some (ref, _) =>
          let c := default (mk_container VNone false VNone) (containers st !! ref) in
          match Dict.subscript payload "result" with
          | Py.Raise e => (Py.Raise e, st)
          | Py.Ok r =>
              let c1 := mk_container r (completed c) (error c) in
              match Dict.subscript payload "error" with
              | Py.Raise e =>
                  (Py.Raise e, set_containers (<[ref := c1]> (containers st)) st)
              | Py.Ok err =>
                  (Py.Ok (),
                   set_pending (delete call_id (pending_calls st))
                     (set_containers
                        (<[ref := mk_container r true err]> (containers st)) st))
              end
          end
      end
  | Py.Ok _ => (Py.Ok (), st)
  end.

(** A response that the transport hands to the handler; an exception of
    the handler is caught and logged by the connection thread. *)
Definition deliver (st : t) (message : NetworkMessage.t) : t :=
  (_handle_rpc_response message st).2.

(** [call_remote_method], up to the moment the request has been handed
    to the transport: the call id, the position of the container, the
    request, what [send_message] returned, and the service. The network
    decides whether the request is sent ([sent]). *)
Definition issue (target_ip method_name : string) (params : pyval)
    (clk : clock) (sent : bool) (st : t)
  : string * nat * NetworkMessage.t * bool * t :=
  let call_id := call_id_of (node_id st) method_name (clk 0%nat) in
  let request := request_message st call_id target_ip method_name params (clk 1%nat) in
  let ref := length (containers st) in
  let st1 :=
    set_pending (<[call_id := (ref, clk 2%nat)]> (pending_calls st))
      (set_containers (containers st ++ [mk_container VNone false VNone]) st) in
  let '(success, tcp) :=
    TCPCommunication.send_message request (clk 3%nat) sent (tcp_comm st1) in
  (call_id, ref, request, success, set_tcp_comm tcp st1).

(** The container of a call, read through the reference the caller
    holds. *)
Definition container_at (ref : nat) (st : t) : container :=
  default (mk_container VNone false VNone) (containers st !! ref).

(** [call_remote_method], once the wait loop is over. *)
Definition conclude (method_name call_id : string) (ref : nat) (st : t)
  : Py.res pyval * t :=
  let c := container_at ref st in
  if completed c then
    if truthy (error c)
    then (Py.Raise (Py.mk_exn Py.Exception (scalar_str float_repr (error c))), st)
    else (Py.Ok (result c), st)
  else
    let '(r, st') := del_pending call_id st in
    (_ ← r;
     Py.Raise (Py.mk_exn Py.TimeoutError
                 ("RPC call to " +:+ method_name +:+ " timed out")),
     st').

(** [call_remote_method(target_ip, target_port, method_name, params,
    timeout)]. The network decides whether the request is sent and
    which responses the receiving thread handles before the wait loop
    ends ([arrivals]); the loop ends when the container is completed or
    when [timeout] has elapsed. *)
Definition call_remote_method (target_ip : string) (target_port : Z)
    (method_name : string) (params : pyval) (timeout : Q) (clk : clock)
    (sent : bool) (arrivals : list NetworkMessage.t) (st : t)
  : Py.res pyval * t :=
  let '(call_id, ref, _, success, st2) :=
    issue target_ip method_name params clk sent st in
  if success then conclude method_name call_id ref (foldl deliver st2 arrivals)
  else
    let '(r, st3) := del_pending call_id st2 in
    (_ ← r; Py.Raise (Py.mk_exn Py.Exception "Failed to send RPC request"), st3).

Definition response_message (st : t) (msg_id target_ip : string)
    (call_id res err : pyval) (now : Q) : NetworkMessage.t :=
  NetworkMessage.mk msg_id RPC_RESPONSE (TCPCommunication.ip (tcp_comm st)) target_ip
    (VDict [("call_id", call_id); ("result", res); ("error", err)])
    now false.

(** The body of the [try] of [_handle_rpc_request]: the result of the
    registered callable, or the error text of the response. *)
Definition dispatch (st : t) (method_name params : pyval) (clk : clock) (s : S)
  : (pyval * pyval) * S :=
  match method_name with
  | VList _ => ((VNone, VStr "unhashable type: 'list'"), s)
  | VDict _ => ((VNone, VStr "unhashable type: 'dict'"), s)
  | VStr name =>
      match rpc_methods st !! name with
      | Some method =>
          match method params clk s with
          | (Py.Ok r, s') => ((r, VNone), s')
          | (Py.Raise e, s') => ((VNone, VStr (Py.exn_str e)), s')
          end
      | None => ((VNone, VStr ("Method " +:+ name +:+ " not found")), s)
      end
  | v => ((VNone, VStr ("Method " +:+ scalar_str float_repr v +:+ " not found")), s)
  end.

(** [_handle_rpc_request(message)]: the response that is handed to the
    transport, with the port it is sent to, and the new state of the
    node. [msg_id] is the fresh message id and [now] the time of the
    response. A request without call id or method name raises before
    anything is sent. *)
Definition _handle_rpc_request (message : NetworkMessage.t) (msg_id : string)
    (clk : clock) (now : Q) (st : t) (s : S)
  : Py.res (pyval * NetworkMessage.t) * S :=
  let payload := NetworkMessage.payload message in
  match Dict.subscript payload "call_id", Dict.subscript payload "method_name",
        Dict.get_default payload "params" (VDict []),
        Dict.get_default payload "source_port"
          (VInt (TCPCommunication.port (tcp_comm st))) with
  | Py.Ok call_id, Py.Ok method_name, Py.Ok params, Py.Ok target_port =>
      let '((r, err), s') := dispatch st method_name params clk s in
      (Py.Ok (target_port,
              response_message st msg_id (NetworkMessage.source_ip message)
                call_id r err now),
       s')
  | Py.Raise e, _, _, _ | _, Py.Raise e, _, _
  | _, _, Py.Raise e, _ | _, _, _, Py.Raise e => (Py.Raise e, s)
  end.

(** A call from this node to the node [peer] when the transport
    delivers the request and the response: the request is handled by
    [peer], whose callables run on [s], and its response is handled by
    the caller while it waits. *)
Definition call_peer (peer : t) (s : S) (method_name : string) (params : pyval)
    (timeout : Q) (clk : clock) (msg_id : string) (peer_clk : clock)
    (peer_now : Q) (st : t) : Py.res pyval * t * S :=
  let '(call_id, ref, request, _, st2) :=
    issue (TCPCommunication.ip (tcp_comm peer)) method_name params clk true st in
  match _handle_rpc_request request msg_id peer_clk peer_now peer s with
  | (Py.Ok (_, response), s') =>
      (conclude method_name call_id ref (deliver st2 response), s')
  | (Py.Raise _, s') => (conclude method_name call_id ref st2, s')
  end.

End Service.

Global Arguments t S : clear implicits.
Global Arguments callable S : clear implicits.

End RPCService.

(** ** The node ([VirtualNode] of [virtual_node.py]) *)

Module VirtualNode.

(** The fields that the registered methods and [distribute_file] use. *)
Record t := mk {
  node_id : string;
  capacity_gb : Z;
  port : Z;
  virtual_disk : VirtualDisk.t;
  is_active : bool;
  start_time : Q;
  files_uploaded : Z;
  files_downloaded : Z;
  bytes_transferred : Z;
  active_transfers : Z
}.

Definition set_virtual_disk (d : VirtualDisk.t) (n : t) : t :=
  mk (node_id n) (capacity_gb n) (port n) d (is_active n) (start_time n)
     (files_uploaded n) (files_downloaded n) (bytes_transferred n)
     (active_transfers n).

Definition failure (err : string) : pyval :=
  VDict [("success", VBool false); ("error", VStr err)].

(** [store_file_chunk(file_id, chunk_data, chunk_hash)]; every exception
    is caught and reported in the result. *)
Definition store_file_chunk (file_id chunk_data chunk_hash : string) (now : Q)
    (n : t) : pyval * t :=
  match Hex.fromhex chunk_data with
  | Py.Raise e => (failure (Py.exn_str e), n)
  | Py.Ok chunk_bytes =>
      if negb (String.eqb (md5_hexdigest chunk_bytes) chunk_hash)
      then (failure "Hash mismatch", n)
      else
        let chunk_file_id := file_id +:+ "_chunk" in
        match VirtualDisk.allocate_storage chunk_file_id chunk_file_id
                (Py.len chunk_bytes) now (virtual_disk n) with
        | (Py.Raise e, d) => (failure (Py.exn_str e), set_virtual_disk d n)
        | (Py.Ok None, d) => (failure "Insufficient storage", set_virtual_disk d n)
        | (Py.Ok (Some allocated_blocks), d) =>
            match VirtualDisk.write_data chunk_file_id chunk_bytes 0 d with
            | (Py.Raise e, d') => (failure (Py.exn_str e), set_virtual_disk d' n)
            | (Py.Ok false, d') =>
                (failure "Failed to write data", set_virtual_disk d' n)
            | (Py.Ok true, d') =>
                (VDict [("success", VBool true);
                        ("blocks", VList (VInt <$> allocated_blocks))],
                 mk (node_id n) (capacity_gb n) (port n) d' (is_active n)
                    (start_time n) (files_uploaded n + 1) (files_downloaded n)
                    (bytes_transferred n + Py.len chunk_bytes)
                    (active_transfers n))
            end
        end
  end.

(** [retrieve_file_chunk(file_id)]. *)
Definition retrieve_file_chunk (file_id : string) (n : t) : pyval * t :=
  match VirtualDisk.read_data (file_id +:+ "_chunk") (1024 * 1024) 0
          (virtual_disk n) with
  | Py.Raise e => (failure (Py.exn_str e), n)
  | Py.Ok None => (failure "Chunk not found", n)
  | Py.Ok (Some data) =>
      (VDict [("success", VBool true);
              ("chunk_data", VStr (Hex.hex data));
              ("chunk_hash", VStr (md5_hexdigest data));
              ("size", VInt (Py.len data))],
       mk (node_id n) (capacity_gb n) (port n) (virtual_disk n) (is_active n)
          (start_time n) (files_uploaded n) (files_downloaded n + 1)
          (bytes_transferred n + Py.len data) (active_transfers n))
  end.

(** [ping()]. *)
Definition ping (clk : clock) (n : t) : pyval :=
  VDict [("success", VBool true);
         ("node_id", VStr (node_id n));
         ("timestamp", VFloat (clk 0%nat));
         ("uptime", VFloat (clk 1%nat - start_time n)%Q)].

(** [get_storage_info()], the report as the dictionary it is. *)
Definition get_storage_info (n : t) : Py.res pyval :=
  i ← VirtualDisk.get_storage_info (virtual_disk n);
  Py.Ok (VDict [("node_id", VStr (VirtualDisk.info_node_id i));
                ("capacity_gb", VFloat (VirtualDisk.info_capacity_gb i));
                ("total_blocks", VInt (VirtualDisk.info_total_blocks i));
                ("allocated_blocks", VInt (VirtualDisk.info_allocated_blocks i));
                ("free_blocks", VInt (VirtualDisk.info_free_blocks i));
                ("used_storage_gb", VFloat (VirtualDisk.info_used_storage_gb i));
                ("free_storage_gb", VFloat (VirtualDisk.info_free_storage_gb i));
                ("utilization_percent",
                 VFloat (VirtualDisk.info_utilization_percent i));
                ("files_stored", VInt (VirtualDisk.info_files_stored i));
                ("block_size_kb", VFloat (VirtualDisk.info_block_size_kb i))]).

(** [list_files()]. The files are listed in the order of [map_to_list],
    which need not be the order in which they were created. *)
Definition list_files (n : t) : pyval :=
  VDict [("files",
          VList ((fun kf : string * VirtualFile.t =>
                    VDict [("file_id", VStr (VirtualFile.file_id kf.2));
                           ("filename", VStr (VirtualFile.filename kf.2));
                           ("size_mb",
                            VFloat (inject_Z (VirtualFile.size kf.2)
                                    / inject_Z (1024 ^ 2))%Q);
                           ("blocks_count",
                            VInt (Py.len (VirtualFile.blocks kf.2)));
                           ("created_at", VFloat (VirtualFile.created_at kf.2))])
                   <$> map_to_list (VirtualDisk.files (virtual_disk n))))].

(** *** The methods as the RPC layer calls them: [method( **params)]

    The keyword arguments must be exactly the parameters of the method.
    The parameters are strings, as annotated; a request with another type
    of argument is outside the model and is refused like a wrong
    keyword. *)
Definition bad_arguments : Py.exn :=
  Py.mk_exn Py.TypeError "got an unexpected keyword argument".

Fixpoint bind_kwargs (names : list string) (kv : list (string * pyval))
  : option (list string) :=
  match names with
  | [] => Some []
  | name :: names' =>
      match Dict.get name kv with
      | Some (VStr s) => cons s <$> bind_kwargs names' kv
      | _ => None
      end
  end.

Definition kwargs (names : list string) (params : pyval) : option (list string) :=
  match params with
  | VDict kv =>
      if bool_decide (length kv = length names) then bind_kwargs names kv else None
  | _ => None
  end.

Definition store_file_chunk_method : RPCService.callable t :=
  fun params clk n =>
    match kwargs ["file_id"; "chunk_data"; "chunk_hash"] params with
    | Some [file_id; chunk_data; chunk_hash] =>
        let '(r, n') := store_file_chunk file_id chunk_data chunk_hash (clk 0%nat) n in
        (Py.Ok r, n')
    | _ => (Py.Raise bad_arguments, n)
    end.

Definition retrieve_file_chunk_method : RPCService.callable t :=
  fun params clk n =>
    match kwargs ["file_id"] params with
    | Some [file_id] =>
        let '(r, n') := retrieve_file_chunk file_id n in (Py.Ok r, n')
    | _ => (Py.Raise bad_arguments, n)
    end.

Definition get_storage_info_method : RPCService.callable t :=
  fun params clk n =>
    match kwargs [] params with
    | Some _ => (get_storage_info n, n)
    | None => (Py.Raise bad_arguments, n)
    end.

Definition ping_method : RPCService.callable t :=
  fun params clk n =>
    match kwargs [] params with
    | Some _ => (Py.Ok (ping clk n), n)
    | None => (Py.Raise bad_arguments, n)
    end.

Definition list_files_method : RPCService.callable t :=
  fun params clk n =>
    match kwargs [] params with
    | Some _ => (Py.Ok (list_files n), n)
    | None => (Py.Raise bad_arguments, n)
    end.

(** [_register_rpc_methods]. *)
Definition _register_rpc_methods (svc : RPCService.t t) : RPCService.t t :=
  RPCService.register_method "ping" ping_method
    (RPCService.register_method "list_files" list_files_method
    (RPCService.register_method "get_storage_info" get_storage_info_method
       (RPCService.register_method "retrieve_file_chunk" retrieve_file_chunk_method
          (RPCService.register_method "store_file_chunk" store_file_chunk_method svc)))).

(** *** [distribute_file]

    The environment of the distribution: the content and the base name
    of a path ([open(path, 'rb').read()], [os.path.basename]), the JSON
    text of a value ([json.dumps]), and the RPC service of this node
    under the network and the other nodes, [World]: a remote call is a
    transition of the world that returns or raises. *)
Section Distribution.
Context {World : Type}.
Variable read_file : string -> Py.res (list byte).
Variable basename : string -> string.
Variable json_dumps : pyval -> string.
Variable rpc_call_remote_method :
  string -> Z -> string -> pyval -> World -> Py.res pyval * World.

(** [self.network_manager.nodes]: node id to address, in insertion
    order. *)
Definition nodes_table := list (string * (string * Z)).

(** [call_remote_method(target_node_id, method_name, params)]. *)
Definition call_remote_method (nodes : nodes_table) (target_node_id : string)
    (method_name : string) (params : pyval) (w : World) : Py.res pyval * World :=
  match Dict.get target_node_id nodes with
  | None =>
      (Py.Raise (Py.mk_exn Py.Exception ("Node " +:+ target_node_id +:+ " not found")), w)
  | Some (ip, port) => rpc_call_remote_method ip port method_name params w
  end.

Definition chunk_size : Z := 1024 * 1024.

Record chunk := mk_chunk {
  chunk_id : string;
  data : list byte;
  chunk_index : Z
}.

(** The chunk that starts at byte [i]. *)
Definition chunk_at (file_id : string) (file_data : list byte) (i : Z) : chunk :=
  mk_chunk (file_id +:+ "_chunk_" +:+ pretty (i / chunk_size))
           (Py.slice file_data i (i + chunk_size))
           (i / chunk_size).

Definition split_chunks (file_id : string) (file_data : list byte) : list chunk :=
  chunk_at file_id file_data <$> Py.range3 0 (Py.len file_data) chunk_size.

(** A line of the console: a chunk that could not be stored, with the
    three values that the message interpolates. *)
Inductive line :=
| Failed_to_store_chunk (chunk_id target_node : string) (error : pyval).

(** The state of the distribution loop. *)
Record progress := mk_progress {
  chunk_distribution : list (string * pyval);
  successful_distributions : Z;
  stdout : list line;
  world : World
}.

Definition store_params (file_id : string) (c : chunk) : pyval :=
  VDict [("file_id", VStr file_id);
         ("chunk_data", VStr (Hex.hex (data c)));
         ("chunk_hash", VStr (md5_hexdigest (data c)))].

(** The body of the loop for chunk number [i]. *)
Definition distribute_chunk (nodes : nodes_table) (available_nodes : list string)
    (file_id : string) (i : Z) (c : chunk) (p : progress) : Py.res unit * progress :=
  match Py.modulo i (Py.len available_nodes) with
  | Py.Raise e => (Py.Raise e, p)
  | Py.Ok k =>
      match Py.getitem available_nodes k with
      | None => (Py.Raise Py.index_error, p)
      | Some (_, target_node) =>
          match call_remote_method nodes target_node "store_file_chunk"
                  (store_params file_id c) (world p) with
          | (Py.Raise e, w) =>
              (Py.Raise e,
               mk_progress (chunk_distribution p) (successful_distributions p)
                 (stdout p) w)
          | (Py.Ok result, w) =>
              match Dict.subscript result "success" with
              | Py.Raise e =>
                  (Py.Raise e,
                   mk_progress (chunk_distribution p) (successful_distributions p)
                     (stdout p) w)
              | Py.Ok success =>
                  if truthy success then
                    (Py.Ok (),
                     mk_progress
                       (Dict.set (chunk_id c) (VStr target_node) (chunk_distribution p))
                       (successful_distributions p + 1) (stdout p) w)
                  else
                    match Dict.get_default result "error" (VStr "Unknown error") with
                    | Py.Raise e =>
                        (Py.Raise e,
                         mk_progress (chunk_distribution p)
                           (successful_distributions p) (stdout p) w)
                    | Py.Ok err =>
                        (Py.Ok (),
                         mk_progress (chunk_distribution p)
                           (successful_distributions p)
                           (stdout p ++ [Failed_to_store_chunk (chunk_id c) target_node err])
                           w)
                    end
              end
          end
      end
  end.

(** [for i, chunk in enumerate(chunks)]: the loop stops at the first
    exception. *)
Fixpoint distribute_chunks (nodes : nodes_table) (available_nodes : list string)
    (file_id : string) (i : Z) (chunks : list chunk) (p : progress)
  : Py.res unit * progress :=
  match chunks with
  | [] => (Py.Ok (), p)
  | c :: chunks' =>
      match distribute_chunk nodes available_nodes file_id i c p with
      | (Py.Raise e, p') => (Py.Raise e, p')
      | (Py.Ok _, p') =>
          distribute_chunks nodes available_nodes file_id (i + 1) chunks' p'
      end
  end.

Definition failed (e : Py.exn) : pyval := failure (Py.exn_str e).

(** [distribute_file(file_path, replication_factor)], at clock reading
    [now]: the result, the node, the world and the console output. *)
Definition distribute_file (nodes : nodes_table) (file_path : string)
    (replication_factor : Z) (now : Q) (self : t) (w : World)
  : pyval * t * World * list line :=
  match read_file file_path with
  | Py.Raise e => (failed e, self, w, [])
  | Py.Ok file_data =>
      let file_id := md5_hexdigest file_data in
      let file_size := Py.len file_data in
      let all_nodes := nodes.*1 in
      let available_nodes :=
        filter (fun node => node ≠ node_id self) all_nodes in
      if Py.len available_nodes =? 0
      then (failure "No other nodes available", self, w, [])
      else
        let actual_replication := Z.min replication_factor (Py.len available_nodes) in
        let chunks := split_chunks file_id file_data in
        match distribute_chunks nodes available_nodes file_id 0 chunks
                (mk_progress [] 0 [] w) with
        | (Py.Raise e, p) => (failed e, self, world p, stdout p)
        | (Py.Ok _, p) =>
            let metadata :=
              VDict [("file_id", VStr file_id);
                     ("filename", VStr (basename file_path));
                     ("file_size", VInt file_size);
                     ("chunk_count", VInt (Py.len chunks));
                     ("chunk_distribution", VDict (chunk_distribution p));
                     ("created_at", VFloat now)] in
            match VirtualDisk.write_data (file_id +:+ "_metadata")
                    (Py.encode (json_dumps metadata)) 0 (virtual_disk self) with
            | (Py.Raise e, d) =>
                (failed e, set_virtual_disk d self, world p, stdout p)
            | (Py.Ok _, d) =>
                (VDict [("success", VBool true);
                        ("file_id", VStr file_id);
                        ("filename", VStr (basename file_path));
                        ("file_size", VInt file_size);
                        ("chunk_count", VInt (Py.len chunks));
                        ("chunks_distributed", VInt (successful_distributions p));
                        ("chunk_distribution", VDict (chunk_distribution p));
                        ("replication_factor", VInt actual_replication)],
                 set_virtual_disk d self, world p, stdout p)
            end
        end
  end.

End Distribution.

End VirtualNode.

(** ** Well-formed disks

    What the constructor establishes and every operation keeps: the block
    at position [i] is block number [i] and covers the bytes from
    [i * block_size]; the counter of allocated blocks counts the blocks
    that are not free; a free block names no file; the blocks listed by a
    file record exist, are not free and are listed once, by that record
    only. *)

Definition non_free (b : StorageBlock.t) : Prop := StorageBlock.status b <> FREE.

Global Instance non_free_dec b : Decision (non_free b).
Proof. unfold non_free. apply _. Defined.

Definition count_non_free (bl : list StorageBlock.t) : Z :=
  Py.len (filter non_free bl).

Definition owns (d : VirtualDisk.t) (vf : VirtualFile.t) : Prop :=
  NoDup (VirtualFile.blocks vf) /\
  forall id, id ∈ VirtualFile.blocks vf ->
    0 <= id /\ exists b, VirtualDisk.blocks d !! Z.to_nat id = Some b /\ non_free b.

Record disk_inv (d : VirtualDisk.t) : Prop := mk_disk_inv {
  inv_block_size : 0 < VirtualDisk.block_size d;
  inv_layout : forall i b, VirtualDisk.blocks d !! i = Some b ->
    StorageBlock.block_id b = Z.of_nat i /\
    StorageBlock.start_offset b = Z.of_nat i * VirtualDisk.block_size d /\
    StorageBlock.size b = VirtualDisk.block_size d;
  inv_total : VirtualDisk.total_blocks d = Py.len (VirtualDisk.blocks d);
  inv_count : VirtualDisk.allocated_blocks d = count_non_free (VirtualDisk.blocks d);
  inv_free : forall i b, VirtualDisk.blocks d !! i = Some b ->
    StorageBlock.status b = FREE ->
    StorageBlock.file_id b = None /\ StorageBlock.checksum b = None;
  inv_owned : forall fid vf, VirtualDisk.files d !! fid = Some vf -> owns d vf;
  inv_disjoint : forall f1 f2 vf1 vf2, f1 <> f2 ->
    VirtualDisk.files d !! f1 = Some vf1 -> VirtualDisk.files d !! f2 = Some vf2 ->
    forall id, id ∈ VirtualFile.blocks vf1 -> id ∉ VirtualFile.blocks vf2
}.


(** The block that an allocation hands out. *)
Definition mark (fid : string) (b : StorageBlock.t) : StorageBlock.t :=
  StorageBlock.set_file_id (Some fid) (StorageBlock.set_status ALLOCATED b).

(** The geometry of the block table alone. *)
Definition laid_out (d : VirtualDisk.t) : Prop :=
  0 < VirtualDisk.block_size d /\
  forall i b, VirtualDisk.blocks d !! i = Some b ->
    StorageBlock.block_id b = Z.of_nat i /\
    StorageBlock.start_offset b = Z.of_nat i * VirtualDisk.block_size d /\
    StorageBlock.size b = VirtualDisk.block_size d.

Definition same_geometry (b b' : StorageBlock.t) : Prop :=
  StorageBlock.block_id b' = StorageBlock.block_id b /\
  StorageBlock.start_offset b' = StorageBlock.start_offset b /\
  StorageBlock.size b' = StorageBlock.size b.

(** [touched st ids d d']: the disk [d'] differs from [d] at most in the
    blocks numbered in [ids], which then have status [st], and in the bytes
    of the image that these blocks cover. A part of the image that [d] has
    and that lies outside these blocks reads the same before and after. *)
Record touched (upd : StorageBlock.t -> StorageBlock.t -> Prop) (ids : list Z)
    (d d' : VirtualDisk.t) : Prop := mk_touched {
  touched_node_id : VirtualDisk.node_id d' = VirtualDisk.node_id d;
  touched_capacity : VirtualDisk.capacity_bytes d' = VirtualDisk.capacity_bytes d;
  touched_block_size : VirtualDisk.block_size d' = VirtualDisk.block_size d;
  touched_total : VirtualDisk.total_blocks d' = VirtualDisk.total_blocks d;
  touched_files : VirtualDisk.files d' = VirtualDisk.files d;
  touched_allocated : VirtualDisk.allocated_blocks d' = VirtualDisk.allocated_blocks d;
  touched_used : VirtualDisk.used_storage d' = VirtualDisk.used_storage d;
  touched_length : length (VirtualDisk.blocks d') = length (VirtualDisk.blocks d);
  touched_blocks : forall i b, VirtualDisk.blocks d !! i = Some b ->
    exists b', VirtualDisk.blocks d' !! i = Some b' /\ same_geometry b b' /\
               (b' = b \/ Z.of_nat i ∈ ids /\ upd b b');
  touched_img_length :
    (length (VirtualDisk.disk_img d) <= length (VirtualDisk.disk_img d'))%nat;
  touched_img : forall q n, 0 <= n ->
    (q + Z.to_nat n <= length (VirtualDisk.disk_img d))%nat ->
    (forall id, id ∈ ids ->
       Z.of_nat q + n <= id * VirtualDisk.block_size d \/
       (id + 1) * VirtualDisk.block_size d <= Z.of_nat q) ->
    Py.file_read (VirtualDisk.disk_img d') q n = Py.file_read (VirtualDisk.disk_img d) q n
}.

(** What [write_data] does to a block it writes to, and [delete_file] to a
    block it releases. *)
Definition occupied (b b' : StorageBlock.t) : Prop :=
  StorageBlock.status b' = OCCUPIED /\
  StorageBlock.file_id b' = StorageBlock.file_id b.

Definition released (b b' : StorageBlock.t) : Prop :=
  StorageBlock.status b' = FREE /\ StorageBlock.file_id b' = None /\
  StorageBlock.checksum b' = None.

(** The state after the first iteration of the write loop. *)
Definition write_first (data : list byte) (id written block_offset : Z)
    (b : StorageBlock.t) (d : VirtualDisk.t) : VirtualDisk.t :=
  let n := Z.min (Py.len data - written) (VirtualDisk.block_size d - block_offset) in
  let piece := Py.slice data written (written + n) in
  VirtualDisk.set_blocks
    (<[Z.to_nat id :=
         StorageBlock.set_checksum (Some (md5_hexdigest piece))
           (StorageBlock.set_status OCCUPIED b)]> (VirtualDisk.blocks d))
    (VirtualDisk.set_disk_img
       (Py.file_write (VirtualDisk.disk_img d)
          (Z.to_nat (id * VirtualDisk.block_size d + block_offset)) piece) d).


(** The block that [delete_file] leaves, and the state after the first
    iteration of its loop. *)
Definition release (b : StorageBlock.t) : StorageBlock.t :=
  StorageBlock.set_checksum None
    (StorageBlock.set_file_id None (StorageBlock.set_status FREE b)).

Definition delete_first (id : Z) (b : StorageBlock.t) (d : VirtualDisk.t)
  : VirtualDisk.t :=
  VirtualDisk.set_blocks (<[Z.to_nat id := release b]> (VirtualDisk.blocks d))
    (VirtualDisk.set_disk_img
       (Py.file_write (VirtualDisk.disk_img d)
          (Z.to_nat (id * VirtualDisk.block_size d))
          (Py.zeros (StorageBlock.size b))) d).

(** A block as [delete_file] leaves it: free, without file id and
    checksum, its bytes in the image all zero. *)
Definition wiped (d : VirtualDisk.t) (id : Z) : Prop :=
  exists b, VirtualDisk.blocks d !! Z.to_nat id = Some b /\
    StorageBlock.status b = FREE /\ StorageBlock.file_id b = None /\
    StorageBlock.checksum b = None /\
    Py.file_read (VirtualDisk.disk_img d)
      (Z.to_nat (id * VirtualDisk.block_size d)) (VirtualDisk.block_size d)
    = Py.zeros (VirtualDisk.block_size d).


(** The ceiling of [size / bs]. *)
Definition is_ceil (n size bs : Z) : Prop := (n - 1) * bs < size <= n * bs.

(** The image has the bytes of every block, as it has when the
    constructor created it. *)
Definition img_covers (d : VirtualDisk.t) : Prop :=
  Py.len (VirtualDisk.blocks d) * VirtualDisk.block_size d
  <= Py.len (VirtualDisk.disk_img d).

(** The result of a [store_file_chunk] that stored the chunk in [blocks]. *)
Definition stored (blocks : list Z) : pyval :=
  VDict [("success", VBool true); ("blocks", VList (VInt <$> blocks))].

(** The result of a [retrieve_file_chunk] that returns the bytes [data]. *)
Definition retrieved (data : list byte) : pyval :=
  VDict [("success", VBool true);
         ("chunk_data", VStr (Hex.hex data));
         ("chunk_hash", VStr (md5_hexdigest data));
         ("size", VInt (Py.len data))].



(** The candidate nodes of a distribution that [self] starts: the known
    node ids except its own, in the order of the table. *)
Definition candidates (nodes : VirtualNode.nodes_table) (self : VirtualNode.t)
  : list string :=
  filter (fun node => node ≠ VirtualNode.node_id self) nodes.*1.


(** ** Disks used as examples *)

Module Example.

(** A disk of three blocks of four bytes, with the image filled with
    zeros as [_initialize_disk] leaves it. *)
Definition small_disk : VirtualDisk.t :=
  VirtualDisk.mk "n" 12 4 3 (VirtualDisk._initialize_blocks 4 3) ∅ 0 0 (Py.zeros 12).

(** The same disk with a file of six bytes allocated on it. *)
Definition small_disk_with_file : VirtualDisk.t :=
  (VirtualDisk.allocate_storage "f" "f.txt" 6 0%Q small_disk).2.

Definition the_file : VirtualFile.t :=
  VirtualFile.mk "f" "f.txt" 6 [0; 1] 0%Q (VirtualDisk.file_checksum "f" "f.txt" 6).

(** A disk of exactly one block of 64 KiB. *)
Definition one_block_disk (nid : string) (img : list byte) : VirtualDisk.t :=
  VirtualDisk.mk nid 65536 65536 1 (VirtualDisk._initialize_blocks 65536 1) ∅ 0 0 img.

(** A node on the small disk. *)
Definition small_node : VirtualNode.t :=
  VirtualNode.mk "B" 1 8001 small_disk true 0%Q 0 0 0 0.

(** The disk of a new node of 1 GB with the default block size, as
    [VirtualDisk("B", 1)] makes it when there is no image yet: 16384 free
    blocks of 64 KiB over an image of zeros. *)
Definition fresh_img : list byte :=
  Py.file_write [] (Z.to_nat (1 * 1024 * 1024 * 1024 - 1)) [x00].

Definition disk_over (img : list byte) : VirtualDisk.t :=
  VirtualDisk.mk "B" (1 * 1024 * 1024 * 1024) (64 * 1024) 16384
    (VirtualDisk._initialize_blocks (64 * 1024) 16384) ∅ 0 0 img.

Definition node_over (img : list byte) : VirtualNode.t :=
  VirtualNode.mk "B" 1 8001 (disk_over img) true 0%Q 0 0 0 0.

(** Two chunks of one distributed file, one byte each. *)
Definition chunk_a : list byte := Py.encode "a".
Definition chunk_b : list byte := Py.encode "b".

(** [str] of a float, exact on the readings that are whole numbers. *)
Definition float_repr (q : Q) : string :=
  pretty (Qnum q / Zpos (Qden q)) +:+ ".0".

(** The RPC service of a node, with the methods that [VirtualNode]
    registers. *)
Definition service (nid ip : string) (port : Z) : RPCService.t VirtualNode.t :=
  VirtualNode._register_rpc_methods
    (RPCService.mk nid (TCPCommunication.mk nid ip port ∅) ∅ ∅ []).

Definition service_a := service "A" "127.0.0.1" 8000.
Definition service_b := service "B" "127.0.0.1" 8001.

(** The clock of the examples: reading number [k] is [10 + k]. *)
Definition clk : clock := fun k => inject_Z (10 + Z.of_nat k).

End Example.

(** ** A cluster used as example *)

Module Cluster.

(** Three nodes; node A distributes. *)
Definition nodes : VirtualNode.nodes_table :=
  [("A", ("127.0.0.1", 8000)); ("B", ("127.0.0.1", 8001)); ("C", ("127.0.0.1", 8002))].

Definition node_a : VirtualNode.t :=
  VirtualNode.mk "A" 1 8000 Example.small_disk true 0%Q 0 0 0 0.

(** A file of three bytes, which is one chunk, and a file of two chunk
    sizes and one byte, which is three chunks. *)
Definition small_file : list byte := Py.encode "abc".

Definition read_small (path : string) : Py.res (list byte) := Py.Ok small_file.

(** Paths without directory, and a serializer whose text does not
    matter here. *)
Definition basename (path : string) : string := path.
Definition json_dumps (v : pyval) : string := "{}".

(** Peers seen from node A; the world is the number of calls made so
    far. The first kind stores every chunk, the second has no room for
    any, with the third the call number [k] (from 0) times out. *)
Definition stores_all (ip : string) (port : Z) (method_name : string)
    (params : pyval) (calls : nat) : Py.res pyval * nat :=
  (Py.Ok (stored [0]), S calls).



End Cluster.

(** * More of the network and of the node

    ** The addresses of the nodes ([network_manager.py], [IPManager]) *)

Module IPManager.

Record t := mk {
  use_localhost : bool;
  allocated_ips : gmap string string;
  ip_to_node : gmap string string;
  next_host : Z
}.

Definition __init__ (use_localhost : bool) : t := mk use_localhost ∅ ∅ 1.

(** [allocate_ip(node_id)]. *)
Definition allocate_ip (node_id : string) (m : t) : Py.res string * t :=
  match allocated_ips m !! node_id with
  | Some ip => (Py.Ok ip, m)
  | None =>
      if use_localhost m then
        (Py.Ok "127.0.0.1",
         mk (use_localhost m) (<[node_id := "127.0.0.1"]> (allocated_ips m))
            (<["127.0.0.1" := node_id]> (ip_to_node m)) (next_host m))
      else if 254 <? next_host m then
        (Py.Raise (Py.mk_exn Py.Exception "No more IP addresses available"), m)
      else
        let ip := "10.0.0." +:+ pretty (next_host m) in
        (Py.Ok ip,
         mk (use_localhost m) (<[node_id := ip]> (allocated_ips m))
            (<[ip := node_id]> (ip_to_node m)) (next_host m + 1))
  end.

Definition get_node_ip (node_id : string) (m : t) : option string :=
  allocated_ips m !! node_id.

Definition get_node_from_ip (ip : string) (m : t) : option string :=
  ip_to_node m !! ip.

(** [release_ip(node_id)]: the two [del] statements, the second of which
    raises [KeyError] when the address is not in [ip_to_node], after the
    first one has taken effect. *)
Definition release_ip (node_id : string) (m : t) : Py.res bool * t :=
  match allocated_ips m !! node_id with
  | Some ip =>
      let m1 :=
        mk (use_localhost m) (delete node_id (allocated_ips m)) (ip_to_node m)
           (next_host m) in
      match ip_to_node m1 !! ip with
      | Some _ =>
          (Py.Ok true,
           mk (use_localhost m1) (allocated_ips m1) (delete ip (ip_to_node m1))
              (next_host m1))
      | None => (Py.Raise (Dict.key_error ip), m1)
      end
  | None => (Py.Ok false, m)
  end.

(** A sequence of calls. *)
Inductive op :=
| Allocate (node_id : string)
| Release (node_id : string).

Definition step (m : t) (o : op) : t :=
  match o with
  | Allocate node_id => (allocate_ip node_id m).2
  | Release node_id => (release_ip node_id m).2
  end.

Definition run (m : t) (ops : list op) : t := foldl step m ops.

End IPManager.

(** ** The acknowledgements that a transport waits for
    ([network_manager.py], [TCPCommunication]) *)

Module Acks.

(** [self.ack_timeout], as [__init__] sets it. *)
Definition ack_timeout : Q := 5.

Definition set_pending_acks (p : gmap string (NetworkMessage.t * Q))
    (tcp : TCPCommunication.t) : TCPCommunication.t :=
  TCPCommunication.mk (TCPCommunication.node_id tcp) (TCPCommunication.ip tcp)
    (TCPCommunication.port tcp) p.

(** [_handle_ack(ack_message)]. *)
Definition _handle_ack (ack_message : NetworkMessage.t) (tcp : TCPCommunication.t)
  : Py.res unit * TCPCommunication.t :=
  match Dict.get_default (NetworkMessage.payload ack_message)
          "original_message_id" VNone with
  | Py.Raise e => (Py.Raise e, tcp)
  | Py.Ok (VList _) =>
      (Py.Raise (Py.mk_exn Py.TypeError "unhashable type: 'list'"), tcp)
  | Py.Ok (VDict _) =>
      (Py.Raise (Py.mk_exn Py.TypeError "unhashable type: 'dict'"), tcp)
  | Py.Ok (VStr original_message_id) =>
      match TCPCommunication.pending_acks tcp !! original_message_id with
      | Some _ =>
          (Py.Ok (),
           set_pending_acks
             (delete original_message_id (TCPCommunication.pending_acks tcp)) tcp)
      | None => (Py.Ok (), tcp)
      end
  | Py.Ok _ => (Py.Ok (), tcp)
  end.

(** One turn of the loop of [_ack_checker], at time [current_time]: the
    ids of the expired messages are collected, then deleted one by one. *)
Definition expired (current_time : Q) (entry : string * (NetworkMessage.t * Q))
  : bool :=
  negb (Qle_bool (current_time - entry.2.2) ack_timeout).

Definition expired_messages (current_time : Q) (tcp : TCPCommunication.t)
  : list string :=
  (filter (fun entry => expired current_time entry = true)
     (map_to_list (TCPCommunication.pending_acks tcp))).*1.

Definition _ack_checker (current_time : Q) (tcp : TCPCommunication.t)
  : TCPCommunication.t :=
  set_pending_acks
    (foldl (fun p message_id => delete message_id p)
       (TCPCommunication.pending_acks tcp) (expired_messages current_time tcp))
    tcp.

End Acks.

(** ** The processes of a node ([virtual_node.py], [ProcessManager]) *)

Inductive ProcessState := READY | WAITING | RUNNING | COMPLETED | FAILED.

Module Process.
Record t := mk {
  process_id : string;
  name : string;
  state : ProcessState;
  created_at : Q;
  started_at : option Q;
  completed_at : option Q;
  result : pyval;
  error : option string
}.

Definition set_state (s : ProcessState) (p : t) : t :=
  mk (process_id p) (name p) s (created_at p) (started_at p) (completed_at p)
     (result p) (error p).
Definition set_started_at (now : Q) (p : t) : t :=
  mk (process_id p) (name p) (state p) (created_at p) (Some now) (completed_at p)
     (result p) (error p).
Definition set_completed_at (now : Q) (p : t) : t :=
  mk (process_id p) (name p) (state p) (created_at p) (started_at p) (Some now)
     (result p) (error p).
End Process.

Module ProcessManager.

Record t := mk {
  node_id : string;
  processes : gmap string Process.t;
  ready_queue : list string;
  waiting_processes : gmap string string;
  running : bool
}.

Definition __init__ (node_id : string) : t := mk node_id ∅ [] ∅ true.

Definition process_id_of (float_repr : Q -> string) (nid name : string) (now : Q)
  : string :=
  md5_hexdigest (Py.encode (nid +:+ "-" +:+ name +:+ "-" +:+ float_repr now)).

(** [create_process(name, task)]; the task is not kept. *)
Definition create_process (float_repr : Q -> string) (name : string) (clk : clock)
    (pm : t) : string * t :=
  let process_id := process_id_of float_repr (node_id pm) name (clk 0%nat) in
  let process := Process.mk process_id name READY (clk 1%nat) None None VNone None in
  (process_id,
   mk (node_id pm) (<[process_id := process]> (processes pm))
      (ready_queue pm ++ [process_id]) (waiting_processes pm) (running pm)).

(** [l.remove(x)] for an [x] that is in [l]: the first occurrence goes. *)
Fixpoint list_remove (x : string) (l : list string) : list string :=
  match l with
  | [] => []
  | y :: l' => if decide (y = x) then l' else y :: list_remove x l'
  end.

(** The truth value of the [reason] argument. *)
Definition reason_given (reason : option string) : option string :=
  match reason with
  | Some r => if String.eqb r "" then None else Some r
  | None => None
  end.

(** [set_process_state(process_id, state, reason)], at time [now]. *)
Definition set_process_state (process_id : string) (state : ProcessState)
    (reason : option string) (now : Q) (pm : t) : t :=
  match processes pm !! process_id with
  | None => pm
  | Some process =>
      let old_state := Process.state process in
      let '(queue, waiting) :=
        match old_state with
        | READY =>
            if bool_decide (process_id ∈ ready_queue pm)
            then (list_remove process_id (ready_queue pm), waiting_processes pm)
            else (ready_queue pm, waiting_processes pm)
        | WAITING =>
            match waiting_processes pm !! process_id with
            | Some _ => (ready_queue pm, delete process_id (waiting_processes pm))
            | None => (ready_queue pm, waiting_processes pm)
            end
        | _ => (ready_queue pm, waiting_processes pm)
        end in
      let process1 := Process.set_state state process in
      match state with
      | READY =>
          mk (node_id pm) (<[process_id := process1]> (processes pm))
             (queue ++ [process_id]) waiting (running pm)
      | WAITING =>
          match reason_given reason with
          | Some r =>
              mk (node_id pm) (<[process_id := process1]> (processes pm)) queue
                 (<[process_id := r]> waiting) (running pm)
          | None =>
              mk (node_id pm) (<[process_id := process1]> (processes pm)) queue
                 waiting (running pm)
          end
      | RUNNING =>
          mk (node_id pm)
             (<[process_id := Process.set_started_at now process1]> (processes pm))
             queue waiting (running pm)
      | COMPLETED | FAILED =>
          mk (node_id pm)
             (<[process_id := Process.set_completed_at now process1]> (processes pm))
             queue waiting (running pm)
      end
  end.

(** [get_next_ready_process()]. *)
Definition get_next_ready_process (pm : t) : option string * t :=
  match ready_queue pm with
  | [] => (None, pm)
  | process_id :: queue =>
      (Some process_id,
       mk (node_id pm) (processes pm) queue (waiting_processes pm) (running pm))
  end.

(** One turn of [_scheduler_loop]: the process at the head of the queue
    runs at [clk 0] and is completed at [clk 1]. *)
Definition scheduler_turn (clk : clock) (pm : t) : t :=
  match ready_queue pm with
  | [] => pm
  | _ :: _ =>
      match get_next_ready_process pm with
      | (Some process_id, pm1) =>
          if String.eqb process_id "" then pm1
          else
            set_process_state process_id COMPLETED None (clk 1%nat)
              (set_process_state process_id RUNNING None (clk 0%nat) pm1)
      | (None, pm1) => pm1
      end
  end.

(** [n] turns of the scheduler; turn [k] reads the clock at [2k] and
    [2k + 1]. *)
Fixpoint scheduler_turns (n : nat) (clk : clock) (pm : t) : t :=
  match n with
  | O => pm
  | S n' => scheduler_turns n' (fun k => clk (2 + k)%nat) (scheduler_turn clk pm)
  end.

End ProcessManager.

(** ** What the added code is expected to keep *)

(** The two tables of an address manager mirror each other. *)
Definition ip_tables_agree (m : IPManager.t) : Prop :=
  forall node_id ip,
    IPManager.allocated_ips m !! node_id = Some ip <->
    IPManager.ip_to_node m !! ip = Some node_id.

(** The addresses handed out so far are below [next_host]. *)
Definition ip_below_next (m : IPManager.t) : Prop :=
  1 <= IPManager.next_host m /\
  forall node_id ip,
    IPManager.allocated_ips m !! node_id = Some ip ->
    exists h, 1 <= h < IPManager.next_host m /\ ip = "10.0.0." +:+ pretty h.

(** The queue of ready processes holds each id once, and only ids of
    processes that are ready; the waiting table holds only processes that
    wait. *)
Record queues_sound (pm : ProcessManager.t) : Prop := {
  queue_NoDup : NoDup (ProcessManager.ready_queue pm);
  queue_ready : forall pid, pid ∈ ProcessManager.ready_queue pm ->
    exists p, ProcessManager.processes pm !! pid = Some p /\ Process.state p = READY;
  waiting_waits : forall pid r, ProcessManager.waiting_processes pm !! pid = Some r ->
    exists p, ProcessManager.processes pm !! pid = Some p /\ Process.state p = WAITING
}.

(** ** A manager with two processes, used as example *)

Module Processes.

Definition one : ProcessManager.t :=
  (ProcessManager.create_process Example.float_repr "upload" Example.clk
     (ProcessManager.__init__ "A")).2.

Definition two : ProcessManager.t :=
  (ProcessManager.create_process Example.float_repr "backup"
     (fun k => Example.clk (2 + k)%nat) one).2.

End Processes.

(** ** A peer with a method that fails, used as example *)

Module Failing.

Definition boom : RPCService.callable VirtualNode.t :=
  fun params clk n => (Py.Raise (Py.mk_exn Py.ValueError "boom"), n).

Definition service_b : RPCService.t VirtualNode.t :=
  RPCService.register_method "boom" boom Example.service_b.

End Failing.

(** ** A disk with two files, used as example *)

Module TwoFiles.

Definition disk : VirtualDisk.t :=
  (VirtualDisk.allocate_storage "g" "g.txt" 4 1%Q Example.small_disk_with_file).2.

Definition file_g : VirtualFile.t :=
  VirtualFile.mk "g" "g.txt" 4 [2] 1%Q (VirtualDisk.file_checksum "g" "g.txt" 4).

End TwoFiles.

(** The bytes that [write_data], called with offset 0, puts in the block
    at position [k] of a file, and the block as the write leaves it. *)
Definition piece_of (data : list byte) (bs k : Z) : list byte :=
  Py.slice data (k * bs) (k * bs + Z.min (Py.len data - k * bs) bs).

Definition written (piece : list byte) (b : StorageBlock.t) : StorageBlock.t :=
  StorageBlock.set_checksum (Some (md5_hexdigest piece))
    (StorageBlock.set_status OCCUPIED b).

(** ** The table of nodes ([network_manager.py], [NetworkManager]) *)

Module NetworkManager.

(** What [start_server] met when it bound the socket: the address was
    accepted; or it was not available and the server fell back to
    localhost, which was accepted or refused with an error; or the first
    attempt failed with another error. *)
Inductive bind_outcome :=
| Bound
| Fallback
| FallbackRefused (e : Py.exn)
| Refused (e : Py.exn).

Record t := mk {
  ip_manager : IPManager.t;
  nodes : list (string * TCPCommunication.t);
  node_status : list (string * bool)
}.

Definition __init__ (use_localhost : bool) : t :=
  mk (IPManager.__init__ use_localhost) [] [].

Definition set_ip (ip : string) (tcp : TCPCommunication.t) : TCPCommunication.t :=
  TCPCommunication.mk (TCPCommunication.node_id tcp) ip (TCPCommunication.port tcp)
    (TCPCommunication.pending_acks tcp).

(** [tcp_comm.start_server()], as far as the transport record shows
    it. *)
Definition start_server (outcome : bind_outcome) (tcp : TCPCommunication.t)
  : Py.res unit * TCPCommunication.t :=
  match outcome with
  | Bound => (Py.Ok (), tcp)
  | Fallback => (Py.Ok (), set_ip "127.0.0.1" tcp)
  | FallbackRefused e => (Py.Raise e, set_ip "127.0.0.1" tcp)
  | Refused e => (Py.Raise e, tcp)
  end.

(** [add_node(node_id, port)]. The transport is entered in the table
    before its server starts, and it is the object in the table that
    [start_server] modifies. *)
Definition add_node (node_id : string) (port : Z) (outcome : bind_outcome) (nm : t)
  : Py.res string * t :=
  match IPManager.allocate_ip node_id (ip_manager nm) with
  | (Py.Raise e, ipm) => (Py.Raise e, mk ipm (nodes nm) (node_status nm))
  | (Py.Ok ip, ipm) =>
      let '(r, tcp_comm) :=
        start_server outcome (TCPCommunication.mk node_id ip port ∅) in
      (_ ← r; Py.Ok ip,
       mk ipm (Dict.set node_id tcp_comm (nodes nm))
          (Dict.set node_id true (node_status nm)))
  end.

(** The body of the loop of [discover_nodes] for one entry of the table;
    [reachable] tells for which nodes [send_message] returns [True]. *)
Definition discover_step (node_id : string) (reachable : string -> bool)
    (acc : list string * list (string * bool))
    (entry : string * TCPCommunication.t) : list string * list (string * bool) :=
  if decide (entry.1 = node_id) then acc
  else if reachable entry.1
       then (acc.1 ++ [entry.1], Dict.set entry.1 true acc.2)
       else acc.

(** [discover_nodes(node_id)]. *)
Definition discover_nodes (node_id : string) (reachable : string -> bool) (nm : t)
  : list string * t :=
  match Dict.get node_id (nodes nm) with
  | None => ([], nm)
  | Some _ =>
      let '(discovered_nodes, status) :=
        foldl (discover_step node_id reachable) ([], node_status nm) (nodes nm) in
      (discovered_nodes, mk (ip_manager nm) (nodes nm) status)
  end.

(** [check_node_status(node_id)]; the heartbeats it sends leave no
    trace in the manager. *)
Definition check_node_status (node_id : string) (nm : t) : bool :=
  match Dict.get node_id (nodes nm), Dict.get node_id (node_status nm) with
  | Some _, Some _ => true
  | _, _ => false
  end.

(** [get_network_info()]. *)
Record network_info := mk_info {
  total_nodes : Z;
  active_nodes : Z;
  node_ips : list (string * string);
  info_node_status : list (string * bool)
}.

Definition get_network_info (nm : t) : network_info :=
  mk_info (Py.len (nodes nm))
    (Py.len (filter (fun entry => entry.2 = true) (node_status nm)))
    ((fun entry => (entry.1, TCPCommunication.ip entry.2)) <$> nodes nm)
    (node_status nm).

(** A sequence of calls. *)
Inductive op :=
| AddNode (node_id : string) (port : Z) (outcome : bind_outcome)
| DiscoverNodes (node_id : string) (reachable : string -> bool).

Definition step (nm : t) (o : op) : t :=
  match o with
  | AddNode node_id port outcome => (add_node node_id port outcome nm).2
  | DiscoverNodes node_id reachable => (discover_nodes node_id reachable nm).2
  end.

Definition run (nm : t) (ops : list op) : t := foldl step nm ops.

End NetworkManager.

(** The status table has the nodes of the node table, all of them marked
    alive. *)
Definition all_alive (nm : NetworkManager.t) : Prop :=
  (NetworkManager.node_status nm).*1 = (NetworkManager.nodes nm).*1 /\
  Forall (fun entry => entry.2 = true) (NetworkManager.node_status nm).
(** * Properties *)

(** ** Python primitives *)

Section PyFacts.
Context {A : Type}.
Implicit Types l : list A.

Lemma len_nonneg l : 0 <= Py.len l.
Proof. unfold Py.len. lia. Qed.

Lemma len_app l1 l2 : Py.len (l1 ++ l2) = Py.len l1 + Py.len l2.
Proof. unfold Py.len. rewrite length_app. lia. Qed.

Lemma index_nonneg l i :
  0 <= i < Py.len l -> Py.index l i = Some (Z.to_nat i).
Proof.
  intros H. unfold Py.index.
  destruct (Z.leb_spec 0 i), (Z.ltb_spec i (Py.len l)); simpl; try lia; done.
Qed.

Lemma getitem_nonneg l i x :
  0 <= i -> l !! Z.to_nat i = Some x -> Py.getitem l i = Some (Z.to_nat i, x).
Proof.
  intros Hi Hx. unfold Py.getitem.
  rewrite index_nonneg.
  - simpl. rewrite Hx. done.
  - apply lookup_lt_Some in Hx. unfold Py.len. lia.
Qed.

Lemma slice_from_nonneg l lo :
  0 <= lo -> Py.slice_from l lo = drop (Z.to_nat lo) l.
Proof.
  intros H. unfold Py.slice_from, Py.clamp.
  destruct (Z.ltb_spec lo 0); [lia|].
  destruct (Z.le_gt_cases lo (Py.len l)).
  - by rewrite Z.min_l.
  - rewrite Z.min_r by lia. unfold Py.len in *.
    rewrite !drop_ge; [done| lia | lia].
Qed.

Lemma slice_nonneg l lo n :
  0 <= lo -> 0 <= n -> lo + n <= Py.len l ->
  Py.slice l lo (lo + n) = take (Z.to_nat n) (drop (Z.to_nat lo) l).
Proof.
  intros Hlo Hn Hle. unfold Py.slice, Py.clamp.
  destruct (Z.ltb_spec lo 0), (Z.ltb_spec (lo + n) 0); try lia.
  rewrite !Z.min_l by lia. f_equal. lia.
Qed.
End PyFacts.

(** ** The file *)

Lemma length_file_write img pos data :
  length (Py.file_write img pos data)
  = Nat.max (length img) (pos + length data)%nat.
Proof.
  unfold Py.file_write.
  rewrite !length_app, length_take, length_replicate, length_drop. lia.
Qed.

Lemma file_read_write_same img pos data :
  Py.file_read (Py.file_write img pos data) pos (Py.len data) = data.
Proof.
  unfold Py.file_read, Py.file_write, Py.len.
  destruct (Z.ltb_spec (Z.of_nat (length data)) 0); [lia|].
  rewrite Nat2Z.id, app_assoc, drop_app_length'.
  - rewrite take_app_length. done.
  - rewrite length_app, length_take, length_replicate. lia.
Qed.

Lemma file_write_frame img pos data q n :
  0 <= n ->
  (q + Z.to_nat n <= pos /\ q + Z.to_nat n <= length img
   \/ pos + length data <= q)%nat ->
  Py.file_read (Py.file_write img pos data) q n = Py.file_read img q n.
Proof.
  intros Hn H. unfold Py.file_read.
  destruct (Z.ltb_spec n 0); [lia|]. unfold Py.file_write.
  destruct H as [[H1 H2]|H].
  - rewrite drop_app_le by (rewrite length_take; lia).
    rewrite take_app_le by (rewrite length_drop, length_take; lia).
    rewrite !take_drop_commute, take_take. do 2 f_equal. lia.
  - rewrite !app_assoc, drop_app_ge.
    2:{ rewrite !length_app, length_take, length_replicate. lia. }
    rewrite !length_app, length_take, length_replicate, drop_drop.
    do 2 f_equal. lia.
Qed.

(** ** Allocation *)

Lemma elem_of_free_from bl i p :
  p ∈ VirtualDisk.free_from i bl <->
  (i <= p)%nat /\ exists b, bl !! (p - i)%nat = Some b /\ StorageBlock.status b = FREE.
Proof.
  revert i. induction bl as [|b bl IH]; intros i; simpl.
  - split; [by intros ?%elem_of_nil | by intros (_ & ? & ? & _)].
  - destruct (decide (StorageBlock.status b = FREE)) as [Hb|Hb].
    + rewrite elem_of_cons, IH. split.
      * intros [->|(Hle & b' & Hl & Hf)].
        { split; [lia|]. exists b. by rewrite Nat.sub_diag. }
        split; [lia|]. exists b'. split; [|done].
        replace (p - i)%nat with (S (p - S i)) by lia. done.
      * intros (Hle & b' & Hl & Hf).
        destruct (decide (p = i)) as [->|Hne]; [by left|right].
        split; [lia|]. exists b'. split; [|done].
        replace (p - i)%nat with (S (p - S i)) in Hl by lia. done.
    + rewrite IH. split.
      * intros (Hle & b' & Hl & Hf). split; [lia|]. exists b'. split; [|done].
        replace (p - i)%nat with (S (p - S i)) by lia. done.
      * intros (Hle & b' & Hl & Hf).
        destruct (decide (p = i)) as [->|Hne].
        { rewrite Nat.sub_diag in Hl. simpl in Hl. congruence. }
        split; [lia|]. exists b'. split; [|done].
        replace (p - i)%nat with (S (p - S i)) in Hl by lia. done.
Qed.

Lemma elem_of_free_blocks bl p :
  p ∈ VirtualDisk.free_blocks bl <->
  exists b, bl !! p = Some b /\ StorageBlock.status b = FREE.
Proof.
  unfold VirtualDisk.free_blocks. rewrite elem_of_free_from, Nat.sub_0_r.
  split; [by intros [_ ?] | intros ?; split; [lia|done]].
Qed.

Lemma NoDup_free_from bl i : NoDup (VirtualDisk.free_from i bl).
Proof.
  revert i. induction bl as [|b bl IH]; intros i; simpl; [constructor|].
  destruct (decide _); [|done].
  constructor; [|done]. rewrite elem_of_free_from. lia.
Qed.

Lemma count_non_free_cons b bl :
  count_non_free (b :: bl)
  = (if decide (non_free b) then 1 else 0) + count_non_free bl.
Proof.
  unfold count_non_free, Py.len. rewrite filter_cons.
  destruct (decide (non_free b)); simpl; lia.
Qed.

Lemma count_non_free_bounds bl : 0 <= count_non_free bl <= Py.len bl.
Proof.
  unfold count_non_free, Py.len. pose proof (length_filter non_free bl). lia.
Qed.

Lemma free_from_count bl i :
  Py.len (VirtualDisk.free_from i bl) + count_non_free bl = Py.len bl.
Proof.
  revert i. induction bl as [|b bl IH]; intros i; [done|].
  rewrite count_non_free_cons. simpl. specialize (IH (S i)).
  unfold non_free. unfold Py.len in *.
  destruct (decide (StorageBlock.status b = FREE)) as [Hb|Hb];
    destruct (decide (StorageBlock.status b <> FREE)); simpl; try tauto; lia.
Qed.

Lemma count_non_free_insert bl p b b' :
  bl !! p = Some b ->
  count_non_free (<[p := b']> bl)
  = count_non_free bl - (if decide (non_free b) then 1 else 0)
    + (if decide (non_free b') then 1 else 0).
Proof.
  revert p. induction bl as [|x bl IH]; intros p Hp; [done|].
  destruct p as [|p]; simpl in *.
  - injection Hp as ->. rewrite !count_non_free_cons. lia.
  - rewrite !count_non_free_cons, (IH _ Hp). lia.
Qed.

Lemma non_free_mark fid b : non_free (mark fid b).
Proof. done. Qed.

Lemma mark_mark fid b : mark fid (mark fid b) = mark fid b.
Proof. done. Qed.

(** The allocation loop marks the blocks at the positions it visits and
    collects their numbers. *)
Lemma allocate_fold_spec fid ps : forall bl acc,
  (forall i b, bl !! i = Some b -> StorageBlock.block_id b = Z.of_nat i) ->
  (forall p, p ∈ ps -> (p < length bl)%nat) ->
  exists bl',
    foldl (VirtualDisk.allocate_block fid) (bl, acc) ps
    = (bl', acc ++ (Z.of_nat <$> ps)) /\
    length bl' = length bl /\
    forall i, bl' !! i = if decide (i ∈ ps) then mark fid <$> bl !! i else bl !! i.
Proof.
  induction ps as [|p ps IH]; intros bl acc Hid Hlt; simpl.
  - exists bl. rewrite app_nil_r. split_and!; [done..|].
    intros i. destruct (decide (i ∈ [])) as [H%elem_of_nil|]; done.
  - destruct (lookup_lt_is_Some_2 bl p) as [b Hb]; [apply Hlt; left|].
    unfold VirtualDisk.allocate_block at 2. simpl. rewrite Hb.
    destruct (IH (<[p := mark fid b]> bl) (acc ++ [StorageBlock.block_id b]))
      as (bl' & Hfold & Hlen & Hlook).
    + intros i x Hx. destruct (decide (i = p)) as [->|Hne].
      * rewrite list_lookup_insert_eq in Hx by (by eapply lookup_lt_Some).
        injection Hx as <-. simpl. by apply Hid.
      * rewrite list_lookup_insert_ne in Hx by done. by apply Hid.
    + intros q Hq. rewrite length_insert. apply Hlt. by right.
    + exists bl'. rewrite length_insert in Hlen. split_and!; [|done|].
      * unfold mark in Hfold. rewrite Hfold, (Hid _ _ Hb), <- app_assoc. done.
      * intros i. rewrite Hlook.
        destruct (decide (i = p)) as [->|Hne].
        -- rewrite list_lookup_insert_eq by (by eapply lookup_lt_Some).
           rewrite Hb. simpl.
           destruct (decide (p ∈ ps)), (decide (p ∈ p :: ps)) as [|Hn]; try done;
             exfalso; apply Hn; left.
        -- rewrite list_lookup_insert_ne by done.
           destruct (decide (i ∈ ps)), (decide (i ∈ p :: ps)) as [Hin|Hn]; try done.
           ++ exfalso. apply Hn. by right.
           ++ apply elem_of_cons in Hin as [?|?]; done.
Qed.

Lemma allocate_fold_count fid ps : forall bl acc,
  NoDup ps ->
  (forall p, p ∈ ps -> exists b, bl !! p = Some b /\ StorageBlock.status b = FREE) ->
  count_non_free (foldl (VirtualDisk.allocate_block fid) (bl, acc) ps).1
  = count_non_free bl + Py.len ps.
Proof.
  induction ps as [|p ps IH]; intros bl acc Hnd Hfree; simpl.
  - unfold Py.len. simpl. lia.
  - apply NoDup_cons in Hnd as [Hp Hnd].
    destruct (Hfree p) as (b & Hb & Hst); [left|].
    unfold VirtualDisk.allocate_block at 2. simpl. rewrite Hb.
    rewrite IH; [|done|].
    + rewrite (count_non_free_insert _ _ _ _ Hb).
      destruct (decide (non_free b)) as [Hn|_]; [by destruct Hn|].
      destruct (decide (non_free _)) as [|Hn]; [|by destruct Hn].
      unfold Py.len. simpl. lia.
    + intros q Hq. destruct (Hfree q) as (bq & Hbq & Hfq); [by right|].
      exists bq. split; [|done].
      rewrite list_lookup_insert_ne; [done|]. intros ->. done.
Qed.

(** The number of blocks that [allocate_storage] asks for is the ceiling
    of [size / block_size]. *)
Lemma required_blocks_ceil size bs :
  0 < bs ->
  let n := (size + bs - 1) / bs in (n - 1) * bs < size <= n * bs.
Proof.
  intros Hbs n.
  pose proof (Z.div_mod (size + bs - 1) bs ltac:(lia)) as Hdm.
  pose proof (Z.mod_pos_bound (size + bs - 1) bs Hbs) as Hm.
  subst n. nia.
Qed.

Lemma ceil_unique size bs n m :
  0 < bs -> (n - 1) * bs < size <= n * bs -> (m - 1) * bs < size <= m * bs -> n = m.
Proof. intros. nia. Qed.

Lemma floordiv_ok a b : b <> 0 -> Py.floordiv a b = Py.Ok (a / b).
Proof. intros H. unfold Py.floordiv. by destruct (Z.eqb_spec b 0). Qed.

Lemma modulo_ok a b : b <> 0 -> Py.modulo a b = Py.Ok (a mod b).
Proof. intros H. unfold Py.modulo. by destruct (Z.eqb_spec b 0). Qed.

Lemma allocate_storage_insufficient fid name size now d :
  VirtualDisk.block_size d <> 0 ->
  Py.len (VirtualDisk.free_blocks (VirtualDisk.blocks d))
  < (size + VirtualDisk.block_size d - 1) / VirtualDisk.block_size d ->
  VirtualDisk.allocate_storage fid name size now d = (Py.Ok None, d).
Proof.
  intros Hbs Hlt. unfold VirtualDisk.allocate_storage.
  rewrite floordiv_ok by done.
  destruct (Z.ltb_spec (Py.len (VirtualDisk.free_blocks (VirtualDisk.blocks d)))
              ((size + VirtualDisk.block_size d - 1) / VirtualDisk.block_size d));
    [done|lia].
Qed.

(** A successful allocation: the blocks handed out are the first free
    ones, in the order of the block table. *)
Lemma allocate_storage_sufficient fid name size now d :
  disk_inv d ->
  let required := (size + VirtualDisk.block_size d - 1) / VirtualDisk.block_size d in
  let ps := take (Z.to_nat required) (VirtualDisk.free_blocks (VirtualDisk.blocks d)) in
  required <= Py.len (VirtualDisk.free_blocks (VirtualDisk.blocks d)) ->
  exists bl',
    VirtualDisk.allocate_storage fid name size now d
    = (Py.Ok (Some (Z.of_nat <$> ps)),
       VirtualDisk.mk (VirtualDisk.node_id d) (VirtualDisk.capacity_bytes d)
         (VirtualDisk.block_size d) (VirtualDisk.total_blocks d) bl'
         (<[fid := VirtualFile.mk fid name size (Z.of_nat <$> ps) now
                     (VirtualDisk.file_checksum fid name size)]> (VirtualDisk.files d))
         (VirtualDisk.allocated_blocks d + required)
         (VirtualDisk.used_storage d + size) (VirtualDisk.disk_img d)) /\
    length bl' = length (VirtualDisk.blocks d) /\
    (forall i, bl' !! i = if decide (i ∈ ps) then mark fid <$> VirtualDisk.blocks d !! i
                          else VirtualDisk.blocks d !! i) /\
    count_non_free bl' = count_non_free (VirtualDisk.blocks d) + Py.len ps.
Proof.
  intros Hinv required ps Hle.
  assert (Hps : forall p, p ∈ ps ->
            exists b, VirtualDisk.blocks d !! p = Some b /\ StorageBlock.status b = FREE).
  { intros p Hp. apply elem_of_free_blocks. by eapply subseteq_take. }
  destruct (allocate_fold_spec fid ps (VirtualDisk.blocks d) [])
    as (bl' & Hfold & Hlen & Hlook).
  { intros i b Hb. by apply (inv_layout d Hinv). }
  { intros p (b & Hb & _)%Hps. by eapply lookup_lt_Some. }
  exists bl'. split_and!; [|done|done|].
  - unfold VirtualDisk.allocate_storage.
    rewrite floordiv_ok by (pose proof (inv_block_size d Hinv); lia).
    fold required.
    destruct (Z.ltb_spec (Py.len (VirtualDisk.free_blocks (VirtualDisk.blocks d))) required);
      [lia|].
    fold ps. rewrite Hfold. done.
  - pose proof (allocate_fold_count fid ps (VirtualDisk.blocks d) []) as Hc.
    rewrite Hfold in Hc. apply Hc; [|done].
    eapply sublist_NoDup; [apply NoDup_free_from | apply sublist_take].
Qed.

Lemma allocate_storage_total fid name size now d :
  VirtualDisk.block_size d <> 0 ->
  exists r d', VirtualDisk.allocate_storage fid name size now d = (Py.Ok r, d').
Proof.
  intros Hbs. unfold VirtualDisk.allocate_storage. rewrite floordiv_ok by done.
  destruct (_ <? _); [by eauto|].
  destruct (foldl _ _ _). by eauto.
Qed.

Lemma allocate_storage_inv fid name size now d :
  disk_inv d -> 0 <= size ->
  disk_inv (VirtualDisk.allocate_storage fid name size now d).2.
Proof.
  intros Hinv Hsize.
  pose proof (inv_block_size d Hinv) as Hbs.
  set (required := (size + VirtualDisk.block_size d - 1) / VirtualDisk.block_size d).
  assert (0 <= required) as Hreq by (apply Z.div_pos; lia).
  destruct (Z.lt_ge_cases (Py.len (VirtualDisk.free_blocks (VirtualDisk.blocks d))) required)
    as [Hlt|Hge].
  { rewrite allocate_storage_insufficient by (done || lia). done. }
  destruct (allocate_storage_sufficient fid name size now d Hinv Hge)
    as (bl' & -> & Hlen & Hlook & Hcount).
  fold required in Hlook, Hcount |- *.
  set (ps := take (Z.to_nat required) (VirtualDisk.free_blocks (VirtualDisk.blocks d))) in *.
  assert (Hps : forall p, p ∈ ps ->
            exists b, VirtualDisk.blocks d !! p = Some b /\ StorageBlock.status b = FREE).
  { intros p Hp. apply elem_of_free_blocks. by eapply subseteq_take. }
  assert (Hold : forall i b', bl' !! i = Some b' ->
            exists b, VirtualDisk.blocks d !! i = Some b /\
                      (b' = b \/ b' = mark fid b /\ i ∈ ps)).
  { intros i b' Hb'. rewrite Hlook in Hb'. destruct (decide (i ∈ ps)).
    - destruct (VirtualDisk.blocks d !! i) as [b|]; [|done].
      injection Hb' as <-. eauto.
    - eauto. }
  assert (Hnf : forall i b, VirtualDisk.blocks d !! i = Some b -> non_free b ->
            exists b', bl' !! i = Some b' /\ non_free b').
  { intros i b Hb Hn. rewrite Hlook, Hb. destruct (decide (i ∈ ps)); simpl; eauto.
    eexists; split; [done|]. apply non_free_mark. }
  simpl. constructor; simpl.
  - done.
  - intros i b' (b & Hb & [->|[-> _]])%Hold;
      destruct (inv_layout d Hinv i b Hb) as (? & ? & ?); done.
  - rewrite (inv_total d Hinv). unfold Py.len. by rewrite Hlen.
  - rewrite (inv_count d Hinv), Hcount. f_equal. unfold Py.len, ps.
    rewrite length_take. unfold Py.len in Hge. lia.
  - intros i b' (b & Hb & [->|[-> _]])%Hold Hst; [|done].
    by apply (inv_free d Hinv i).
  - intros f vf Hf. destruct (decide (f = fid)) as [->|Hne].
    + rewrite lookup_insert_eq in Hf. injection Hf as <-. split; simpl.
      * apply NoDup_fmap_2; [apply _|].
        eapply sublist_NoDup; [apply NoDup_free_from | apply sublist_take].
      * intros id (p & -> & Hp)%list_elem_of_fmap. split; [lia|].
        rewrite Nat2Z.id, Hlook. destruct (decide (p ∈ ps)); [|done].
        destruct (Hps p) as (b & -> & _); [done|]. simpl.
        eexists; split; [done|]. apply non_free_mark.
    + rewrite lookup_insert_ne in Hf by done.
      destruct (inv_owned d Hinv f vf Hf) as [Hnd Hown]. split; [done|].
      intros id (Hid & b & Hb & Hn)%Hown. split; [done|]. by eapply Hnf.
  - assert (Hnew : forall f vf id, f <> fid -> VirtualDisk.files d !! f = Some vf ->
              id ∈ VirtualFile.blocks vf -> id ∉ Z.of_nat <$> ps).
    { intros f vf id Hne Hf Hid (p & -> & Hp)%list_elem_of_fmap.
      destruct (inv_owned d Hinv f vf Hf) as [_ Hown].
      destruct (Hown _ Hid) as (_ & b & Hb & Hn). rewrite Nat2Z.id in Hb.
      destruct (Hps p Hp) as (b0 & Hb0 & Hfree). congruence. }
    intros f1 f2 vf1 vf2 Hne H1 H2 id Hid1 Hid2.
    destruct (decide (f1 = fid)) as [->|Hne1].
    + rewrite lookup_insert_eq in H1. injection H1 as <-.
      rewrite lookup_insert_ne in H2 by done. simpl in Hid1.
      by eapply (Hnew f2).
    + rewrite lookup_insert_ne in H1 by done.
      destruct (decide (f2 = fid)) as [->|Hne2].
      * rewrite lookup_insert_eq in H2. injection H2 as <-. simpl in Hid2.
        by eapply (Hnew f1).
      * rewrite lookup_insert_ne in H2 by done.
        by eapply (inv_disjoint d Hinv f1 f2).
Qed.

(** ** Writing, reading and deleting *)

Lemma disk_inv_laid_out d : disk_inv d -> laid_out d.
Proof. intros H. split; [apply H | apply (inv_layout d H)]. Qed.

Lemma same_geometry_refl b : same_geometry b b.
Proof. done. Qed.

Lemma same_geometry_trans b1 b2 b3 :
  same_geometry b1 b2 -> same_geometry b2 b3 -> same_geometry b1 b3.
Proof. unfold same_geometry. intros (?&?&?) (?&?&?). split_and!; congruence. Qed.

Lemma touched_refl upd ids d : touched upd ids d d.
Proof. constructor; try done. intros i b Hb. exists b. split_and!; auto. done. Qed.

Lemma touched_laid_out upd ids d d' : touched upd ids d d' -> laid_out d -> laid_out d'.
Proof.
  intros Ht [Hbs Hlay]. split; [by rewrite (touched_block_size _ _ _ _ Ht)|].
  intros i b' Hb'.
  destruct (lookup_lt_is_Some_2 (VirtualDisk.blocks d) i) as [b Hb].
  { rewrite <- (touched_length _ _ _ _ Ht). by eapply lookup_lt_Some. }
  destruct (touched_blocks _ _ _ _ Ht i b Hb) as (b'' & Hb'' & (Hg1 & Hg2 & Hg3) & _).
  assert (b'' = b') as -> by congruence.
  destruct (Hlay i b Hb) as (H1 & H2 & H3).
  rewrite (touched_block_size _ _ _ _ Ht). split_and!; congruence.
Qed.

(** Two changes one after the other. The second relation must be
    absorbed by the first one on a block that both touch. *)
Lemma touched_trans upd ids1 ids2 ids d1 d2 d3 :
  (forall b1 b2 b3, upd b1 b2 -> upd b2 b3 -> upd b1 b3) ->
  touched upd ids1 d1 d2 -> touched upd ids2 d2 d3 ->
  ids1 ⊆ ids -> ids2 ⊆ ids ->
  touched upd ids d1 d3.
Proof.
  intros Hupd H12 H23 Hs1 Hs2.
  destruct H12 as [a1 a2 a3 a4 a5 a6 a7 a8 a9 a10 a11].
  destruct H23 as [c1 c2 c3 c4 c5 c6 c7 c8 c9 c10 c11].
  constructor; try congruence.
  - intros i b Hb. destruct (a9 i b Hb) as (b2 & Hb2 & Hg2 & Hc2).
    destruct (c9 i b2 Hb2) as (b3 & Hb3 & Hg3 & Hc3).
    exists b3. split_and!; [done|by eapply same_geometry_trans|].
    destruct Hc2 as [->|[Hi2 Hu2]], Hc3 as [->|[Hi3 Hu3]]; eauto.
  - lia.
  - intros q n Hn Hq Hdis. rewrite c11, a11; try done.
    + intros id Hid. apply Hdis. by apply Hs1.
    + lia.
    + intros id Hid. rewrite a3. apply Hdis. by apply Hs2.
Qed.

Lemma occupied_trans b1 b2 b3 : occupied b1 b2 -> occupied b2 b3 -> occupied b1 b3.
Proof. unfold occupied. intros [? ?] [? ?]. split; congruence. Qed.

Lemma released_trans b1 b2 b3 : released b1 b2 -> released b2 b3 -> released b1 b3.
Proof. unfold released. tauto. Qed.

(** One block rewritten and one piece of the image overwritten inside it. *)
Lemma touched_one upd d id b b' p piece :
  laid_out d -> 0 <= id ->
  VirtualDisk.blocks d !! Z.to_nat id = Some b ->
  same_geometry b b' -> upd b b' ->
  id * VirtualDisk.block_size d <= Z.of_nat p ->
  Z.of_nat p + Py.len piece <= (id + 1) * VirtualDisk.block_size d ->
  touched upd [id] d
    (VirtualDisk.set_blocks (<[Z.to_nat id := b']> (VirtualDisk.blocks d))
       (VirtualDisk.set_disk_img (Py.file_write (VirtualDisk.disk_img d) p piece) d)).
Proof.
  intros [Hbs Hlay] Hid Hb Hg Hu Hlo Hhi. constructor; simpl; try done.
  - by rewrite length_insert.
  - intros i x Hx. destruct (decide (i = Z.to_nat id)) as [->|Hne].
    + rewrite list_lookup_insert_eq by (by eapply lookup_lt_Some).
      assert (x = b) as -> by congruence.
      exists b'. split_and!; [done..|]. right. split; [|done].
      rewrite Z2Nat.id by done. by left.
    + rewrite list_lookup_insert_ne by done. exists x. split_and!; auto. done.
  - rewrite length_file_write. lia.
  - intros q n Hn Hq Hdis. apply file_write_frame; [done|].
    destruct (Hdis id) as [H|H]; [by left| |]; unfold Py.len in *; lia.
Qed.

Lemma len_slice_piece (data : list byte) w n :
  0 <= w -> 0 <= n -> w + n <= Py.len data ->
  Py.len (Py.slice data w (w + n)) = n.
Proof.
  intros Hw Hn Hle. rewrite slice_nonneg by done.
  unfold Py.len in *. rewrite length_take, length_drop. lia.
Qed.

Lemma laid_out_getitem d id :
  laid_out d -> 0 <= id < Py.len (VirtualDisk.blocks d) ->
  exists b, VirtualDisk.blocks d !! Z.to_nat id = Some b /\
            Py.getitem (VirtualDisk.blocks d) id = Some (Z.to_nat id, b) /\
            StorageBlock.start_offset b = id * VirtualDisk.block_size d /\
            StorageBlock.size b = VirtualDisk.block_size d.
Proof.
  intros [Hbs Hlay] Hid.
  destruct (lookup_lt_is_Some_2 (VirtualDisk.blocks d) (Z.to_nat id)) as [b Hb].
  { unfold Py.len in Hid. lia. }
  exists b. split_and!; [done|apply getitem_nonneg; [lia|done]| |].
  - destruct (Hlay _ _ Hb) as (_ & -> & _). by rewrite Z2Nat.id by lia.
  - by destruct (Hlay _ _ Hb) as (_ & _ & ->).
Qed.

Lemma seek_nonneg pos : 0 <= pos -> Py.seek pos = Py.Ok (Z.to_nat pos).
Proof. intros H. unfold Py.seek. by destruct (Z.ltb_spec pos 0); [lia|]. Qed.

Lemma write_loop_cons data id ids w bo d b :
  laid_out d -> 0 <= id < Py.len (VirtualDisk.blocks d) ->
  VirtualDisk.blocks d !! Z.to_nat id = Some b ->
  0 <= bo -> w < Py.len data ->
  VirtualDisk.write_loop data (id :: ids) w bo d
  = VirtualDisk.write_loop data ids
      (w + Z.min (Py.len data - w) (VirtualDisk.block_size d - bo)) 0
      (write_first data id w bo b d).
Proof.
  intros Hlay Hid Hb Hbo Hw.
  destruct (laid_out_getitem d id Hlay Hid) as (b' & Hb' & Hget & Hstart & _).
  assert (b' = b) as -> by congruence.
  cbn [VirtualDisk.write_loop].
  destruct (Z.leb_spec (Py.len data) w); [lia|].
  rewrite Hget. cbv zeta. rewrite Hstart, seek_nonneg; [done|].
  destruct Hlay as [Hbs _]. nia.
Qed.

Lemma write_first_touched data id w bo b d :
  laid_out d -> 0 <= id ->
  VirtualDisk.blocks d !! Z.to_nat id = Some b ->
  0 <= bo < VirtualDisk.block_size d -> 0 <= w < Py.len data ->
  touched occupied [id] d (write_first data id w bo b d).
Proof.
  intros Hlay Hid Hb Hbo Hw. unfold write_first.
  apply (touched_one _ _ _ b); try done.
  - assert (0 <= id * VirtualDisk.block_size d) by nia. lia.
  - rewrite len_slice_piece by lia.
    assert (0 <= id * VirtualDisk.block_size d) by nia. lia.
Qed.

Lemma write_loop_touched data ids : forall d w bo,
  laid_out d ->
  (forall id, id ∈ ids -> 0 <= id < Py.len (VirtualDisk.blocks d)) ->
  0 <= bo < VirtualDisk.block_size d -> 0 <= w ->
  exists d', VirtualDisk.write_loop data ids w bo d = (Py.Ok (), d') /\
             touched occupied ids d d'.
Proof.
  induction ids as [|id ids IH]; intros d w bo Hlay Hids Hbo Hw.
  - exists d. split; [done|apply touched_refl].
  - destruct (Z.le_gt_cases (Py.len data) w) as [Hdone|Hmore].
    { exists d. split; [|apply touched_refl]. cbn [VirtualDisk.write_loop].
      by destruct (Z.leb_spec (Py.len data) w); [|lia]. }
    assert (0 <= id < Py.len (VirtualDisk.blocks d)) as Hid by (apply Hids; left).
    destruct (laid_out_getitem d id Hlay Hid) as (b & Hb & _).
    rewrite (write_loop_cons data id ids w bo d b) by (done || lia).
    pose proof (write_first_touched data id w bo b d Hlay ltac:(lia) Hb Hbo ltac:(lia)) as Ht1.
    destruct (IH (write_first data id w bo b d)
                (w + Z.min (Py.len data - w) (VirtualDisk.block_size d - bo)) 0)
      as (d' & Hloop & Ht2).
    + by eapply touched_laid_out.
    + intros x Hx. unfold Py.len. rewrite (touched_length _ _ _ _ Ht1).
      apply Hids. by right.
    + rewrite (touched_block_size _ _ _ _ Ht1). lia.
    + lia.
    + exists d'. split; [done|].
      apply (touched_trans occupied [id] ids (id :: ids) d
               (write_first data id w bo b d) d');
        [apply occupied_trans | done | done | |].
      * intros x ->%list_elem_of_singleton. by left.
      * intros x Hx. by right.
Qed.

Lemma read_loop_cons size id ids bo acc d b :
  laid_out d -> 0 <= id < Py.len (VirtualDisk.blocks d) ->
  VirtualDisk.blocks d !! Z.to_nat id = Some b ->
  0 <= bo -> Py.len acc < size ->
  VirtualDisk.read_loop size (id :: ids) bo acc d
  = VirtualDisk.read_loop size ids 0
      (acc ++ Py.file_read (VirtualDisk.disk_img d)
                (Z.to_nat (id * VirtualDisk.block_size d + bo))
                (Z.min (size - Py.len acc) (VirtualDisk.block_size d - bo))) d.
Proof.
  intros Hlay Hid Hb Hbo Hw.
  destruct (laid_out_getitem d id Hlay Hid) as (b' & Hb' & Hget & Hstart & _).
  assert (b' = b) as -> by congruence.
  cbn [VirtualDisk.read_loop].
  destruct (Z.leb_spec size (Py.len acc)); [lia|].
  rewrite Hget. cbv zeta. rewrite Hstart, seek_nonneg; [done|].
  destruct Hlay as [Hbs _]. nia.
Qed.

(** Two distinct blocks cover disjoint parts of the image. *)
Lemma regions_disjoint bs id id' p n :
  0 < bs -> id <> id' ->
  id * bs <= p -> p + n <= (id + 1) * bs ->
  p + n <= id' * bs \/ (id' + 1) * bs <= p.
Proof. intros. nia. Qed.

(** What is read back over the blocks [ids] after a write over the same
    blocks: the part of the data that the blocks have room for. *)
Lemma read_after_write_loop data ids : forall d w bo acc,
  laid_out d -> NoDup ids ->
  (forall id, id ∈ ids -> 0 <= id < Py.len (VirtualDisk.blocks d)) ->
  0 <= bo < VirtualDisk.block_size d -> Py.len acc = w ->
  exists d', VirtualDisk.write_loop data ids w bo d = (Py.Ok (), d') /\
    VirtualDisk.read_loop (Py.len data) ids bo acc d'
    = Py.Ok (acc ++ take (Z.to_nat (Py.len ids * VirtualDisk.block_size d - bo))
                         (drop (Z.to_nat w) data)).
Proof.
  induction ids as [|id ids IH]; intros d w bo acc Hlay Hnd Hids Hbo Hacc.
  - exists d. split; [done|]. simpl.
    replace (Z.to_nat _) with 0%nat by (unfold Py.len; simpl; lia).
    by rewrite take_0, app_nil_r.
  - pose proof (len_nonneg acc) as Hw.
    destruct (Z.le_gt_cases (Py.len data) w) as [Hdone|Hmore].
    { exists d. cbn [VirtualDisk.write_loop VirtualDisk.read_loop].
      destruct (Z.leb_spec (Py.len data) w); [|lia].
      destruct (Z.leb_spec (Py.len data) (Py.len acc)); [|lia].
      split; [done|]. rewrite drop_ge by (unfold Py.len in *; lia).
      by rewrite take_nil, app_nil_r. }
    apply NoDup_cons in Hnd as [Hnotin Hnd].
    assert (0 <= id < Py.len (VirtualDisk.blocks d)) as Hid by (apply Hids; left).
    destruct (laid_out_getitem d id Hlay Hid) as (b & Hb & _).
    rewrite (write_loop_cons data id ids w bo d b) by (done || lia).
    pose proof (write_first_touched data id w bo b d Hlay ltac:(lia) Hb Hbo ltac:(lia)) as Ht1.
    set (n := Z.min (Py.len data - w) (VirtualDisk.block_size d - bo)) in *.
    set (d1 := write_first data id w bo b d) in *.
    set (piece := Py.slice data w (w + n)).
    assert (0 < n) as Hn by (subst n; lia).
    assert (w + n <= Py.len data) as Hwn by (subst n; lia).
    assert (Py.len piece = n) as Hpiece by (apply len_slice_piece; lia).
    assert (laid_out d1) as Hlay1 by (by eapply touched_laid_out).
    assert (Hbs1 : VirtualDisk.block_size d1 = VirtualDisk.block_size d) by done.
    assert (Hids1 : forall x, x ∈ ids -> 0 <= x < Py.len (VirtualDisk.blocks d1)).
    { intros x Hx. unfold Py.len. rewrite (touched_length _ _ _ _ Ht1).
      apply Hids. by right. }
    destruct (IH d1 (w + n) 0 (acc ++ piece)) as (d' & Hloop & Hread); try done.
    { rewrite Hbs1. lia. }
    { rewrite len_app. lia. }
    exists d'. split; [done|].
    destruct (write_loop_touched data ids d1 (w + n) 0 Hlay1 Hids1) as (d2 & Hloop2 & Ht2);
      [rewrite Hbs1; lia|lia|].
    assert (d2 = d') as -> by congruence.
    assert (laid_out d') as Hlay' by (by eapply touched_laid_out).
    assert (Hbs' : VirtualDisk.block_size d' = VirtualDisk.block_size d).
    { by rewrite (touched_block_size _ _ _ _ Ht2). }
    assert (0 <= id < Py.len (VirtualDisk.blocks d')) as Hid'.
    { unfold Py.len in *.
      rewrite (touched_length _ _ _ _ Ht2), (touched_length _ _ _ _ Ht1). apply Hid. }
    destruct (laid_out_getitem d' id Hlay' Hid') as (b' & Hb' & _).
    rewrite (read_loop_cons _ id ids bo acc d' b') by (done || lia).
    rewrite Hbs', Hacc. fold n.
    set (p := Z.to_nat (id * VirtualDisk.block_size d + bo)).
    assert (0 <= id * VirtualDisk.block_size d) as Hidbs by (destruct Hlay; nia).
    assert (Py.file_read (VirtualDisk.disk_img d') p n = piece) as ->.
    { rewrite (touched_img _ _ _ _ Ht2); [| lia | |].
      - rewrite <- Hpiece. apply file_read_write_same.
      - subst d1. unfold write_first. simpl. rewrite length_file_write.
        fold n piece p. unfold Py.len in Hpiece. lia.
      - intros id' Hin'. rewrite Hbs1.
        apply (regions_disjoint _ id); [by destruct Hlay | | lia | lia].
        intros ->. done. }
    rewrite Hread, Hbs1, <- app_assoc. f_equal.
    unfold piece. rewrite slice_nonneg by lia.
    replace (Z.to_nat (w + n)) with (Z.to_nat w + Z.to_nat n)%nat by lia.
    rewrite <- drop_drop, take_take_drop.
    assert (Py.len (id :: ids) = 1 + Py.len ids) as -> by (unfold Py.len; simpl; lia).
    pose proof (len_nonneg ids) as Hk.
    assert (0 <= Py.len ids * VirtualDisk.block_size d) by (destruct Hlay; nia).
    destruct (Z.le_gt_cases (VirtualDisk.block_size d - bo) (Py.len data - w)) as [Hc|Hc].
    + assert ((Z.to_nat n + Z.to_nat (Py.len ids * VirtualDisk.block_size d - 0))%nat
              = Z.to_nat ((1 + Py.len ids) * VirtualDisk.block_size d - bo)) as ->
        by (subst n; lia).
      done.
    + rewrite !take_ge; [done| |]; rewrite length_drop; unfold Py.len in *; subst n; lia.
Qed.

Lemma touched_mono upd ids ids' d d' :
  touched upd ids d d' -> ids ⊆ ids' -> touched upd ids' d d'.
Proof.
  intros [a1 a2 a3 a4 a5 a6 a7 a8 a9 a10 a11] Hsub. constructor; try done.
  - intros i b Hb. destruct (a9 i b Hb) as (b' & Hb' & Hg & Hc).
    exists b'. split_and!; [done..|]. destruct Hc as [->|[Hi Hu]]; auto.
  - intros q n Hn Hq Hdis. apply a11; [done..|].
    intros id Hid. apply Hdis. by apply Hsub.
Qed.

Lemma slice_from_suffix {A} (l : list A) lo :
  exists k, Py.slice_from l lo = drop k l.
Proof. unfold Py.slice_from. eauto. Qed.

Lemma owns_valid d vf id :
  owns d vf -> id ∈ VirtualFile.blocks vf -> 0 <= id < Py.len (VirtualDisk.blocks d).
Proof.
  intros [_ Hown] Hid. destruct (Hown id Hid) as (H0 & b & Hb & _).
  apply lookup_lt_Some in Hb. unfold Py.len. lia.
Qed.

(** [write_data] on a known file returns [True] whatever the data and the
    offset; it touches the blocks of the file only. *)
Lemma write_data_known fid vf data offset d :
  disk_inv d -> VirtualDisk.files d !! fid = Some vf ->
  exists d', VirtualDisk.write_data fid data offset d = (Py.Ok true, d') /\
             touched occupied (VirtualFile.blocks vf) d d'.
Proof.
  intros Hinv Hf. pose proof (inv_block_size d Hinv) as Hbs.
  unfold VirtualDisk.write_data. rewrite Hf.
  rewrite floordiv_ok, modulo_ok by lia.
  destruct (slice_from_suffix (VirtualFile.blocks vf) (offset / VirtualDisk.block_size d))
    as [k ->].
  destruct (write_loop_touched data (drop k (VirtualFile.blocks vf)) d 0
              (offset mod VirtualDisk.block_size d)) as (d' & -> & Ht).
  - by apply disk_inv_laid_out.
  - intros id Hid%subseteq_drop. eapply owns_valid; [|done]. by eapply inv_owned.
  - by apply Z.mod_pos_bound.
  - done.
  - exists d'. split; [done|]. eapply touched_mono; [done|apply subseteq_drop].
Qed.

Lemma write_data_unknown fid data offset d :
  VirtualDisk.files d !! fid = None ->
  VirtualDisk.write_data fid data offset d = (Py.Ok false, d).
Proof. intros Hf. unfold VirtualDisk.write_data. by rewrite Hf. Qed.

Lemma count_non_free_pointwise bl bl' :
  Forall2 (fun b b' => non_free b <-> non_free b') bl bl' ->
  count_non_free bl = count_non_free bl'.
Proof.
  induction 1 as [|b b' bl bl' Hb _ IH]; [done|].
  rewrite !count_non_free_cons, IH.
  destruct (decide (non_free b)), (decide (non_free b')); tauto || done.
Qed.

(** Writing to blocks that are not free keeps the disk well formed. *)
Lemma touched_occupied_inv ids d d' :
  disk_inv d -> touched occupied ids d d' ->
  (forall id, id ∈ ids ->
     0 <= id /\ exists b, VirtualDisk.blocks d !! Z.to_nat id = Some b /\ non_free b) ->
  disk_inv d'.
Proof.
  intros Hinv Ht Hids.
  pose proof Ht as [a1 a2 a3 a4 a5 a6 a7 a8 a9 a10 a11].
  assert (Hback : forall i b', VirtualDisk.blocks d' !! i = Some b' ->
            exists b, VirtualDisk.blocks d !! i = Some b /\ same_geometry b b' /\
                      (b' = b \/ Z.of_nat i ∈ ids /\ occupied b b')).
  { intros i b' Hb'.
    destruct (lookup_lt_is_Some_2 (VirtualDisk.blocks d) i) as [b Hb].
    { rewrite <- a8. by eapply lookup_lt_Some. }
    destruct (a9 i b Hb) as (b'' & Hb'' & Hg & Hc).
    assert (b'' = b') as -> by congruence. eauto. }
  assert (Hnf : forall i b b', VirtualDisk.blocks d !! i = Some b ->
            VirtualDisk.blocks d' !! i = Some b' -> (non_free b <-> non_free b')).
  { intros i b b' Hb Hb'. destruct (a9 i b Hb) as (b'' & Hb'' & _ & Hc).
    assert (b'' = b') as -> by congruence.
    destruct Hc as [->|[Hi [Hocc _]]]; [done|].
    destruct (Hids _ Hi) as (_ & b0 & Hb0 & Hn0). rewrite Nat2Z.id in Hb0.
    assert (b0 = b) as -> by congruence.
    split; [|done]. intros _. unfold non_free. by rewrite Hocc. }
  constructor.
  - rewrite a3. apply Hinv.
  - apply (touched_laid_out _ _ _ _ Ht (disk_inv_laid_out d Hinv)).
  - rewrite a4, (inv_total d Hinv). unfold Py.len. by rewrite a8.
  - rewrite a6, (inv_count d Hinv). apply count_non_free_pointwise.
    apply Forall2_same_length_lookup_2; [done|]. intros i b b' Hb Hb'. by eapply Hnf.
  - intros i b' (b & Hb & _ & [->|[_ [Hocc _]]])%Hback Hfree.
    + by apply (inv_free d Hinv i).
    + congruence.
  - intros f vf Hf. rewrite a5 in Hf.
    destruct (inv_owned d Hinv f vf Hf) as [Hnd Hown]. split; [done|].
    intros id (H0 & b & Hb & Hn)%Hown. split; [done|].
    destruct (a9 _ b Hb) as (b' & Hb' & _). exists b'. split; [done|].
    by apply (Hnf (Z.to_nat id) b b').
  - intros f1 f2 vf1 vf2 Hne H1 H2. rewrite a5 in H1, H2.
    by apply (inv_disjoint d Hinv f1 f2).
Qed.

Lemma write_data_inv fid data offset d :
  disk_inv d -> disk_inv (VirtualDisk.write_data fid data offset d).2.
Proof.
  intros Hinv. destruct (VirtualDisk.files d !! fid) as [vf|] eqn:Hf.
  - destruct (write_data_known fid vf data offset d Hinv Hf) as (d' & -> & Ht).
    simpl. eapply touched_occupied_inv; [done..|].
    by apply (inv_owned d Hinv fid vf).
  - by rewrite write_data_unknown.
Qed.

(** Reading back what was just written, with the same offset and the
    length of the data: the bytes that fit in the blocks of the file. *)
Lemma read_after_write fid vf data offset d :
  disk_inv d -> VirtualDisk.files d !! fid = Some vf -> 0 <= offset ->
  exists d', VirtualDisk.write_data fid data offset d = (Py.Ok true, d') /\
    VirtualDisk.read_data fid (Py.len data) offset d'
    = Py.Ok (Some (take (Z.to_nat (Py.len (VirtualFile.blocks vf)
                                   * VirtualDisk.block_size d - offset)) data)).
Proof.
  intros Hinv Hf Hoff. pose proof (inv_block_size d Hinv) as Hbs.
  destruct (write_data_known fid vf data offset d Hinv Hf) as (d' & Hw & Ht).
  exists d'. split; [done|].
  unfold VirtualDisk.write_data in Hw. rewrite Hf in Hw.
  rewrite floordiv_ok, modulo_ok in Hw by lia.
  unfold VirtualDisk.read_data.
  rewrite (touched_files _ _ _ _ Ht), Hf, (touched_block_size _ _ _ _ Ht).
  rewrite floordiv_ok, modulo_ok by lia. simpl.
  set (sb := offset / VirtualDisk.block_size d) in *.
  set (bo := offset mod VirtualDisk.block_size d) in *.
  assert (0 <= sb) by (apply Z.div_pos; lia).
  assert (0 <= bo < VirtualDisk.block_size d) by (by apply Z.mod_pos_bound).
  assert (offset = VirtualDisk.block_size d * sb + bo) as Hdm
    by (apply Z.div_mod; lia).
  rewrite slice_from_nonneg in Hw |- * by done.
  destruct (inv_owned d Hinv fid vf Hf) as [Hnd Hown].
  destruct (read_after_write_loop data (drop (Z.to_nat sb) (VirtualFile.blocks vf))
              d 0 bo []) as (d2 & Hw2 & Hr2); try done.
  - by apply disk_inv_laid_out.
  - eapply sublist_NoDup; [done|apply sublist_drop].
  - intros id Hid%subseteq_drop. eapply owns_valid; [|done]. by eapply inv_owned.
  - rewrite Hw2 in Hw. injection Hw as <-. rewrite Hr2. simpl. do 3 f_equal.
    unfold Py.len. rewrite length_drop.
    pose proof (len_nonneg (VirtualFile.blocks vf)) as Hb. unfold Py.len in Hb.
    destruct (Z.le_gt_cases sb (Z.of_nat (length (VirtualFile.blocks vf)))).
    + f_equal. rewrite Nat2Z.inj_sub by lia. nia.
    + replace (length (VirtualFile.blocks vf) - Z.to_nat sb)%nat with 0%nat by lia.
      nia.
Qed.

Lemma delete_loop_cons id ids d b :
  laid_out d -> 0 <= id < Py.len (VirtualDisk.blocks d) ->
  VirtualDisk.blocks d !! Z.to_nat id = Some b ->
  VirtualDisk.delete_loop (id :: ids) d
  = VirtualDisk.delete_loop ids (delete_first id b d).
Proof.
  intros Hlay Hid Hb.
  destruct (laid_out_getitem d id Hlay Hid) as (b' & Hb' & Hget & Hstart & _).
  assert (b' = b) as -> by congruence.
  cbn [VirtualDisk.delete_loop]. rewrite Hget. cbv zeta.
  rewrite Hstart, seek_nonneg; [done|]. destruct Hlay as [Hbs _]. nia.
Qed.

Lemma len_zeros n : 0 <= n -> Py.len (Py.zeros n) = n.
Proof. intros H. unfold Py.len, Py.zeros. rewrite length_replicate. lia. Qed.

Lemma delete_first_touched id b d :
  laid_out d -> 0 <= id ->
  VirtualDisk.blocks d !! Z.to_nat id = Some b ->
  touched released [id] d (delete_first id b d).
Proof.
  intros Hlay Hid Hb. unfold delete_first.
  destruct (proj2 Hlay _ _ Hb) as (_ & _ & Hsize). pose proof (proj1 Hlay) as Hbs.
  assert (0 <= id * VirtualDisk.block_size d) by nia.
  apply (touched_one _ _ _ b); try done.
  - lia.
  - rewrite len_zeros, Hsize by lia. lia.
Qed.

Lemma delete_loop_spec ids : forall d,
  laid_out d -> NoDup ids ->
  (forall id, id ∈ ids -> 0 <= id < Py.len (VirtualDisk.blocks d)) ->
  exists d', VirtualDisk.delete_loop ids d = (Py.Ok (), d') /\
    touched released ids d d' /\
    (forall id, id ∈ ids -> wiped d' id) /\
    ((forall id, id ∈ ids ->
        exists b, VirtualDisk.blocks d !! Z.to_nat id = Some b /\ non_free b) ->
     count_non_free (VirtualDisk.blocks d')
     = count_non_free (VirtualDisk.blocks d) - Py.len ids).
Proof.
  induction ids as [|id ids IH]; intros d Hlay Hnd Hids.
  - exists d. split_and!; [done|apply touched_refl| |].
    + by intros id ?%elem_of_nil.
    + intros _. unfold Py.len. simpl. lia.
  - apply NoDup_cons in Hnd as [Hnotin Hnd].
    assert (0 <= id < Py.len (VirtualDisk.blocks d)) as Hid by (apply Hids; left).
    destruct (laid_out_getitem d id Hlay Hid) as (b & Hb & _ & _ & Hsize).
    rewrite (delete_loop_cons id ids d b) by done.
    pose proof (delete_first_touched id b d Hlay ltac:(lia) Hb) as Ht1.
    set (d1 := delete_first id b d) in *.
    assert (laid_out d1) as Hlay1 by (by eapply touched_laid_out).
    assert (Hbs1 : VirtualDisk.block_size d1 = VirtualDisk.block_size d) by done.
    destruct (IH d1 Hlay1 Hnd) as (d' & Hloop & Ht2 & Hwiped & Hcount).
    { intros x Hx. unfold Py.len. rewrite (touched_length _ _ _ _ Ht1).
      apply Hids. by right. }
    assert (Hbs' : VirtualDisk.block_size d' = VirtualDisk.block_size d).
    { by rewrite (touched_block_size _ _ _ _ Ht2). }
    pose proof (proj1 Hlay) as Hbs.
    assert (0 <= id * VirtualDisk.block_size d) as Hidbs by nia.
    exists d'. split_and!; [done| | |].
    + apply (touched_trans released [id] ids (id :: ids) d d1 d');
        [apply released_trans | done | done | |].
      * intros x ->%list_elem_of_singleton. by left.
      * intros x Hx. by right.
    + intros x [->|Hx]%elem_of_cons; [|by apply Hwiped].
      assert (Hb1 : VirtualDisk.blocks d1 !! Z.to_nat id = Some (release b)).
      { subst d1. unfold delete_first. simpl.
        apply list_lookup_insert_eq. by eapply lookup_lt_Some. }
      destruct (touched_blocks _ _ _ _ Ht2 _ _ Hb1) as (b' & Hb' & _ & Hc).
      assert (b' = release b) as ->.
      { destruct Hc as [->|[Hin _]]; [done|]. rewrite Z2Nat.id in Hin by lia. done. }
      exists (release b). split_and!; [done..|].
      rewrite Hbs', (touched_img _ _ _ _ Ht2); [| lia | |].
      * subst d1. unfold delete_first. simpl. rewrite Hsize.
        pose proof (file_read_write_same (VirtualDisk.disk_img d)
                      (Z.to_nat (id * VirtualDisk.block_size d))
                      (Py.zeros (VirtualDisk.block_size d))) as Hrw.
        by rewrite len_zeros in Hrw by lia.
      * subst d1. unfold delete_first. simpl. rewrite length_file_write, Hsize.
        pose proof (len_zeros (VirtualDisk.block_size d) ltac:(lia)) as Hz.
        unfold Py.len in Hz. lia.
      * intros id' Hin'. rewrite Hbs1.
        apply (regions_disjoint _ id); [done | | lia | lia]. intros ->. done.
    + intros Hnf. rewrite Hcount.
      * subst d1. unfold delete_first. simpl.
        rewrite (count_non_free_insert _ _ _ _ Hb).
        destruct (Hnf id) as (b0 & Hb0 & Hn0); [left|].
        assert (b0 = b) as -> by congruence.
        destruct (decide (non_free b)); [|done].
        destruct (decide (non_free (release b))) as [Hn|_]; [by destruct Hn|].
        unfold Py.len. simpl. lia.
      * intros x Hx. destruct (Hnf x) as (bx & Hbx & Hnx); [by right|].
        exists bx. split; [|done]. subst d1. unfold delete_first. simpl.
        rewrite list_lookup_insert_ne; [done|].
        intros Heq. apply Hnotin.
        assert (0 <= x) by (specialize (Hids x ltac:(by right)); lia).
        replace id with x by lia. done.
Qed.

Lemma delete_file_unknown fid d :
  VirtualDisk.files d !! fid = None ->
  VirtualDisk.delete_file fid d = (Py.Ok false, d).
Proof. intros Hf. unfold VirtualDisk.delete_file. by rewrite Hf. Qed.

(** [delete_file] on a known file of a well-formed disk. *)
Lemma delete_file_known fid vf d :
  disk_inv d -> VirtualDisk.files d !! fid = Some vf ->
  exists d', VirtualDisk.delete_file fid d = (Py.Ok true, d') /\
    VirtualDisk.files d' = delete fid (VirtualDisk.files d) /\
    VirtualDisk.allocated_blocks d'
    = VirtualDisk.allocated_blocks d - Py.len (VirtualFile.blocks vf) /\
    VirtualDisk.used_storage d' = VirtualDisk.used_storage d - VirtualFile.size vf /\
    VirtualDisk.block_size d' = VirtualDisk.block_size d /\
    (forall id, id ∈ VirtualFile.blocks vf -> wiped d' id) /\
    (forall i, Z.of_nat i ∉ VirtualFile.blocks vf ->
       VirtualDisk.blocks d' !! i = VirtualDisk.blocks d !! i) /\
    disk_inv d'.
Proof.
  intros Hinv Hf.
  destruct (inv_owned d Hinv fid vf Hf) as [Hnd Hown].
  destruct (delete_loop_spec (VirtualFile.blocks vf) d) as (dl & Hloop & Ht & Hw & Hc);
    [by apply disk_inv_laid_out | done | |].
  { intros id Hid. eapply owns_valid; [|done]. by eapply inv_owned. }
  pose proof Ht as [a1 a2 a3 a4 a5 a6 a7 a8 a9 a10 a11].
  assert (Hout : forall i, Z.of_nat i ∉ VirtualFile.blocks vf ->
            VirtualDisk.blocks dl !! i = VirtualDisk.blocks d !! i).
  { intros i Hi. destruct (VirtualDisk.blocks d !! i) as [b|] eqn:Hb.
    - destruct (a9 i b Hb) as (b' & Hb' & _ & [->|[Hin _]]); done.
    - apply lookup_ge_None. rewrite a8. by apply lookup_ge_None. }
  assert (Hback : forall i b', VirtualDisk.blocks dl !! i = Some b' ->
            VirtualDisk.blocks d !! i = Some b' \/ released b' b').
  { intros i b' Hb'.
    destruct (lookup_lt_is_Some_2 (VirtualDisk.blocks d) i) as [b Hb].
    { rewrite <- a8. by eapply lookup_lt_Some. }
    destruct (a9 i b Hb) as (b'' & Hb'' & _ & Hcase).
    assert (b'' = b') as -> by congruence.
    destruct Hcase as [->|[_ Hr]]; [by left|right]. unfold released in *. tauto. }
  eexists. split_and!.
  - unfold VirtualDisk.delete_file. rewrite Hf, Hloop. done.
  - simpl. by rewrite a5.
  - simpl. by rewrite a6.
  - simpl. by rewrite a7.
  - done.
  - done.
  - done.
  - constructor; simpl.
    + rewrite a3. apply Hinv.
    + apply (touched_laid_out _ _ _ _ Ht (disk_inv_laid_out d Hinv)).
    + rewrite a4, (inv_total d Hinv). unfold Py.len. by rewrite a8.
    + rewrite a6, (inv_count d Hinv), Hc; [done|].
      intros id (_ & b & Hb & Hn)%Hown. eauto.
    + intros i b' Hb' Hfree. destruct (Hback i b' Hb') as [Hb|Hr].
      * by apply (inv_free d Hinv i).
      * unfold released in Hr. tauto.
    + intros f vf2 Hf2. rewrite a5 in Hf2.
      apply lookup_delete_Some in Hf2 as [Hne Hf2].
      destruct (inv_owned d Hinv f vf2 Hf2) as [Hnd2 Hown2]. split; [done|].
      intros id Hid. destruct (Hown2 id Hid) as (H0 & b & Hb & Hn).
      split; [done|]. exists b. split; [|done].
      rewrite Hout; [done|]. rewrite Z2Nat.id by done.
      by apply (inv_disjoint d Hinv f fid vf2 vf).
    + intros f1 f2 vf1 vf2 Hne H1 H2. rewrite a5 in H1, H2.
      apply lookup_delete_Some in H1 as [_ H1].
      apply lookup_delete_Some in H2 as [_ H2].
      by apply (inv_disjoint d Hinv f1 f2).
Qed.




(** ** The constructor *)

Lemma count_non_free_initial bs l :
  count_non_free (VirtualDisk.initial_block bs <$> l) = 0.
Proof.
  induction l as [|i l IH]; [done|].
  rewrite fmap_cons, count_non_free_cons, IH.
  destruct (decide (non_free _)) as [Hn|_]; [by destruct Hn|done].
Qed.

(** A disk whose blocks are all as [_initialize_blocks] makes them. *)
Lemma fresh_disk_inv nid capacity bs total img :
  0 < bs -> 0 <= total ->
  disk_inv (VirtualDisk.mk nid capacity bs total
              (VirtualDisk._initialize_blocks bs total) ∅ 0 0 img).
Proof.
  intros Hbs Htotal.
  assert (Hlook : forall i b,
            VirtualDisk._initialize_blocks bs total !! i = Some b ->
            b = VirtualDisk.initial_block bs (Z.of_nat i)).
  { intros i b Hb. unfold VirtualDisk._initialize_blocks, Py.range in Hb.
    rewrite list_lookup_fmap in Hb.
    destruct (seqZ 0 total !! i) as [z|] eqn:Hz; [|done].
    apply lookup_seqZ in Hz as [-> _]. simpl in Hb. by injection Hb as <-. }
  constructor; simpl.
  - done.
  - intros i b ->%Hlook. done.
  - unfold Py.len, VirtualDisk._initialize_blocks, Py.range.
    rewrite length_fmap, length_seqZ. lia.
  - symmetry. apply count_non_free_initial.
  - intros i b ->%Hlook _. done.
  - intros fid vf Hf. by rewrite lookup_empty in Hf.
  - intros f1 f2 vf1 vf2 _ Hf. by rewrite lookup_empty in Hf.
Qed.


(** ** The capacity never changes *)






(** ** Reading more than was written *)

Lemma read_loop_done size ids bo acc d :
  size <= Py.len acc -> VirtualDisk.read_loop size ids bo acc d = Py.Ok acc.
Proof.
  intros H. destruct ids; [done|]. cbn [VirtualDisk.read_loop].
  by destruct (Z.leb_spec size (Py.len acc)); [|lia].
Qed.

Lemma read_loop_ok size ids : forall bo acc d,
  laid_out d ->
  (forall id, id ∈ ids -> 0 <= id < Py.len (VirtualDisk.blocks d)) ->
  0 <= bo ->
  exists more, VirtualDisk.read_loop size ids bo acc d = Py.Ok (acc ++ more).
Proof.
  induction ids as [|id ids IH]; intros bo acc d Hlay Hids Hbo.
  - exists []. by rewrite app_nil_r.
  - destruct (Z.le_gt_cases size (Py.len acc)) as [Hdone|Hmore].
    { exists []. rewrite app_nil_r. by apply read_loop_done. }
    assert (0 <= id < Py.len (VirtualDisk.blocks d)) as Hid by (apply Hids; left).
    destruct (laid_out_getitem d id Hlay Hid) as (b & Hb & _).
    rewrite (read_loop_cons size id ids bo acc d b) by done.
    edestruct (IH 0) as [more ->]; [done| |done|].
    + intros x Hx. apply Hids. by right.
    + rewrite <- app_assoc. by eauto.
Qed.

Lemma file_read_take img p n n' :
  0 <= n' <= n -> Py.file_read img p n' = take (Z.to_nat n') (Py.file_read img p n).
Proof.
  intros H. unfold Py.file_read.
  destruct (Z.ltb_spec n' 0), (Z.ltb_spec n 0); try lia.
  rewrite take_take. f_equal. lia.
Qed.

Lemma length_file_read img p n :
  0 <= n -> (length (Py.file_read img p n) <= Z.to_nat n)%nat.
Proof.
  intros H. unfold Py.file_read. destruct (Z.ltb_spec n 0); [lia|].
  rewrite length_take. lia.
Qed.

(** A shorter read returns the beginning of a longer one. *)
Lemma read_loop_prefix size size' ids : forall bo acc d,
  laid_out d ->
  (forall id, id ∈ ids -> 0 <= id < Py.len (VirtualDisk.blocks d)) ->
  0 <= bo < VirtualDisk.block_size d ->
  Py.len acc <= size' <= size ->
  exists r, VirtualDisk.read_loop size ids bo acc d = Py.Ok r /\
            VirtualDisk.read_loop size' ids bo acc d = Py.Ok (take (Z.to_nat size') r).
Proof.
  induction ids as [|id ids IH]; intros bo acc d Hlay Hids Hbo Hacc.
  - exists acc. split; [done|]. simpl. rewrite take_ge; [done|]. unfold Py.len in *. lia.
  - destruct (Z.le_gt_cases size' (Py.len acc)) as [Hdone|Hmore].
    { destruct (read_loop_ok size (id :: ids) bo acc d Hlay Hids ltac:(lia)) as [more Hr].
      exists (acc ++ more). split; [done|]. rewrite read_loop_done by done.
      rewrite take_app_le, take_ge; [done| |]; unfold Py.len in *; lia. }
    assert (0 <= id < Py.len (VirtualDisk.blocks d)) as Hid by (apply Hids; left).
    assert (Hids' : forall x, x ∈ ids -> 0 <= x < Py.len (VirtualDisk.blocks d)).
    { intros x Hx. apply Hids. by right. }
    destruct (laid_out_getitem d id Hlay Hid) as (b & Hb & _).
    rewrite !(read_loop_cons _ id ids bo acc d b) by (done || lia).
    set (p := Z.to_nat (id * VirtualDisk.block_size d + bo)).
    set (n := Z.min (size - Py.len acc) (VirtualDisk.block_size d - bo)).
    set (n' := Z.min (size' - Py.len acc) (VirtualDisk.block_size d - bo)).
    set (piece := Py.file_read (VirtualDisk.disk_img d) p n).
    assert (0 < n' <= n) as Hn by (subst n n'; lia).
    rewrite (file_read_take _ p n n') by lia. fold piece.
    pose proof (length_file_read (VirtualDisk.disk_img d) p n ltac:(lia)) as Hlp.
    fold piece in Hlp.
    destruct (Nat.le_gt_cases (length piece) (Z.to_nat n')) as [Hshort|Hlong].
    + rewrite take_ge by done.
      apply IH; [done..| by destruct Hlay; lia |].
      rewrite len_app. unfold Py.len in *. subst n'. lia.
    + destruct (read_loop_ok size ids 0 (acc ++ piece) d Hlay Hids' ltac:(lia))
        as [more Hr].
      exists ((acc ++ piece) ++ more). split; [done|].
      assert (n' = size' - Py.len acc) as Hn' by (subst n n'; lia).
      rewrite read_loop_done.
      2:{ rewrite len_app. unfold Py.len in *. rewrite length_take. lia. }
      f_equal. rewrite <- app_assoc, take_app_ge by (unfold Py.len in *; lia).
      f_equal. rewrite take_app_le by (unfold Py.len in *; lia).
      f_equal. unfold Py.len in *. lia.
Qed.

(** ** Hexadecimal text *)

Lemma fromhex_at_of_byte b rest pos :
  Hex.fromhex_at pos (Hex.of_byte b rest)
  = match Hex.fromhex_at (pos + 2) rest with
    | Py.Ok r => Py.Ok (b :: r)
    | Py.Raise e => Py.Raise e
    end.
Proof. destruct b; reflexivity. Qed.

Lemma fromhex_hex data : Hex.fromhex (Hex.hex data) = Py.Ok data.
Proof.
  unfold Hex.fromhex. generalize 0.
  induction data as [|b data IH]; intros pos; [done|].
  change (Hex.hex (b :: data)) with (Hex.of_byte b (Hex.hex data)).
  by rewrite fromhex_at_of_byte, IH.
Qed.

(** ** A successful allocation, in full *)

Lemma allocate_storage_some fid name size now d ids d1 :
  disk_inv d -> 0 <= size ->
  VirtualDisk.allocate_storage fid name size now d = (Py.Ok (Some ids), d1) ->
  disk_inv d1 /\
  NoDup ids /\
  Py.len ids = (size + VirtualDisk.block_size d - 1) / VirtualDisk.block_size d /\
  VirtualDisk.files d1
  = <[fid := VirtualFile.mk fid name size ids now (VirtualDisk.file_checksum fid name size)]>
      (VirtualDisk.files d) /\
  VirtualDisk.allocated_blocks d1 = VirtualDisk.allocated_blocks d + Py.len ids /\
  VirtualDisk.block_size d1 = VirtualDisk.block_size d /\
  VirtualDisk.disk_img d1 = VirtualDisk.disk_img d /\
  length (VirtualDisk.blocks d1) = length (VirtualDisk.blocks d) /\
  (forall id, id ∈ ids ->
     0 <= id /\
     (exists b, VirtualDisk.blocks d !! Z.to_nat id = Some b /\
                StorageBlock.status b = FREE) /\
     (exists b, VirtualDisk.blocks d1 !! Z.to_nat id = Some b /\ non_free b)) /\
  (forall i, Z.of_nat i ∉ ids -> VirtualDisk.blocks d1 !! i = VirtualDisk.blocks d !! i).
Proof.
  intros Hinv Hsize Halloc.
  pose proof (inv_block_size d Hinv) as Hbs.
  set (required := (size + VirtualDisk.block_size d - 1) / VirtualDisk.block_size d).
  assert (0 <= required) as Hreq by (apply Z.div_pos; lia).
  destruct (Z.lt_ge_cases (Py.len (VirtualDisk.free_blocks (VirtualDisk.blocks d))) required)
    as [Hlt|Hge].
  { rewrite allocate_storage_insufficient in Halloc by (done || lia). done. }
  pose proof (allocate_storage_inv fid name size now d Hinv Hsize) as Hinv1.
  destruct (allocate_storage_sufficient fid name size now d Hinv Hge)
    as (bl' & Heq & Hlen & Hlook & Hcount).
  fold required in Heq, Hlook, Hcount.
  set (ps := take (Z.to_nat required) (VirtualDisk.free_blocks (VirtualDisk.blocks d))) in *.
  rewrite Heq in Halloc, Hinv1. injection Halloc as <- <-. simpl in Hinv1.
  assert (Hlenps : Py.len (Z.of_nat <$> ps) = required).
  { unfold Py.len, ps. rewrite length_fmap, length_take. unfold Py.len in Hge. lia. }
  assert (Hps : forall p, p ∈ ps ->
            exists b, VirtualDisk.blocks d !! p = Some b /\ StorageBlock.status b = FREE).
  { intros p Hp. apply elem_of_free_blocks. by eapply subseteq_take. }
  split_and!; simpl; try done.
  - apply NoDup_fmap_2; [apply _|].
    eapply sublist_NoDup; [apply NoDup_free_from | apply sublist_take].
  - by rewrite Hlenps.
  - intros id (p & -> & Hp)%list_elem_of_fmap. rewrite Nat2Z.id.
    destruct (Hps p Hp) as (b & Hb & Hfree).
    split_and!; [lia|by eauto|].
    exists (mark fid b). split; [|apply non_free_mark].
    rewrite Hlook, Hb. by destruct (decide (p ∈ ps)).
  - intros i Hi. rewrite Hlook. destruct (decide (i ∈ ps)) as [Hin|]; [|done].
    destruct Hi. apply list_elem_of_fmap. eauto.
Qed.

(** ** Reading from an image that has every block *)

Lemma length_file_read_inside img p n :
  0 <= n -> (p + Z.to_nat n <= length img)%nat ->
  Py.len (Py.file_read img p n) = n.
Proof.
  intros Hn Hin. unfold Py.file_read, Py.len.
  destruct (Z.ltb_spec n 0); [lia|]. rewrite length_take, length_drop. lia.
Qed.

Lemma read_loop_full size ids : forall bo acc d,
  laid_out d -> img_covers d ->
  (forall id, id ∈ ids -> 0 <= id < Py.len (VirtualDisk.blocks d)) ->
  0 <= bo < VirtualDisk.block_size d -> Py.len acc <= size ->
  exists r, VirtualDisk.read_loop size ids bo acc d = Py.Ok r /\
    Py.len r
    = Z.min size (Py.len acc + Z.max 0 (Py.len ids * VirtualDisk.block_size d - bo)).
Proof.
  induction ids as [|id ids IH]; intros bo acc d Hlay Hcov Hids Hbo Hacc.
  - exists acc. split; [done|]. unfold Py.len at 3. simpl. lia.
  - pose proof (len_nonneg ids) as Hk. pose proof (proj1 Hlay) as Hbs.
    assert (Py.len (id :: ids) = 1 + Py.len ids) as Hcons
      by (unfold Py.len; simpl; lia).
    assert (0 <= Py.len ids * VirtualDisk.block_size d) by nia.
    destruct (Z.le_gt_cases size (Py.len acc)) as [Hdone|Hmore].
    { exists acc. split; [by apply read_loop_done|]. rewrite Hcons. nia. }
    assert (0 <= id < Py.len (VirtualDisk.blocks d)) as Hid by (apply Hids; left).
    destruct (laid_out_getitem d id Hlay Hid) as (b & Hb & _).
    rewrite (read_loop_cons size id ids bo acc d b) by (done || lia).
    set (n := Z.min (size - Py.len acc) (VirtualDisk.block_size d - bo)).
    set (p := Z.to_nat (id * VirtualDisk.block_size d + bo)).
    assert (Py.len (Py.file_read (VirtualDisk.disk_img d) p n) = n) as Hpiece.
    { apply length_file_read_inside; [subst n; lia|].
      unfold img_covers, Py.len in *. subst p n. nia. }
    destruct (IH 0 (acc ++ Py.file_read (VirtualDisk.disk_img d) p n) d)
      as (r & Hr & Hlen); [done|done| |lia| |].
    + intros x Hx. apply Hids. by right.
    + rewrite len_app, Hpiece. subst n. lia.
    + exists r. split; [done|]. rewrite Hlen, len_app, Hpiece, Hcons. subst n. nia.
Qed.

(** ** Storing and retrieving chunks on a node *)

Lemma fmap_VInt_inj (l1 l2 : list Z) : VInt <$> l1 = VInt <$> l2 -> l1 = l2.
Proof.
  revert l2. induction l1 as [|x l1 IH]; intros [|y l2] H; try done.
  injection H as -> H. f_equal. by apply IH.
Qed.

(** A [store_file_chunk] that reports success has allocated the blocks it
    reports and written the chunk to them. *)
Lemma store_file_chunk_stored file_id c now n B n' :
  disk_inv (VirtualNode.virtual_disk n) ->
  VirtualNode.store_file_chunk file_id (Hex.hex c) (md5_hexdigest c) now n
  = (stored B, n') ->
  exists d1,
    VirtualDisk.allocate_storage (file_id +:+ "_chunk") (file_id +:+ "_chunk")
      (Py.len c) now (VirtualNode.virtual_disk n) = (Py.Ok (Some B), d1) /\
    VirtualDisk.write_data (file_id +:+ "_chunk") c 0 d1
    = (Py.Ok true, VirtualNode.virtual_disk n').
Proof.
  intros Hinv. unfold VirtualNode.store_file_chunk.
  rewrite fromhex_hex, String.eqb_refl. simpl.
  destruct (VirtualDisk.allocate_storage _ _ _ _ _) as [[[B0|]|e] d1] eqn:Halloc;
    try (intros [=]; fail).
  destruct (allocate_storage_some _ _ _ _ _ _ _ Hinv (len_nonneg c) Halloc)
    as (Hinv1 & _ & _ & Hfiles & _).
  assert (exists vf, VirtualDisk.files d1 !! (file_id +:+ "_chunk") = Some vf)
    as [vf Hf1] by (rewrite Hfiles; eexists; apply lookup_insert_eq).
  destruct (write_data_known _ vf c 0 d1 Hinv1 Hf1) as (d2 & Hw & _).
  rewrite Hw. unfold stored. intros [= HB <-]. apply fmap_VInt_inj in HB as ->.
  by eauto.
Qed.

(** A chunk stored in [B] on the well-formed disk [d]: what the disk is
    afterwards. *)
Lemma store_on_disk fidc c now d B d1 d2 :
  disk_inv d ->
  VirtualDisk.allocate_storage fidc fidc (Py.len c) now d = (Py.Ok (Some B), d1) ->
  VirtualDisk.write_data fidc c 0 d1 = (Py.Ok true, d2) ->
  disk_inv d2 /\ NoDup B /\
  Py.len c <= Py.len B * VirtualDisk.block_size d /\
  VirtualDisk.files d2
  = <[fidc := VirtualFile.mk fidc fidc (Py.len c) B now
                (VirtualDisk.file_checksum fidc fidc (Py.len c))]> (VirtualDisk.files d) /\
  VirtualDisk.allocated_blocks d2 = VirtualDisk.allocated_blocks d + Py.len B /\
  VirtualDisk.block_size d2 = VirtualDisk.block_size d /\
  length (VirtualDisk.blocks d2) = length (VirtualDisk.blocks d) /\
  (length (VirtualDisk.disk_img d) <= length (VirtualDisk.disk_img d2))%nat /\
  (forall id, id ∈ B ->
     0 <= id /\
     (exists b, VirtualDisk.blocks d !! Z.to_nat id = Some b /\
                StorageBlock.status b = FREE) /\
     (exists b, VirtualDisk.blocks d2 !! Z.to_nat id = Some b /\ non_free b)) /\
  (forall i, Z.of_nat i ∉ B -> VirtualDisk.blocks d2 !! i = VirtualDisk.blocks d !! i) /\
  VirtualDisk.read_data fidc (Py.len c) 0 d2 = Py.Ok (Some c).
Proof.
  intros Hinv Halloc Hw.
  pose proof (inv_block_size d Hinv) as Hbs.
  destruct (allocate_storage_some _ _ _ _ _ _ _ Hinv (len_nonneg c) Halloc)
    as (Hinv1 & Hnd & Hlen & Hfiles & Hcount & Hbs1 & Himg1 & Hlen1 & HB & Hout).
  set (vf := VirtualFile.mk fidc fidc (Py.len c) B now _) in *.
  assert (Hf1 : VirtualDisk.files d1 !! fidc = Some vf).
  { rewrite Hfiles. apply lookup_insert_eq. }
  destruct (write_data_known fidc vf c 0 d1 Hinv1 Hf1) as (d2' & Hw' & Ht).
  assert (d2' = d2) as -> by congruence.
  pose proof (write_data_inv fidc c 0 d1 Hinv1) as Hinv2. rewrite Hw in Hinv2.
  pose proof (required_blocks_ceil (Py.len c) _ Hbs) as Hceil. simpl in Hceil.
  rewrite <- Hlen in Hceil.
  destruct (read_after_write fidc vf c 0 d1 Hinv1 Hf1 ltac:(lia)) as (d3 & Hw3 & Hr).
  assert (d3 = d2) as -> by congruence.
  split_and!; try done.
  - lia.
  - by rewrite (touched_files _ _ _ _ Ht).
  - by rewrite (touched_allocated _ _ _ _ Ht).
  - by rewrite (touched_block_size _ _ _ _ Ht).
  - by rewrite (touched_length _ _ _ _ Ht).
  - rewrite <- Himg1. apply (touched_img_length _ _ _ _ Ht).
  - intros id Hid. destruct (HB id Hid) as (H0 & Hfree & b1 & Hb1 & Hn1).
    split_and!; [done..|].
    destruct (touched_blocks _ _ _ _ Ht _ _ Hb1) as (b2 & Hb2 & _ & Hc).
    exists b2. split; [done|]. destruct Hc as [->|[_ [Hocc _]]]; [done|].
    unfold non_free. by rewrite Hocc.
  - intros i Hi. rewrite <- Hout by done.
    destruct (VirtualDisk.blocks d1 !! i) as [b1|] eqn:Hb1.
    + destruct (touched_blocks _ _ _ _ Ht _ _ Hb1) as (b2 & Hb2 & _ & [->|[Hin _]]);
        done.
    + apply lookup_ge_None. rewrite (touched_length _ _ _ _ Ht).
      by apply lookup_ge_None.
  - rewrite Hr. do 2 f_equal. apply take_ge. simpl.
    rewrite Hbs1. unfold Py.len in *. lia.
Qed.

Lemma read_data_from_start fid vf size d :
  0 < VirtualDisk.block_size d ->
  VirtualDisk.files d !! fid = Some vf ->
  VirtualDisk.read_data fid size 0 d
  = match VirtualDisk.read_loop size (VirtualFile.blocks vf) 0 [] d with
    | Py.Ok data => Py.Ok (Some data)
    | Py.Raise e => Py.Raise e
    end.
Proof.
  intros Hbs Hf. unfold VirtualDisk.read_data. rewrite Hf.
  rewrite floordiv_ok, modulo_ok by lia.
  rewrite Z.div_0_l, Z.mod_0_l by lia. simpl.
  by rewrite slice_from_nonneg.
Qed.

(** Two chunks of one file stored on the same node, then a retrieval. *)
Lemma store_twice_then_retrieve file_id c1 c2 now1 now2 n n1 n2 B1 B2 :
  disk_inv (VirtualNode.virtual_disk n) ->
  Py.len c2 <= 1024 * 1024 ->
  VirtualNode.store_file_chunk file_id (Hex.hex c1) (md5_hexdigest c1) now1 n
  = (stored B1, n1) ->
  VirtualNode.store_file_chunk file_id (Hex.hex c2) (md5_hexdigest c2) now2 n1
  = (stored B2, n2) ->
  let d := VirtualNode.virtual_disk n in
  let d2 := VirtualNode.virtual_disk n2 in
  (exists vf, VirtualDisk.files d2 !! (file_id +:+ "_chunk") = Some vf /\
              VirtualFile.blocks vf = B2 /\ VirtualFile.size vf = Py.len c2) /\
  (exists extra n3,
     VirtualNode.retrieve_file_chunk file_id n2 = (retrieved (c2 ++ extra), n3) /\
     (img_covers d ->
      Py.len (c2 ++ extra)
      = Z.min (1024 * 1024) (Py.len B2 * VirtualDisk.block_size d))) /\
  (forall id, id ∈ B1 ->
     (exists b, VirtualDisk.blocks d2 !! Z.to_nat id = Some b /\ non_free b) /\
     forall fid vf, VirtualDisk.files d2 !! fid = Some vf ->
                    id ∉ VirtualFile.blocks vf) /\
  VirtualDisk.allocated_blocks d2
  = VirtualDisk.allocated_blocks d + Py.len B1 + Py.len B2.
Proof.
  intros Hinv Hc2 Hs1 Hs2 d d2.
  destruct (store_file_chunk_stored _ _ _ _ _ _ Hinv Hs1) as (da & Ha1 & Hw1).
  destruct (store_on_disk _ _ _ _ _ _ _ Hinv Ha1 Hw1)
    as (Hinv1 & Hnd1 & Hfit1 & Hfiles1 & Hcount1 & Hbs1 & Hlen1 & Himg1 & HB1 & Hout1 & _).
  destruct (store_file_chunk_stored _ _ _ _ _ _ Hinv1 Hs2) as (db & Ha2 & Hw2).
  destruct (store_on_disk _ _ _ _ _ _ _ Hinv1 Ha2 Hw2)
    as (Hinv2 & Hnd2 & Hfit2 & Hfiles2 & Hcount2 & Hbs2 & Hlen2 & Himg2 & HB2 & Hout2 & Hread).
  fold d in Hfit1, Hfiles1, Hcount1, Hbs1, Hlen1, Himg1, HB1, Hout1.
  fold d2 in Hinv2, Hfiles2, Hcount2, Hbs2, Hlen2, Himg2, HB2, Hout2, Hread.
  set (d1 := VirtualNode.virtual_disk n1) in *.
  set (fidc := file_id +:+ "_chunk") in *.
  pose proof (inv_block_size _ Hinv2) as Hbs.
  assert (Hdisj : forall id, id ∈ B1 -> id ∉ B2).
  { intros id H1 H2. destruct (HB1 id H1) as (_ & _ & b & Hb & Hn).
    destruct (HB2 id H2) as (_ & (b' & Hb' & Hfree) & _). congruence. }
  assert (Hvf2 : VirtualDisk.files d2 !! fidc
                 = Some (VirtualFile.mk fidc fidc (Py.len c2) B2 now2
                           (VirtualDisk.file_checksum fidc fidc (Py.len c2)))).
  { rewrite Hfiles2. apply lookup_insert_eq. }
  split_and!.
  - eexists. split; [exact Hvf2|done].
  - rewrite (read_data_from_start _ _ _ _ Hbs Hvf2) in Hread. simpl in Hread.
    destruct (read_loop_prefix (1024 * 1024) (Py.len c2) B2 0 [] d2) as (r & Hr & Hr').
    { by apply disk_inv_laid_out. }
    { intros id Hid. destruct (HB2 id Hid) as (H0 & _ & b & Hb & _).
      apply lookup_lt_Some in Hb. unfold Py.len. lia. }
    { lia. }
    { pose proof (len_nonneg c2). unfold Py.len at 1. simpl. lia. }
    rewrite Hr' in Hread. injection Hread as Htake.
    assert (c2 ++ drop (Z.to_nat (Py.len c2)) r = r) as Hsplit.
    { rewrite <- Htake at 1. apply take_drop. }
    exists (drop (Z.to_nat (Py.len c2)) r). eexists. rewrite Hsplit. split.
    + unfold VirtualNode.retrieve_file_chunk. fold fidc.
      rewrite (read_data_from_start _ _ _ _ Hbs Hvf2). simpl. rewrite Hr.
      reflexivity.
    + intros Hcov.
      destruct (read_loop_full (1024 * 1024) B2 0 [] d2) as (r' & Hr2 & Hlen).
      * by apply disk_inv_laid_out.
      * unfold img_covers, Py.len in *. rewrite Hlen2, Hlen1, Hbs2, Hbs1. lia.
      * intros id Hid. destruct (HB2 id Hid) as (H0 & _ & b & Hb & _).
        apply lookup_lt_Some in Hb. unfold Py.len. lia.
      * lia.
      * unfold Py.len. simpl. lia.
      * assert (r' = r) as -> by congruence. rewrite Hlen, Hbs2, Hbs1.
        pose proof (len_nonneg B2). unfold Py.len at 1. simpl.
        assert (0 <= Py.len B2 * VirtualDisk.block_size d) by (fold d in Hbs1; nia).
        lia.
  - intros id Hid. split.
    + destruct (HB1 id Hid) as (H0 & _ & b & Hb & Hn).
      exists b. split; [|done]. rewrite Hout2; [done|].
      rewrite Z2Nat.id by done. by apply Hdisj.
    + intros fid vf Hf. rewrite Hfiles2 in Hf.
      destruct (decide (fid = fidc)) as [->|Hne].
      * rewrite lookup_insert_eq in Hf. injection Hf as <-. simpl. by apply Hdisj.
      * rewrite lookup_insert_ne in Hf by done. rewrite Hfiles1 in Hf.
        rewrite lookup_insert_ne in Hf by done.
        intros Hin. destruct (inv_owned _ Hinv fid vf Hf) as [_ Hown].
        destruct (Hown id Hin) as (_ & b & Hb & Hn).
        destruct (HB1 id Hid) as (_ & (b' & Hb' & Hfree) & _).
        assert (b' = b) as -> by (fold d in Hb; congruence). by destruct Hn.
  - lia.
Qed.

Lemma pair_from_fst {A B} (p : A * B) (a : A) : p.1 = a -> p = (a, p.2).
Proof. destruct p. simpl. by intros ->. Qed.

Lemma bind_ok {A B} (a : A) (k : A -> Py.res B) : (x ← Py.Ok a; k x) = k a.
Proof. reflexivity. Qed.

(** ** The disk of a new node *)

Lemma fresh_disk_is_made_by_init :
  VirtualDisk.__init__ "B" 1 64 None = Py.Ok (Example.disk_over Example.fresh_img).
Proof.
  unfold VirtualDisk.__init__, VirtualDisk._initialize_disk.
  rewrite floordiv_ok by lia. rewrite bind_ok.
  rewrite seek_nonneg by lia. rewrite !bind_ok.
  change (1 * 1024 * 1024 * 1024 / (64 * 1024)) with 16384.
  unfold Example.disk_over, Example.fresh_img. reflexivity.
Qed.

Lemma disk_over_inv img : disk_inv (Example.disk_over img).
Proof. unfold Example.disk_over. apply fresh_disk_inv; lia. Qed.

Lemma fresh_img_covers : img_covers (Example.disk_over Example.fresh_img).
Proof.
  unfold img_covers, Example.disk_over, Example.fresh_img, Py.len.
  cbn [VirtualDisk.blocks VirtualDisk.block_size VirtualDisk.disk_img].
  unfold VirtualDisk._initialize_blocks, Py.range.
  rewrite length_fmap, length_seqZ, length_file_write.
  cbn [length]. lia.
Qed.

(** On the disk of a new node of 1 GB, whatever its image holds, the first
    chunk goes to block 0 and the second one to block 1. *)
Lemma fresh_node_stores img :
  let n := Example.node_over img in
  let n1 := (VirtualNode.store_file_chunk "F" (Hex.hex Example.chunk_a) (md5_hexdigest Example.chunk_a) 0%Q n).2 in
  (VirtualNode.store_file_chunk "F" (Hex.hex Example.chunk_a) (md5_hexdigest Example.chunk_a) 0%Q n).1 = stored [0] /\
  (VirtualNode.store_file_chunk "F" (Hex.hex Example.chunk_b) (md5_hexdigest Example.chunk_b) 1%Q n1).1 = stored [1].
Proof. split; vm_compute; reflexivity. Qed.

(** * The properties of the block store *)


Lemma example_small_disk_inv : disk_inv Example.small_disk.
Proof. by apply fresh_disk_inv. Qed.

Lemma example_small_disk_with_file_inv : disk_inv Example.small_disk_with_file.
Proof. apply allocate_storage_inv; [apply example_small_disk_inv | done]. Qed.

Lemma example_the_file :
  VirtualDisk.files Example.small_disk_with_file !! "f" = Some Example.the_file.
Proof. vm_compute. reflexivity. Qed.

(** C2. An allocation that needs more blocks than are free fails with
    insufficient storage (it returns no block list) and changes nothing:
    the disk after the call is the disk before it. On a disk of exactly one
    block of 64 KiB, a file of 64 KiB is allocated, which leaves no free
    block, and a second allocation of one byte fails and leaves the disk,
    and so the first file, as they were. *)
Theorem allocate_storage_insufficient_storage :
  (forall d fid name size now n,
     0 < VirtualDisk.block_size d ->
     is_ceil n size (VirtualDisk.block_size d) ->
     Py.len (VirtualDisk.free_blocks (VirtualDisk.blocks d)) < n ->
     VirtualDisk.allocate_storage fid name size now d = (Py.Ok None, d)) /\
  (forall nid img fid1 name1 now1 fid2 name2 now2,
     exists d1 info,
       VirtualDisk.allocate_storage fid1 name1 65536 now1 (Example.one_block_disk nid img)
       = (Py.Ok (Some [0]), d1) /\
       VirtualDisk.get_storage_info d1 = Py.Ok info /\
       VirtualDisk.info_free_blocks info = 0 /\
       VirtualDisk.allocate_storage fid2 name2 1 now2 d1 = (Py.Ok None, d1) /\
       exists vf, VirtualDisk.files d1 !! fid1 = Some vf /\
                  VirtualFile.blocks vf = [0] /\ VirtualFile.size vf = 65536).
Proof.
  split.
  - intros d fid name size now n Hbs Hceil Hfree.
    apply allocate_storage_insufficient; [lia|].
    pose proof (required_blocks_ceil size _ Hbs) as Hreq.
    by rewrite <- (ceil_unique size _ _ _ Hbs Hceil Hreq).
  - intros nid img fid1 name1 now1 fid2 name2 now2.
    eexists _, _. split_and!; [reflexivity|reflexivity|reflexivity|reflexivity|].
    eexists. split; [apply lookup_insert_eq|done].
Qed.

Lemma allocate_storage_insufficient_storage_witness :
  VirtualDisk.allocate_storage "g" "g.txt" 5 0%Q Example.small_disk_with_file
  = (Py.Ok None, Example.small_disk_with_file).
Proof.
  apply (proj1 allocate_storage_insufficient_storage _ _ _ _ _ 2).
  - reflexivity.
  - unfold is_ceil. vm_compute. intuition discriminate.
  - vm_compute. reflexivity.
Defined.





(** C10. [write_data] on a known file of a well-formed disk returns [True]
    whatever the length of the data: it changes nothing but the blocks of
    the file and the bytes of the image that they cover, and what is read
    back at the same offset is the part of the data that fits in these
    blocks, so that the bytes past the last block of the file are not
    written and no error is reported. It returns [False], and changes
    nothing, exactly when the file is unknown. *)
Theorem write_data_past_the_end d fid data offset :
  disk_inv d ->
  (VirtualDisk.files d !! fid = None ->
   VirtualDisk.write_data fid data offset d = (Py.Ok false, d)) /\
  (forall vf, VirtualDisk.files d !! fid = Some vf ->
     exists d', VirtualDisk.write_data fid data offset d = (Py.Ok true, d') /\
       touched occupied (VirtualFile.blocks vf) d d' /\
       (0 <= offset ->
        VirtualDisk.read_data fid (Py.len data) offset d'
        = Py.Ok (Some (take (Z.to_nat (Py.len (VirtualFile.blocks vf)
                                       * VirtualDisk.block_size d - offset)) data)))).
Proof.
  intros Hinv. split; [apply write_data_unknown|].
  intros vf Hf.
  destruct (write_data_known fid vf data offset d Hinv Hf) as (d' & Hw & Ht).
  exists d'. split_and!; [done..|]. intros Hoff.
  destruct (read_after_write fid vf data offset d Hinv Hf Hoff) as (d2 & Hw2 & Hr).
  by assert (d2 = d') as -> by congruence.
Qed.

Lemma write_data_past_the_end_witness :
  exists d',
    VirtualDisk.write_data "f" (Py.encode "0123456789ABCDEF") 3
      Example.small_disk_with_file = (Py.Ok true, d') /\
    VirtualDisk.disk_img d'
    = Py.zeros 3 ++ Py.encode "01234" ++ Py.zeros 4 /\
    VirtualDisk.read_data "f" 16 3 d' = Py.Ok (Some (Py.encode "01234")).
Proof.
  destruct (proj2 (write_data_past_the_end Example.small_disk_with_file "f"
                     (Py.encode "0123456789ABCDEF") 3
                     example_small_disk_with_file_inv)
              Example.the_file example_the_file) as (d' & Hw & _ & Hr).
  exists d'. split_and!.
  - exact Hw.
  - vm_compute in Hw. injection Hw as <-. reflexivity.
  - apply Hr. lia.
Defined.





(** * The properties of the node *)

(** C9, as the code has it. Two chunks [c1] and [c2] of one file stored on
    the same node, whose disk is well formed, go to the same storage id
    [file_id + "_chunk"]: after the second store the record of that id
    lists the blocks of the second chunk only. A retrieval then returns the
    bytes of the second chunk (of at most 1 MiB) followed by [extra], what
    the image holds after them in the blocks of the chunk, and nothing of
    the first chunk: when the image has every block, the bytes returned are
    all the bytes of these blocks, [len B2 * block_size] of them, up to
    1 MiB. The blocks of the first chunk stay non-free, are listed by no
    file record, and are counted in [allocated_blocks]. *)
Theorem second_chunk_replaces_first file_id c1 c2 now1 now2 n n1 n2 B1 B2 :
  disk_inv (VirtualNode.virtual_disk n) ->
  Py.len c2 <= 1024 * 1024 ->
  VirtualNode.store_file_chunk file_id (Hex.hex c1) (md5_hexdigest c1) now1 n
  = (stored B1, n1) ->
  VirtualNode.store_file_chunk file_id (Hex.hex c2) (md5_hexdigest c2) now2 n1
  = (stored B2, n2) ->
  let d := VirtualNode.virtual_disk n in
  let d2 := VirtualNode.virtual_disk n2 in
  (exists vf, VirtualDisk.files d2 !! (file_id +:+ "_chunk") = Some vf /\
              VirtualFile.blocks vf = B2 /\ VirtualFile.size vf = Py.len c2) /\
  (exists extra n3,
     VirtualNode.retrieve_file_chunk file_id n2 = (retrieved (c2 ++ extra), n3) /\
     (img_covers d ->
      Py.len (c2 ++ extra)
      = Z.min (1024 * 1024) (Py.len B2 * VirtualDisk.block_size d))) /\
  (forall id, id ∈ B1 ->
     (exists b, VirtualDisk.blocks d2 !! Z.to_nat id = Some b /\ non_free b) /\
     forall fid vf, VirtualDisk.files d2 !! fid = Some vf ->
                    id ∉ VirtualFile.blocks vf) /\
  VirtualDisk.allocated_blocks d2
  = VirtualDisk.allocated_blocks d + Py.len B1 + Py.len B2.
Proof. apply store_twice_then_retrieve. Qed.

Lemma second_chunk_replaces_first_witness :
  let n1 := (VirtualNode.store_file_chunk "F" (Hex.hex (Py.encode "aaaaaa")) (md5_hexdigest (Py.encode "aaaaaa")) 0%Q Example.small_node).2 in
  let n2 := (VirtualNode.store_file_chunk "F" (Hex.hex Example.chunk_b) (md5_hexdigest Example.chunk_b) 1%Q n1).2 in
  (exists extra n3,
     VirtualNode.retrieve_file_chunk "F" n2 = (retrieved (Example.chunk_b ++ extra), n3) /\
     (img_covers Example.small_disk ->
      Py.len (Example.chunk_b ++ extra) = Z.min (1024 * 1024) (Py.len [2] * 4))) /\
  VirtualDisk.allocated_blocks (VirtualNode.virtual_disk n2) = 0 + Py.len [0; 1] + Py.len [2].
Proof.
  intros n1 n2.
  destruct (second_chunk_replaces_first "F" (Py.encode "aaaaaa") Example.chunk_b
              0%Q 1%Q Example.small_node n1 n2 [0; 1] [2]) as (_ & Hr & _ & Ha).
  - apply example_small_disk_inv.
  - vm_compute. discriminate.
  - refine (pair_from_fst
              (VirtualNode.store_file_chunk "F" (Hex.hex (Py.encode "aaaaaa")) (md5_hexdigest (Py.encode "aaaaaa")) 0%Q Example.small_node) _ _).
    vm_compute. reflexivity.
  - refine (pair_from_fst (VirtualNode.store_file_chunk "F" (Hex.hex Example.chunk_b) (md5_hexdigest Example.chunk_b) 1%Q n1) _ _).
    vm_compute. reflexivity.
  - split; [exact Hr | exact Ha].
Defined.

(** On the disk of a new node whose image has every block, the retrieval
    after the two stores returns the whole block of the second chunk. *)
Lemma whole_block_retrieved img :
  img_covers (Example.disk_over img) ->
  exists n1 n2 data n3,
    VirtualNode.store_file_chunk "F" (Hex.hex Example.chunk_a) (md5_hexdigest Example.chunk_a) 0%Q (Example.node_over img) = (stored [0], n1) /\
    VirtualNode.store_file_chunk "F" (Hex.hex Example.chunk_b) (md5_hexdigest Example.chunk_b) 1%Q n1 = (stored [1], n2) /\
    VirtualNode.retrieve_file_chunk "F" n2 = (retrieved data, n3) /\
    Py.len data = 65536 /\ data <> Example.chunk_b.
Proof.
  intros Hcov.
  destruct (fresh_node_stores img) as [H1 H2].
  pose proof (pair_from_fst
                (VirtualNode.store_file_chunk "F" (Hex.hex Example.chunk_a) (md5_hexdigest Example.chunk_a) 0%Q (Example.node_over img))
                (stored [0]) H1) as Hs1.
  set (n1 := (VirtualNode.store_file_chunk "F" (Hex.hex Example.chunk_a) (md5_hexdigest Example.chunk_a) 0%Q (Example.node_over img)).2) in *.
  pose proof (pair_from_fst (VirtualNode.store_file_chunk "F" (Hex.hex Example.chunk_b) (md5_hexdigest Example.chunk_b) 1%Q n1)
                (stored [1]) H2) as Hs2.
  set (n2 := (VirtualNode.store_file_chunk "F" (Hex.hex Example.chunk_b) (md5_hexdigest Example.chunk_b) 1%Q n1).2) in *.
  assert (Py.len Example.chunk_b <= 1024 * 1024) as Hc by (vm_compute; discriminate).
  destruct (store_twice_then_retrieve "F" Example.chunk_a Example.chunk_b 0%Q 1%Q
              (Example.node_over img) n1 n2 [0] [1] (disk_over_inv img) Hc Hs1 Hs2)
    as (_ & (extra & n3 & Hr & Hlen) & _).
  specialize (Hlen Hcov).
  change (Py.len (Example.chunk_b ++ extra) = Z.min (1024 * 1024) (1 * (64 * 1024)))
    in Hlen.
  exists n1, n2, (Example.chunk_b ++ extra), n3.
  split_and!; [exact Hs1 | exact Hs2 | exact Hr | |].
  - rewrite Hlen. reflexivity.
  - intros Heq. rewrite Heq in Hlen. vm_compute in Hlen. discriminate Hlen.
Qed.

(** C9, as stated, fails on a new node: after the chunks ["a"] and ["b"]
    of one file are stored, the retrieval returns 65536 bytes, the whole
    block of the second chunk, and not the one byte of that chunk. *)
Lemma retrieve_returns_whole_block_counterexample :
  VirtualDisk.__init__ "B" 1 64 None = Py.Ok (Example.disk_over Example.fresh_img) /\
  exists n1 n2 data n3,
    VirtualNode.store_file_chunk "F" (Hex.hex Example.chunk_a) (md5_hexdigest Example.chunk_a) 0%Q (Example.node_over Example.fresh_img)
    = (stored [0], n1) /\
    VirtualNode.store_file_chunk "F" (Hex.hex Example.chunk_b) (md5_hexdigest Example.chunk_b) 1%Q n1 = (stored [1], n2) /\
    VirtualNode.retrieve_file_chunk "F" n2 = (retrieved data, n3) /\
    Py.len data = 65536 /\ data <> Example.chunk_b.
Proof.
  split.
  - exact fresh_disk_is_made_by_init.
  - exact (whole_block_retrieved Example.fresh_img fresh_img_covers).
Qed.

(** * The properties of the RPC layer *)

Section RPCFacts.
Context {S : Type}.
Variable float_repr : Q -> string.
Implicit Types st : RPCService.t S.

Lemma container_at_insert_eq ref c st :
  (ref < length (RPCService.containers st))%nat ->
  RPCService.container_at ref
    (RPCService.set_containers (<[ref := c]> (RPCService.containers st)) st) = c.
Proof.
  intros H. unfold RPCService.container_at. simpl.
  by rewrite list_lookup_insert_eq.
Qed.



(** The state that [issue] leaves. *)
Lemma issue_spec target_ip method_name params clk sent st :
  exists request st2,
    RPCService.issue float_repr target_ip method_name params clk sent st
    = (RPCService.call_id_of float_repr (RPCService.node_id st) method_name (clk 0%nat),
       length (RPCService.containers st), request, sent, st2) /\
    NetworkMessage.payload request
    = VDict [("call_id",
              VStr (RPCService.call_id_of float_repr (RPCService.node_id st)
                      method_name (clk 0%nat)));
             ("method_name", VStr method_name);
             ("params", if truthy params then params else VDict []);
             ("source_port",
              VInt (TCPCommunication.port (RPCService.tcp_comm st)))] /\
    RPCService.containers st2
    = RPCService.containers st ++ [RPCService.mk_container VNone false VNone] /\
    RPCService.pending_calls st2
    = <[RPCService.call_id_of float_repr (RPCService.node_id st) method_name (clk 0%nat)
        := (length (RPCService.containers st), clk 2%nat)]>
        (RPCService.pending_calls st) /\
    RPCService.rpc_methods st2 = RPCService.rpc_methods st /\
    RPCService.node_id st2 = RPCService.node_id st.
Proof.
  unfold RPCService.issue, TCPCommunication.send_message.
  destruct sent; simpl; eexists _, _; split_and!; reflexivity.
Qed.



End RPCFacts.




(** * A call that reaches its peer *)

Section PeerFacts.
Context {S : Type}.
Variable float_repr : Q -> string.
Implicit Types st peer : RPCService.t S.

Lemma request_fields (cid m p port dflt1 dflt2 : pyval) :
  let payload :=
    VDict [("call_id", cid); ("method_name", m); ("params", p); ("source_port", port)] in
  Dict.subscript payload "call_id" = Py.Ok cid /\
  Dict.subscript payload "method_name" = Py.Ok m /\
  Dict.get_default payload "params" dflt1 = Py.Ok p /\
  Dict.get_default payload "source_port" dflt2 = Py.Ok port.
Proof. split_and!; reflexivity. Qed.

Lemma response_fields (cid r err : pyval) :
  let payload := VDict [("call_id", cid); ("result", r); ("error", err)] in
  Dict.subscript payload "call_id" = Py.Ok cid /\
  Dict.subscript payload "result" = Py.Ok r /\
  Dict.subscript payload "error" = Py.Ok err.
Proof. split_and!; reflexivity. Qed.

(** What the caller gets when request and response both arrive: the
    result that the peer's dispatch produced, or an exception that
    carries its error text. *)
Lemma call_peer_spec peer s method_name params timeout clk msg_id peer_clk peer_now st
    r err s' :
  RPCService.dispatch float_repr peer (VStr method_name)
    (if truthy params then params else VDict []) peer_clk s = ((r, err), s') ->
  exists st',
    RPCService.call_peer float_repr peer s method_name params timeout clk msg_id
      peer_clk peer_now st
    = ((if truthy err
        then Py.Raise (Py.mk_exn Py.Exception (scalar_str float_repr err))
        else Py.Ok r), st', s') /\
    RPCService.pending_calls st'
      !! RPCService.call_id_of float_repr (RPCService.node_id st) method_name (clk 0%nat)
    = None.
Proof.
  intros Hd. unfold RPCService.call_peer.
  destruct (issue_spec float_repr (TCPCommunication.ip (RPCService.tcp_comm peer))
              method_name params clk true st)
    as (request & st2 & Hi & Hpay & Hc & Hp & _).
  rewrite Hi. clear Hi.
  generalize dependent (RPCService.call_id_of float_repr (RPCService.node_id st)
                          method_name (clk 0%nat)).
  intros cid Hpay Hp.
  unfold RPCService._handle_rpc_request. rewrite Hpay.
  destruct (request_fields (VStr cid) (VStr method_name)
              (if truthy params then params else VDict [])
              (VInt (TCPCommunication.port (RPCService.tcp_comm st)))
              (VDict []) (VInt (TCPCommunication.port (RPCService.tcp_comm peer))))
    as (-> & -> & -> & ->).
  rewrite Hd.
  unfold RPCService.deliver, RPCService._handle_rpc_response,
    RPCService.response_message.
  cbn [NetworkMessage.payload].
  destruct (response_fields (VStr cid) r err) as (-> & -> & ->).
  rewrite Hp, lookup_insert_eq. cbn [snd].
  unfold RPCService.conclude, RPCService.container_at.
  cbn [RPCService.containers RPCService.set_pending RPCService.set_containers].
  rewrite Hc, list_lookup_insert_eq by (rewrite length_app; simpl; lia).
  simpl.
  eexists. split.
  - destruct (truthy err); reflexivity.
  - cbn [RPCService.pending_calls RPCService.set_pending]. apply lookup_delete_eq.
Qed.

Lemma dispatch_unknown peer method_name params peer_clk s :
  RPCService.rpc_methods peer !! method_name = None ->
  RPCService.dispatch float_repr peer (VStr method_name) params peer_clk s
  = ((VNone, VStr ("Method " +:+ method_name +:+ " not found")), s).
Proof.
  intros H. unfold RPCService.dispatch, RPCService.callable in *. by rewrite H.
Qed.

End PeerFacts.

Lemma dispatch_ping float_repr (peer : RPCService.t VirtualNode.t) peer_clk n :
  RPCService.rpc_methods peer !! "ping" = Some VirtualNode.ping_method ->
  RPCService.dispatch float_repr peer (VStr "ping") (VDict []) peer_clk n
  = ((VirtualNode.ping peer_clk n, VNone), n).
Proof.
  intros H. unfold RPCService.dispatch, RPCService.callable in *. by rewrite H.
Qed.

(** C6, as the code has it. When the request and the response are both
    delivered, a call of "ping" on a peer that has registered the node's
    ping method returns that node's id with [success] true and, if the
    node's clock has not gone back since it started, an uptime that is not
    negative. A call of a method that the peer has not registered returns
    nothing: it raises [Exception("Method <name> not found")] at the caller;
    the caller sees no value with a [success] field. *)
Theorem ping_answers_and_unknown_method_raises (float_repr : Q -> string)
    (a b : RPCService.t VirtualNode.t) (n : VirtualNode.t)
    timeout clk msg_id peer_clk peer_now :
  (RPCService.rpc_methods b !! "ping" = Some VirtualNode.ping_method ->
   (VirtualNode.start_time n <= peer_clk 1%nat)%Q ->
   exists a' uptime,
     RPCService.call_peer float_repr b n "ping" VNone timeout clk msg_id peer_clk
       peer_now a
     = (Py.Ok (VDict [("success", VBool true);
                      ("node_id", VStr (VirtualNode.node_id n));
                      ("timestamp", VFloat (peer_clk 0%nat));
                      ("uptime", VFloat uptime)]), a', n) /\
     (0 <= uptime)%Q) /\
  (forall method_name params,
     RPCService.rpc_methods b !! method_name = None ->
     exists a',
       RPCService.call_peer float_repr b n method_name params timeout clk msg_id
         peer_clk peer_now a
       = (Py.Raise (Py.mk_exn Py.Exception ("Method " +:+ method_name +:+ " not found")),
          a', n)).
Proof.
  split.
  - intros Hping Hclock.
    destruct (call_peer_spec float_repr b n "ping" VNone timeout clk msg_id peer_clk
                peer_now a _ _ _ (dispatch_ping float_repr b peer_clk n Hping))
      as (a' & Hcall & _).
    exists a', (peer_clk 1%nat - VirtualNode.start_time n)%Q. split; [exact Hcall|].
    unfold Qminus. by apply Qle_minus_iff in Hclock.
  - intros method_name params Hnone.
    destruct (call_peer_spec float_repr b n method_name params timeout clk msg_id
                peer_clk peer_now a _ _ _
                (dispatch_unknown float_repr b method_name _ peer_clk n Hnone))
      as (a' & Hcall & _).
    exists a'. exact Hcall.
Qed.

Lemma ping_answers_and_unknown_method_raises_witness :
  (exists a' uptime,
     RPCService.call_peer Example.float_repr Example.service_b Example.small_node
       "ping" VNone 30%Q Example.clk "m1" Example.clk 20%Q Example.service_a
     = (Py.Ok (VDict [("success", VBool true);
                      ("node_id", VStr "B");
                      ("timestamp", VFloat (Example.clk 0%nat));
                      ("uptime", VFloat uptime)]), a', Example.small_node) /\
     (0 <= uptime)%Q) /\
  (exists a',
     RPCService.call_peer Example.float_repr Example.service_b Example.small_node
       "nope" VNone 30%Q Example.clk "m1" Example.clk 20%Q Example.service_a
     = (Py.Raise (Py.mk_exn Py.Exception "Method nope not found"), a',
        Example.small_node)).
Proof.
  destruct (ping_answers_and_unknown_method_raises Example.float_repr
              Example.service_a Example.service_b Example.small_node 30%Q Example.clk
              "m1" Example.clk 20%Q) as [Hping Hunknown].
  split.
  - apply Hping; [vm_compute; reflexivity | vm_compute; discriminate].
  - apply (Hunknown "nope" VNone). vm_compute. reflexivity.
Defined.

(** C6, as stated, fails for the unregistered method: A's call of "nope" on
    B gives A no value at all, so no [success] field that is false; it
    raises an exception whose text is the error of B's response. *)
Lemma unknown_method_raises_at_caller_counterexample :
  RPCService.rpc_methods Example.service_b !! "nope" = None /\
  exists e a',
    RPCService.call_peer Example.float_repr Example.service_b Example.small_node
      "nope" VNone 30%Q Example.clk "m1" Example.clk 20%Q Example.service_a
    = (Py.Raise e, a', Example.small_node) /\
    e = Py.mk_exn Py.Exception "Method nope not found" /\
    forall v, Py.Raise e <> Py.Ok (A := pyval) v.
Proof.
  assert (Hnone : RPCService.rpc_methods Example.service_b !! "nope" = None)
    by (vm_compute; reflexivity).
  split; [exact Hnone|].
  destruct (call_peer_spec Example.float_repr Example.service_b Example.small_node
              "nope" VNone 30%Q Example.clk "m1" Example.clk 20%Q Example.service_a
              _ _ _
              (dispatch_unknown Example.float_repr Example.service_b "nope" _
                 Example.clk Example.small_node Hnone))
    as (a' & Hcall & _).
  eexists _, a'. split_and!; [exact Hcall | reflexivity | discriminate].
Qed.

(** * The distribution of a file *)

Lemma range_from_spec stop step : 0 < step -> forall fuel i,
  (Z.to_nat (stop - i) <= fuel)%nat ->
  Py.range_from fuel i stop step
  = (fun j => i + Z.of_nat j * step) <$> seq 0 (Z.to_nat ((stop - i + step - 1) / step)).
Proof.
  intros Hstep. induction fuel as [|fuel IH]; intros i Hfuel.
  - assert (stop - i + step - 1 < step) by lia.
    assert ((stop - i + step - 1) / step <= 0).
    { apply Z.lt_succ_r. apply Z.div_lt_upper_bound; lia. }
    simpl. by replace (Z.to_nat ((stop - i + step - 1) / step)) with 0%nat by lia.
  - simpl. destruct (Z.ltb_spec i stop) as [Hlt|Hge].
    + rewrite IH by lia.
      assert (Hq : (stop - i + step - 1) / step = (stop - (i + step) + step - 1) / step + 1).
      { rewrite <- Z.div_add by lia. f_equal. lia. }
      assert (0 <= (stop - (i + step) + step - 1) / step)
        by (apply Z.div_pos; lia).
      rewrite Hq, Z2Nat.inj_add, Nat.add_1_r by lia. simpl.
      f_equal; [lia|]. rewrite <- fmap_S_seq, <- list_fmap_compose.
      apply list_fmap_ext. intros _ j _. simpl. lia.
    + assert ((stop - i + step - 1) / step <= 0).
      { apply Z.lt_succ_r. apply Z.div_lt_upper_bound; lia. }
      by replace (Z.to_nat ((stop - i + step - 1) / step)) with 0%nat by lia.
Qed.

Lemma range3_spec stop step :
  0 < step ->
  Py.range3 0 stop step
  = (fun j => Z.of_nat j * step) <$> seq 0 (Z.to_nat ((stop + step - 1) / step)).
Proof.
  intros Hstep. unfold Py.range3. rewrite (range_from_spec stop step Hstep) by lia.
  rewrite Z.sub_0_r. apply list_fmap_ext. intros _ j _. lia.
Qed.

(** The chunks of a file: as many as the ceiling of its length over the
    chunk size, numbered from 0, each the slice of the file that starts at
    its number times the chunk size. *)
Lemma split_chunks_spec file_id file_data :
  VirtualNode.split_chunks file_id file_data
  = (fun j =>
       VirtualNode.mk_chunk (file_id +:+ "_chunk_" +:+ pretty (Z.of_nat j))
         (Py.slice file_data (Z.of_nat j * VirtualNode.chunk_size)
            (Z.of_nat j * VirtualNode.chunk_size + VirtualNode.chunk_size))
         (Z.of_nat j))
    <$> seq 0 (Z.to_nat ((Py.len file_data + VirtualNode.chunk_size - 1)
                         / VirtualNode.chunk_size)).
Proof.
  unfold VirtualNode.split_chunks. rewrite range3_spec by done.
  rewrite <- list_fmap_compose. apply list_fmap_ext. intros _ j _. simpl.
  unfold VirtualNode.chunk_at. by rewrite Z.div_mul by done.
Qed.

Lemma chunk_ids_NoDup file_id file_data :
  NoDup (VirtualNode.chunk_id <$> VirtualNode.split_chunks file_id file_data).
Proof.
  rewrite split_chunks_spec, <- list_fmap_compose.
  apply NoDup_fmap_2; [|apply NoDup_seq].
  intros i j Hij. simpl in Hij.
  apply (inj (String.app file_id)) in Hij.
  apply (inj (String.app "_chunk_")) in Hij.
  apply (inj pretty) in Hij. lia.
Qed.



Lemma dict_get_known {A} k (kv : list (string * A)) :
  k ∈ kv.*1 -> is_Some (Dict.get k kv).
Proof.
  induction kv as [|[k' v] kv IH]; simpl; [by intros ?%elem_of_nil|].
  intros Hin. destruct (decide (k' = k)); [done|].
  apply IH. apply elem_of_cons in Hin as [?|?]; [congruence|done].
Qed.


Section DistributionFacts.
Context {World : Type}.
Variable read_file : string -> Py.res (list byte).
Variable basename : string -> string.
Variable json_dumps : pyval -> string.
Variable rpc : string -> Z -> string -> pyval -> World -> Py.res pyval * World.
Variable nodes : VirtualNode.nodes_table.
Variable available : list string.
Variable file_id : string.
Hypothesis Havailable : 0 < Py.len available.
Hypothesis Hknown : forall node, node ∈ available -> is_Some (Dict.get node nodes).

Implicit Types p : VirtualNode.progress (World := World).





Section Healthy.
Variable Inv : World -> Prop.


End Healthy.

End DistributionFacts.



Section DistributeFile.
Context {World : Type}.
Variable read_file : string -> Py.res (list byte).
Variable basename : string -> string.
Variable json_dumps : pyval -> string.
Variable rpc : string -> Z -> string -> pyval -> World -> Py.res pyval * World.

Implicit Types p : VirtualNode.progress (World := World).

(** What [distribute_file] returns when the loop over the chunks ends
    without an exception. *)
Lemma distribute_file_returns nodes file_path replication_factor now self w
    file_data p :
  read_file file_path = Py.Ok file_data ->
  1 <= Py.len (candidates nodes self) ->
  disk_inv (VirtualNode.virtual_disk self) ->
  VirtualNode.distribute_chunks rpc nodes (candidates nodes self)
    (md5_hexdigest file_data) 0
    (VirtualNode.split_chunks (md5_hexdigest file_data) file_data)
    (VirtualNode.mk_progress [] 0 [] w) = (Py.Ok (), p) ->
  exists self',
    VirtualNode.distribute_file read_file basename json_dumps rpc nodes file_path
      replication_factor now self w
    = (VDict [("success", VBool true);
              ("file_id", VStr (md5_hexdigest file_data));
              ("filename", VStr (basename file_path));
              ("file_size", VInt (Py.len file_data));
              ("chunk_count",
               VInt (Py.len (VirtualNode.split_chunks (md5_hexdigest file_data)
                               file_data)));
              ("chunks_distributed", VInt (VirtualNode.successful_distributions p));
              ("chunk_distribution", VDict (VirtualNode.chunk_distribution p));
              ("replication_factor",
               VInt (Z.min replication_factor (Py.len (candidates nodes self))))],
       self', VirtualNode.world p, VirtualNode.stdout p).
Proof.
  intros Hread Hk Hinv Hrun. unfold VirtualNode.distribute_file.
  rewrite Hread. cbv zeta. fold (candidates nodes self).
  destruct (Z.eqb_spec (Py.len (candidates nodes self)) 0) as [|_]; [lia|].
  rewrite Hrun.
  destruct (VirtualDisk.files (VirtualNode.virtual_disk self)
              !! (md5_hexdigest file_data +:+ "_metadata")) as [vf|] eqn:Hf.
  - destruct (write_data_known _ vf
                (Py.encode
                   (json_dumps
                      (VDict [("file_id", VStr (md5_hexdigest file_data));
                              ("filename", VStr (basename file_path));
                              ("file_size", VInt (Py.len file_data));
                              ("chunk_count",
                               VInt (Py.len (VirtualNode.split_chunks
                                               (md5_hexdigest file_data) file_data)));
                              ("chunk_distribution",
                               VDict (VirtualNode.chunk_distribution p));
                              ("created_at", VFloat now)])))
                0 _ Hinv Hf) as (d' & -> & _).
    by eexists.
  - rewrite write_data_unknown by done. by eexists.
Qed.





End DistributeFile.





(** * The address manager *)

Lemma ip_allocate_custom node_id m :
  IPManager.use_localhost m = false ->
  ip_tables_agree m -> ip_below_next m ->
  ip_tables_agree (IPManager.allocate_ip node_id m).2 /\
  ip_below_next (IPManager.allocate_ip node_id m).2.
Proof.
  intros Hmode Hagree [Hnext Hbelow]. unfold IPManager.allocate_ip.
  destruct (IPManager.allocated_ips m !! node_id) as [ip|] eqn:Hn; [done|].
  rewrite Hmode. destruct (Z.ltb_spec 254 (IPManager.next_host m)); [done|].
  simpl. split.
  - intros n ip. simpl.
    destruct (decide (n = node_id)) as [->|Hne].
    + rewrite lookup_insert_eq. split.
      * intros [= <-]. apply lookup_insert_eq.
      * intros Hip. destruct (decide ("10.0.0." +:+ pretty (IPManager.next_host m) = ip))
          as [<-|Hneq]; [done|].
        rewrite lookup_insert_ne in Hip by done.
        apply Hagree in Hip. congruence.
    + rewrite lookup_insert_ne by done.
      destruct (decide ("10.0.0." +:+ pretty (IPManager.next_host m) = ip)) as [<-|Hneq].
      * rewrite lookup_insert_eq. split; [|congruence].
        intros Hip. destruct (Hbelow _ _ Hip) as (h & Hh & Heq).
        apply (inj (String.app "10.0.0.")) in Heq. apply (inj pretty) in Heq. lia.
      * rewrite lookup_insert_ne by done. apply Hagree.
  - split; [simpl; lia|]. intros n ip. simpl.
    destruct (decide (n = node_id)) as [->|Hne].
    + rewrite lookup_insert_eq. intros [= <-].
      exists (IPManager.next_host m). split; [lia|done].
    + rewrite lookup_insert_ne by done. intros Hip.
      destruct (Hbelow _ _ Hip) as (h & Hh & Heq). exists h. split; [lia|done].
Qed.

Lemma ip_release_agree node_id m :
  ip_tables_agree m ->
  exists b,
    IPManager.release_ip node_id m
    = (Py.Ok b,
       IPManager.mk (IPManager.use_localhost m)
         (delete node_id (IPManager.allocated_ips m))
         (match IPManager.allocated_ips m !! node_id with
          | Some ip => delete ip (IPManager.ip_to_node m)
          | None => IPManager.ip_to_node m
          end)
         (IPManager.next_host m)) /\
    ip_tables_agree (IPManager.release_ip node_id m).2.
Proof.
  intros Hagree. unfold IPManager.release_ip.
  destruct (IPManager.allocated_ips m !! node_id) as [ip|] eqn:Hn.
  - simpl. pose proof (proj1 (Hagree _ _) Hn) as Hip. rewrite Hip.
    exists true. split; [done|]. simpl. intros n ip'. simpl.
    destruct (decide (n = node_id)) as [->|Hne].
    + rewrite lookup_delete_eq. split; [done|].
      destruct (decide (ip = ip')) as [<-|Hneq].
      * by rewrite lookup_delete_eq.
      * rewrite lookup_delete_ne by done. intros Hip'.
        apply Hagree in Hip'. congruence.
    + rewrite lookup_delete_ne by done.
      destruct (decide (ip = ip')) as [<-|Hneq].
      * rewrite lookup_delete_eq. split; [|done].
        intros Hip'. apply Hagree in Hip'. congruence.
      * rewrite lookup_delete_ne by done. apply Hagree.
  - exists false. split; [|done]. destruct m. simpl in *.
    by rewrite delete_id.
Qed.

Lemma ip_step_custom m o :
  IPManager.use_localhost m = false ->
  ip_tables_agree m -> ip_below_next m ->
  IPManager.use_localhost (IPManager.step m o) = false /\
  ip_tables_agree (IPManager.step m o) /\ ip_below_next (IPManager.step m o).
Proof.
  intros Hmode Hagree Hbelow. destruct o as [node_id|node_id]; simpl.
  - split; [|by apply ip_allocate_custom].
    unfold IPManager.allocate_ip.
    destruct (IPManager.allocated_ips m !! node_id); [done|]. rewrite Hmode.
    by destruct (254 <? IPManager.next_host m).
  - destruct (ip_release_agree node_id m Hagree) as (b & Heq & Hagree').
    split_and!; [by rewrite Heq|done|]. rewrite Heq. simpl.
    destruct Hbelow as [Hnext Hbelow]. split; [done|]. simpl.
    intros n ip Hn. apply lookup_delete_Some in Hn as [_ Hn]. by eapply Hbelow.
Qed.

Lemma ip_run_custom ops : forall m,
  IPManager.use_localhost m = false ->
  ip_tables_agree m -> ip_below_next m ->
  IPManager.use_localhost (IPManager.run m ops) = false /\
  ip_tables_agree (IPManager.run m ops) /\ ip_below_next (IPManager.run m ops).
Proof.
  induction ops as [|o ops IH]; intros m Hmode Hagree Hbelow; [done|].
  simpl. destruct (ip_step_custom m o Hmode Hagree Hbelow) as (? & ? & ?).
  by apply IH.
Qed.

Lemma ip_step_next_host m o :
  IPManager.use_localhost (IPManager.step m o) = IPManager.use_localhost m /\
  IPManager.next_host m <= IPManager.next_host (IPManager.step m o).
Proof.
  destruct o as [node_id|node_id]; simpl.
  - unfold IPManager.allocate_ip.
    destruct (IPManager.allocated_ips m !! node_id); [done|].
    destruct (IPManager.use_localhost m) eqn:Hmode; simpl; [done|].
    destruct (254 <? IPManager.next_host m); simpl; [done|]. split; [done|lia].
  - unfold IPManager.release_ip.
    destruct (IPManager.allocated_ips m !! node_id); [|done]. simpl.
    by destruct (IPManager.ip_to_node m !! _).
Qed.

Lemma ip_run_next_host ops : forall m,
  IPManager.use_localhost (IPManager.run m ops) = IPManager.use_localhost m /\
  IPManager.next_host m <= IPManager.next_host (IPManager.run m ops).
Proof.
  induction ops as [|o ops IH]; intros m; [done|].
  simpl. destruct (ip_step_next_host m o) as [Hm Hn].
  destruct (IH (IPManager.step m o)) as [Hm' Hn']. split; [congruence|lia].
Qed.

Lemma allocate_ip_known_after node_id ip m m1 :
  IPManager.allocate_ip node_id m = (Py.Ok ip, m1) ->
  IPManager.allocated_ips m1 !! node_id = Some ip.
Proof.
  intros Halloc. unfold IPManager.allocate_ip in Halloc.
  destruct (IPManager.allocated_ips m !! node_id) as [ip'|] eqn:Hn.
  - by injection Halloc as <- <-.
  - destruct (IPManager.use_localhost m).
    + injection Halloc as <- <-. apply lookup_insert_eq.
    + destruct (254 <? IPManager.next_host m); [done|].
      injection Halloc as <- <-. apply lookup_insert_eq.
Qed.

(** X1. Asking twice for the address of a node gives the same address:
    once [allocate_ip] has returned an address for a node, a second call
    returns that address and changes nothing, and [get_node_ip] finds
    it. *)
Theorem allocate_ip_is_idempotent node_id ip m m1 :
  IPManager.allocate_ip node_id m = (Py.Ok ip, m1) ->
  IPManager.allocate_ip node_id m1 = (Py.Ok ip, m1) /\
  IPManager.get_node_ip node_id m1 = Some ip.
Proof.
  intros Halloc.
  pose proof (allocate_ip_known_after node_id ip m m1 Halloc) as Hin.
  split; [|done]. unfold IPManager.allocate_ip. by rewrite Hin.
Qed.

Lemma allocate_ip_is_idempotent_witness :
  IPManager.allocate_ip "A" (IPManager.allocate_ip "A" (IPManager.__init__ false)).2
  = (Py.Ok "10.0.0.1", (IPManager.allocate_ip "A" (IPManager.__init__ false)).2) /\
  IPManager.get_node_ip "A" (IPManager.allocate_ip "A" (IPManager.__init__ false)).2
  = Some "10.0.0.1".
Proof.
  apply (allocate_ip_is_idempotent "A" "10.0.0.1" (IPManager.__init__ false)).
  reflexivity.
Defined.

(** X2. On the custom network (no localhost), after every sequence of
    allocations and releases that starts from a new manager, two nodes
    never hold the same address, and the reverse table maps each address
    that is held to its holder. *)
Theorem custom_addresses_are_distinct ops n1 n2 ip :
  let m := IPManager.run (IPManager.__init__ false) ops in
  IPManager.get_node_ip n1 m = Some ip ->
  IPManager.get_node_ip n2 m = Some ip ->
  n1 = n2 /\ IPManager.get_node_from_ip ip m = Some n1.
Proof.
  intros m H1 H2.
  destruct (ip_run_custom ops (IPManager.__init__ false)) as (_ & Hagree & _).
  - done.
  - intros n ip'. simpl. by rewrite !lookup_empty.
  - split; [simpl; lia|]. intros n ip'. simpl. by rewrite lookup_empty.
  - fold m in Hagree. apply Hagree in H1 as H1'. apply Hagree in H2 as H2'.
    unfold IPManager.get_node_from_ip. split; [congruence|done].
Qed.

Lemma custom_addresses_are_distinct_witness :
  "C" = "C" /\
  IPManager.get_node_from_ip "10.0.0.3"
    (IPManager.run (IPManager.__init__ false)
       [IPManager.Allocate "A"; IPManager.Allocate "B"; IPManager.Release "A";
        IPManager.Allocate "C"]) = Some "C".
Proof.
  apply (custom_addresses_are_distinct
           [IPManager.Allocate "A"; IPManager.Allocate "B"; IPManager.Release "A";
            IPManager.Allocate "C"] "C" "C" "10.0.0.3");
    vm_compute; reflexivity.
Defined.

(** X3. Released addresses are never handed out again. On the custom
    network the host counter only grows: once it has passed 254, every
    allocation for a node without address raises "No more IP addresses
    available" and changes nothing, whatever was released in between. *)
Theorem released_addresses_are_not_reused m ops node_id :
  IPManager.use_localhost m = false ->
  254 < IPManager.next_host m ->
  IPManager.allocated_ips (IPManager.run m ops) !! node_id = None ->
  IPManager.allocate_ip node_id (IPManager.run m ops)
  = (Py.Raise (Py.mk_exn Py.Exception "No more IP addresses available"),
     IPManager.run m ops).
Proof.
  intros Hmode Hnext Hnone. destruct (ip_run_next_host ops m) as [Hmode' Hnext'].
  unfold IPManager.allocate_ip. rewrite Hnone, Hmode', Hmode.
  by destruct (Z.ltb_spec 254 (IPManager.next_host (IPManager.run m ops))); [|lia].
Qed.

Lemma released_addresses_are_not_reused_witness :
  IPManager.allocate_ip "B"
    (IPManager.run (IPManager.mk false {["A" := "10.0.0.254"]} {["10.0.0.254" := "A"]} 255)
       [IPManager.Release "A"])
  = (Py.Raise (Py.mk_exn Py.Exception "No more IP addresses available"),
     IPManager.run (IPManager.mk false {["A" := "10.0.0.254"]} {["10.0.0.254" := "A"]} 255)
       [IPManager.Release "A"]).
Proof.
  apply (released_addresses_are_not_reused
           (IPManager.mk false {["A" := "10.0.0.254"]} {["10.0.0.254" := "A"]} 255)
           [IPManager.Release "A"] "B"); [reflexivity|reflexivity|].
  vm_compute. reflexivity.
Defined.

(** X4. With localhost addresses every node gets 127.0.0.1, and the
    reverse table keeps only the node that came last. When two nodes hold
    the address, releasing the first succeeds and removes the shared
    reverse entry; releasing the second then raises [KeyError] for
    '127.0.0.1', after it has already removed the node from the table of
    addresses. *)
Theorem localhost_second_release_raises a b m :
  IPManager.use_localhost m = true ->
  IPManager.allocated_ips m !! a = None ->
  IPManager.allocated_ips m !! b = None ->
  a <> b ->
  let m2 := (IPManager.allocate_ip b (IPManager.allocate_ip a m).2).2 in
  IPManager.get_node_ip a m2 = Some "127.0.0.1" /\
  IPManager.get_node_ip b m2 = Some "127.0.0.1" /\
  IPManager.get_node_from_ip "127.0.0.1" m2 = Some b /\
  exists m3 m4,
    IPManager.release_ip a m2 = (Py.Ok true, m3) /\
    IPManager.release_ip b m3 = (Py.Raise (Dict.key_error "127.0.0.1"), m4) /\
    IPManager.get_node_ip b m4 = None.
Proof.
  intros Hmode Ha Hb Hab m2.
  assert (Hm1 : (IPManager.allocate_ip a m).2
                = IPManager.mk true (<[a := "127.0.0.1"]> (IPManager.allocated_ips m))
                    (<["127.0.0.1" := a]> (IPManager.ip_to_node m))
                    (IPManager.next_host m)).
  { unfold IPManager.allocate_ip. by rewrite Ha, Hmode. }
  assert (Hm2 : m2
                = IPManager.mk true
                    (<[b := "127.0.0.1"]> (<[a := "127.0.0.1"]> (IPManager.allocated_ips m)))
                    (<["127.0.0.1" := b]> (<["127.0.0.1" := a]> (IPManager.ip_to_node m)))
                    (IPManager.next_host m)).
  { subst m2. rewrite Hm1. unfold IPManager.allocate_ip. simpl.
    by rewrite lookup_insert_ne, Hb by done. }
  rewrite Hm2. clear Hm1 Hm2 m2.
  unfold IPManager.get_node_ip, IPManager.get_node_from_ip. simpl.
  split_and!.
  - by rewrite lookup_insert_ne, lookup_insert_eq by done.
  - by rewrite lookup_insert_eq.
  - by rewrite lookup_insert_eq.
  - unfold IPManager.release_ip at 1. simpl.
    rewrite lookup_insert_ne, lookup_insert_eq by done. simpl.
    rewrite lookup_insert_eq.
    eexists _, _. split; [reflexivity|].
    unfold IPManager.release_ip. simpl.
    rewrite lookup_delete_ne, lookup_insert_eq by done. simpl.
    rewrite lookup_delete_eq. split; [reflexivity|]. simpl.
    apply lookup_delete_eq.
Qed.

Lemma localhost_second_release_raises_witness :
  let m2 := (IPManager.allocate_ip "B"
               (IPManager.allocate_ip "A" (IPManager.__init__ true)).2).2 in
  IPManager.get_node_ip "A" m2 = Some "127.0.0.1" /\
  IPManager.get_node_ip "B" m2 = Some "127.0.0.1" /\
  IPManager.get_node_from_ip "127.0.0.1" m2 = Some "B" /\
  exists m3 m4,
    IPManager.release_ip "A" m2 = (Py.Ok true, m3) /\
    IPManager.release_ip "B" m3 = (Py.Raise (Dict.key_error "127.0.0.1"), m4) /\
    IPManager.get_node_ip "B" m4 = None.
Proof.
  apply (localhost_second_release_raises "A" "B" (IPManager.__init__ true));
    [reflexivity|reflexivity|reflexivity|discriminate].
Defined.

(** * The process manager *)

Lemma elem_of_list_remove x y l :
  NoDup l -> y ∈ ProcessManager.list_remove x l <-> y ∈ l /\ y <> x.
Proof.
  induction l as [|z l IH]; simpl; intros Hnd.
  - split; [by intros ?%elem_of_nil|by intros [?%elem_of_nil _]].
  - apply NoDup_cons in Hnd as [Hz Hnd]. destruct (decide (z = x)) as [-> | Hne].
    + rewrite elem_of_cons. split.
      * intros Hy. split; [by right|]. by intros ->.
      * intros [[-> | Hy] Hne]; done.
    + rewrite !elem_of_cons, IH by done. split.
      * intros [-> | [Hy Hyx]]; [by split; [left|]|by split; [right|]].
      * intros [[-> | Hy] Hyx]; [by left|by right].
Qed.

Lemma NoDup_list_remove x l : NoDup l -> NoDup (ProcessManager.list_remove x l).
Proof.
  induction l as [|z l IH]; simpl; intros Hnd; [done|].
  apply NoDup_cons in Hnd as [Hz Hnd]. destruct (decide (z = x)); [done|].
  apply NoDup_cons. split; [|by apply IH].
  rewrite elem_of_list_remove by done. by intros [? _].
Qed.

Lemma NoDup_snoc_fresh (x : string) l : NoDup l -> x ∉ l -> NoDup (l ++ [x]).
Proof.
  intros Hnd Hx. apply NoDup_app. split_and!; [done| |apply NoDup_singleton].
  intros y Hy ->%list_elem_of_singleton. done.
Qed.

Lemma init_queues_sound node_id : queues_sound (ProcessManager.__init__ node_id).
Proof.
  split; simpl.
  - apply NoDup_nil_2.
  - by intros pid ?%elem_of_nil.
  - intros pid r. by rewrite lookup_empty.
Qed.

Lemma get_next_queues_sound pm :
  queues_sound pm -> queues_sound (ProcessManager.get_next_ready_process pm).2.
Proof.
  intros Hsound. unfold ProcessManager.get_next_ready_process.
  destruct (ProcessManager.ready_queue pm) as [|pid q] eqn:Hq; [done|].
  destruct Hsound as [Hnd Hready Hwait]. rewrite Hq in Hnd, Hready.
  apply NoDup_cons in Hnd as [_ Hnd]. split; simpl; [done| |done].
  intros pid' Hin. apply Hready. by right.
Qed.

Lemma create_process_queues_sound float_repr name clk pm :
  queues_sound pm ->
  ProcessManager.processes pm
    !! ProcessManager.process_id_of float_repr (ProcessManager.node_id pm) name (clk 0%nat)
  = None ->
  queues_sound (ProcessManager.create_process float_repr name clk pm).2.
Proof.
  intros [Hnd Hready Hwait] Hfresh. unfold ProcessManager.create_process.
  set (pid := ProcessManager.process_id_of float_repr (ProcessManager.node_id pm) name
                (clk 0%nat)) in *.
  split; simpl.
  - apply NoDup_snoc_fresh; [done|]. intros Hin.
    destruct (Hready _ Hin) as (p & Hp & _). congruence.
  - intros pid' [Hin | ->%list_elem_of_singleton]%elem_of_app.
    + destruct (Hready _ Hin) as (p & Hp & Hs).
      exists p. split; [|done]. rewrite lookup_insert_ne; [done|congruence].
    + eexists. by rewrite lookup_insert_eq.
  - intros pid' r Hr. destruct (Hwait _ _ Hr) as (p & Hp & Hs).
    exists p. split; [|done]. rewrite lookup_insert_ne; [done|congruence].
Qed.

Lemma set_process_state_queues_sound pid state reason now pm :
  queues_sound pm ->
  queues_sound (ProcessManager.set_process_state pid state reason now pm).
Proof.
  intros [Hnd Hready Hwait]. unfold ProcessManager.set_process_state.
  destruct (ProcessManager.processes pm !! pid) as [p|] eqn:Hp; [|by split].
  set (qw := match Process.state p with
             | READY =>
                 if bool_decide (pid ∈ ProcessManager.ready_queue pm)
                 then (ProcessManager.list_remove pid (ProcessManager.ready_queue pm),
                       ProcessManager.waiting_processes pm)
                 else (ProcessManager.ready_queue pm, ProcessManager.waiting_processes pm)
             | WAITING =>
                 match ProcessManager.waiting_processes pm !! pid with
                 | Some _ =>
                     (ProcessManager.ready_queue pm,
                      delete pid (ProcessManager.waiting_processes pm))
                 | None =>
                     (ProcessManager.ready_queue pm, ProcessManager.waiting_processes pm)
                 end
             | _ => (ProcessManager.ready_queue pm, ProcessManager.waiting_processes pm)
             end).
  assert (Hq : NoDup qw.1 /\ (pid ∉ qw.1) /\
               (forall pid', pid' ∈ qw.1 -> pid' ∈ ProcessManager.ready_queue pm) /\
               qw.2 !! pid = None /\
               (forall pid' r, qw.2 !! pid' = Some r ->
                  ProcessManager.waiting_processes pm !! pid' = Some r)).
  { assert (Hnq : Process.state p <> READY -> pid ∉ ProcessManager.ready_queue pm).
    { intros Hs Hin. destruct (Hready _ Hin) as (p' & Hp' & Hs'). congruence. }
    assert (Hnw : Process.state p <> WAITING ->
                  ProcessManager.waiting_processes pm !! pid = None).
    { intros Hs. destruct (ProcessManager.waiting_processes pm !! pid) as [r|] eqn:Hr;
        [|done].
      destruct (Hwait _ _ Hr) as (p' & Hp' & Hs'). congruence. }
    subst qw. destruct (Process.state p) eqn:Hs.
    - case_bool_decide as Hin; simpl.
      + split_and!; [by apply NoDup_list_remove| | |by apply Hnw|done].
        * rewrite elem_of_list_remove by done. by intros [_ ?].
        * intros pid'. rewrite elem_of_list_remove by done. by intros [? _].
      + split_and!; [done..|by apply Hnw|done].
    - destruct (ProcessManager.waiting_processes pm !! pid) as [r|] eqn:Hr; simpl.
      + split_and!; [done|by apply Hnq|done|apply lookup_delete_eq|].
        intros pid' r'. by intros [_ ?]%lookup_delete_Some.
      + split_and!; [done|by apply Hnq|done..].
    - simpl. split_and!; [done|by apply Hnq|done|by apply Hnw|done].
    - simpl. split_and!; [done|by apply Hnq|done|by apply Hnw|done].
    - simpl. split_and!; [done|by apply Hnq|done|by apply Hnw|done]. }
  destruct qw as [queue waiting]. simpl in Hq.
  destruct Hq as (Hnd' & Hpid & Hsub & Hwpid & Hwsub).
  assert (Hothers : forall pid' p0 s,
            pid' <> pid ->
            (exists p', ProcessManager.processes pm !! pid' = Some p' /\
                        Process.state p' = s) ->
            exists p', <[pid := p0]> (ProcessManager.processes pm) !! pid' = Some p' /\
                       Process.state p' = s).
  { intros pid' p0 s Hne (p' & Hp' & Hs'). exists p'.
    by rewrite lookup_insert_ne. }
  assert (Hqueue : forall pid' p0, pid' ∈ queue ->
            exists p', <[pid := p0]> (ProcessManager.processes pm) !! pid' = Some p' /\
                       Process.state p' = READY).
  { intros pid' p0 Hin. apply Hothers; [by intros ->|]. by apply Hready, Hsub. }
  assert (Hwaiting : forall pid' p0 r, waiting !! pid' = Some r ->
            exists p', <[pid := p0]> (ProcessManager.processes pm) !! pid' = Some p' /\
                       Process.state p' = WAITING).
  { intros pid' p0 r Hr. apply Hothers; [intros ->; congruence|].
    by eapply Hwait, Hwsub. }
  destruct state.
  - split; simpl.
    + by apply NoDup_snoc_fresh.
    + intros pid' [Hin | ->%list_elem_of_singleton]%elem_of_app; [by apply Hqueue|].
      eexists. by rewrite lookup_insert_eq.
    + intros pid' r Hr. by eapply Hwaiting.
  - destruct (ProcessManager.reason_given reason) as [r|]; split; simpl;
      try done; try (by intros; apply Hqueue); try (by intros; eapply Hwaiting).
    intros pid' r'. destruct (decide (pid' = pid)) as [-> | Hne].
    + intros _. eexists. by rewrite lookup_insert_eq.
    + rewrite lookup_insert_ne by done. by apply Hwaiting.
  - split; simpl; try done; try (by intros; apply Hqueue);
      try (by intros; eapply Hwaiting).
  - split; simpl; try done; try (by intros; apply Hqueue);
      try (by intros; eapply Hwaiting).
  - split; simpl; try done; try (by intros; apply Hqueue);
      try (by intros; eapply Hwaiting).
Qed.

(** One turn of the scheduler on a queue that is not empty. *)
Lemma scheduler_turn_spec clk pm pid q :
  queues_sound pm ->
  ProcessManager.ready_queue pm = pid :: q -> pid <> "" ->
  exists p,
    ProcessManager.processes pm !! pid = Some p /\
    ProcessManager.scheduler_turn clk pm
    = ProcessManager.mk (ProcessManager.node_id pm)
        (<[pid := Process.set_completed_at (clk 1%nat)
                    (Process.set_state COMPLETED
                       (Process.set_started_at (clk 0%nat)
                          (Process.set_state RUNNING p)))]>
           (ProcessManager.processes pm))
        q (ProcessManager.waiting_processes pm) (ProcessManager.running pm).
Proof.
  intros [Hnd Hready Hwait] Hq Hpid.
  destruct (Hready pid) as (p & Hp & Hs); [rewrite Hq; by left|].
  exists p. split; [done|].
  unfold ProcessManager.scheduler_turn, ProcessManager.get_next_ready_process.
  rewrite Hq. rewrite Hq in Hnd. apply NoDup_cons in Hnd as [Hnotin _].
  destruct (String.eqb_spec pid ""); [done|].
  unfold ProcessManager.set_process_state at 2. simpl. rewrite Hp, Hs.
  rewrite bool_decide_eq_false_2 by done. simpl.
  unfold ProcessManager.set_process_state. simpl. rewrite lookup_insert_eq. simpl.
  by rewrite insert_insert_eq.
Qed.

Lemma scheduler_turns_spec : forall q clk pm,
  queues_sound pm -> ProcessManager.ready_queue pm = q -> "" ∉ q ->
  let pm' := ProcessManager.scheduler_turns (length q) clk pm in
  ProcessManager.ready_queue pm' = [] /\
  queues_sound pm' /\
  (forall i pid, q !! i = Some pid ->
     exists p,
       ProcessManager.processes pm !! pid = Some p /\
       ProcessManager.processes pm' !! pid
       = Some (Process.set_completed_at (clk (2 * i + 1)%nat)
                 (Process.set_state COMPLETED
                    (Process.set_started_at (clk (2 * i)%nat)
                       (Process.set_state RUNNING p))))) /\
  (forall pid, pid ∉ q ->
     ProcessManager.processes pm' !! pid = ProcessManager.processes pm !! pid).
Proof.
  induction q as [|pid q IH]; intros clk pm Hsound Hq Hne;
    cbn [length ProcessManager.scheduler_turns]; cbv zeta.
  - split_and!; [done|done| |done]. intros i pid. by rewrite lookup_nil.
  - apply not_elem_of_cons in Hne as [Hpid Hne].
    destruct (scheduler_turn_spec clk pm pid q Hsound Hq) as (p & Hp & Hturn);
      [done|].
    assert (Hsound1 : queues_sound (ProcessManager.scheduler_turn clk pm)).
    { unfold ProcessManager.scheduler_turn. rewrite Hq.
      pose proof (get_next_queues_sound pm Hsound) as Hs1.
      unfold ProcessManager.get_next_ready_process in *. rewrite Hq in *. simpl in *.
      destruct (String.eqb pid ""); [done|].
      by do 2 apply set_process_state_queues_sound. }
    destruct (IH (fun k => clk (2 + k)%nat) (ProcessManager.scheduler_turn clk pm)
                Hsound1) as (Hempty & Hsound' & Hdone & Hframe); [by rewrite Hturn|done|].
    pose proof (queue_NoDup pm Hsound) as Hnd. rewrite Hq in Hnd.
    apply NoDup_cons in Hnd as [Hnotin Hnd].
    split_and!; [done|done| |].
    + intros [|i] pid' Hi; simpl in Hi.
      * injection Hi as <-. exists p. split; [done|].
        rewrite Hframe by done. rewrite Hturn. simpl.
        by rewrite lookup_insert_eq.
      * destruct (Hdone i pid' Hi) as (p' & Hp' & Hfin).
        assert (pid' <> pid).
        { intros ->. apply Hnotin. by eapply list_elem_of_lookup_2. }
        rewrite Hturn in Hp'. simpl in Hp'. rewrite lookup_insert_ne in Hp' by done.
        exists p'. split; [done|].
        replace (2 * S i + 1)%nat with (2 + (2 * i + 1))%nat by lia.
        replace (2 * S i)%nat with (2 + 2 * i)%nat by lia.
        exact Hfin.
    + intros pid' Hnot. apply not_elem_of_cons in Hnot as [Hne' Hnot].
      rewrite Hframe by done. rewrite Hturn. simpl.
      by rewrite lookup_insert_ne.
Qed.



(** X6. The scheduler serves the ready queue first in, first out. From a
    sound state whose queue holds no empty id, as many turns as the queue
    is long empty it: the process at position [i] was set running at clock
    reading [2 i] and completed at reading [2 i + 1], the other fields of
    its record are as before, and the processes that were not queued are
    untouched. *)
Theorem scheduler_serves_queue_in_order clk pm :
  queues_sound pm -> "" ∉ ProcessManager.ready_queue pm ->
  let pm' :=
    ProcessManager.scheduler_turns (length (ProcessManager.ready_queue pm)) clk pm in
  ProcessManager.ready_queue pm' = [] /\
  (forall i pid, ProcessManager.ready_queue pm !! i = Some pid ->
     exists p,
       ProcessManager.processes pm !! pid = Some p /\
       ProcessManager.processes pm' !! pid
       = Some (Process.mk (Process.process_id p) (Process.name p) COMPLETED
                 (Process.created_at p) (Some (clk (2 * i)%nat))
                 (Some (clk (2 * i + 1)%nat)) (Process.result p) (Process.error p))) /\
  (forall pid, pid ∉ ProcessManager.ready_queue pm ->
     ProcessManager.processes pm' !! pid = ProcessManager.processes pm !! pid).
Proof.
  intros Hsound Hne.
  destruct (scheduler_turns_spec (ProcessManager.ready_queue pm) clk pm Hsound eq_refl Hne)
    as (Hempty & _ & Hdone & Hframe).
  split_and!; [done| |done].
  intros i pid Hi. destruct (Hdone i pid Hi) as (p & Hp & Hfin). by exists p.
Qed.

Lemma processes_two_sound : queues_sound Processes.two.
Proof.
  apply create_process_queues_sound; [|vm_compute; reflexivity].
  apply create_process_queues_sound; [|vm_compute; reflexivity].
  apply init_queues_sound.
Qed.

Lemma scheduler_serves_queue_in_order_witness :
  let pm' :=
    ProcessManager.scheduler_turns (length (ProcessManager.ready_queue Processes.two))
      Example.clk Processes.two in
  ProcessManager.ready_queue pm' = [] /\
  (forall i pid, ProcessManager.ready_queue Processes.two !! i = Some pid ->
     exists p,
       ProcessManager.processes Processes.two !! pid = Some p /\
       ProcessManager.processes pm' !! pid
       = Some (Process.mk (Process.process_id p) (Process.name p) COMPLETED
                 (Process.created_at p) (Some (Example.clk (2 * i)%nat))
                 (Some (Example.clk (2 * i + 1)%nat)) (Process.result p)
                 (Process.error p))) /\
  (forall pid, pid ∉ ProcessManager.ready_queue Processes.two ->
     ProcessManager.processes pm' !! pid
     = ProcessManager.processes Processes.two !! pid).
Proof.
  apply (scheduler_serves_queue_in_order Example.clk Processes.two).
  - exact processes_two_sound.
  - intros H. apply list_elem_of_In in H. vm_compute in H.
    destruct H as [H|[H|[]]]; discriminate H.
Defined.

(** X7. A process can wait without being in the waiting table. On a sound
    manager, [set_process_state(pid, WAITING)] without a reason, or with
    the empty string as reason, puts the process in state WAITING and
    leaves no entry for it in [waiting_processes]. *)
Theorem waiting_without_reason_is_not_recorded pm pid p reason now :
  queues_sound pm ->
  ProcessManager.processes pm !! pid = Some p ->
  reason = None \/ reason = Some "" ->
  let pm' := ProcessManager.set_process_state pid WAITING reason now pm in
  ProcessManager.processes pm' !! pid = Some (Process.set_state WAITING p) /\
  ProcessManager.waiting_processes pm' !! pid = None /\
  pid ∉ ProcessManager.ready_queue pm'.
Proof.
  intros Hsound Hp Hreason pm'.
  pose proof (set_process_state_queues_sound pid WAITING reason now pm Hsound) as Hs'.
  fold pm' in Hs'.
  assert (Hgiven : ProcessManager.reason_given reason = None)
    by (by destruct Hreason as [-> | ->]).
  assert (Hrec : ProcessManager.processes pm' !! pid = Some (Process.set_state WAITING p)).
  { subst pm'. unfold ProcessManager.set_process_state. rewrite Hp, Hgiven.
    destruct (Process.state p);
      repeat match goal with
             | |- context [bool_decide ?P] => destruct (bool_decide P)
             | |- context [ProcessManager.waiting_processes pm !! pid] =>
                 destruct (ProcessManager.waiting_processes pm !! pid)
             end; simpl; apply lookup_insert_eq. }
  split; [done|]. split.
  - subst pm'. unfold ProcessManager.set_process_state. rewrite Hp, Hgiven.
    destruct (Process.state p) eqn:Hstate; simpl;
      try (destruct (ProcessManager.waiting_processes pm !! pid) as [r|] eqn:Hr;
           [|done];
           destruct (waiting_waits pm Hsound _ _ Hr) as (p' & Hp' & Hs); congruence).
    + case_bool_decide; simpl;
        (destruct (ProcessManager.waiting_processes pm !! pid) as [r|] eqn:Hr; [|done];
         destruct (waiting_waits pm Hsound _ _ Hr) as (p' & Hp' & Hs); congruence).
    + destruct (ProcessManager.waiting_processes pm !! pid) eqn:Hr; simpl; [|done].
      apply lookup_delete_eq.
  - intros Hin. destruct (queue_ready pm' Hs' _ Hin) as (p' & Hp' & Hstate).
    rewrite Hrec in Hp'. by injection Hp' as <-.
Qed.

Lemma waiting_without_reason_is_not_recorded_witness :
  exists pid p,
    ProcessManager.processes Processes.one !! pid = Some p /\
    let pm' := ProcessManager.set_process_state pid WAITING None 20%Q Processes.one in
    ProcessManager.processes pm' !! pid = Some (Process.set_state WAITING p) /\
    ProcessManager.waiting_processes pm' !! pid = None /\
    pid ∉ ProcessManager.ready_queue pm'.
Proof.
  exists (ProcessManager.process_id_of Example.float_repr "A" "upload" (Example.clk 0%nat)).
  eexists. split; [apply lookup_insert_eq|].
  apply waiting_without_reason_is_not_recorded.
  - apply create_process_queues_sound; [apply init_queues_sound|reflexivity].
  - apply lookup_insert_eq.
  - by left.
Defined.

(** X8. Process ids are made of the node id, the name and the clock: two
    [create_process] calls with the same name that read the same time get
    the same id. The second record replaces the first, the id is queued
    twice, and the queue is no longer sound. *)
Theorem create_process_same_instant_collides float_repr name clk1 clk2 pm :
  clk2 0%nat = clk1 0%nat ->
  let r1 := ProcessManager.create_process float_repr name clk1 pm in
  let r2 := ProcessManager.create_process float_repr name clk2 r1.2 in
  r2.1 = r1.1 /\
  ProcessManager.processes r2.2
  = <[r1.1 := Process.mk r1.1 name READY (clk2 1%nat) None None VNone None]>
      (ProcessManager.processes pm) /\
  ProcessManager.ready_queue r2.2 = ProcessManager.ready_queue pm ++ [r1.1; r1.1] /\
  ~ queues_sound r2.2.
Proof.
  intros Hclk r1 r2. subst r1 r2. unfold ProcessManager.create_process. simpl.
  rewrite Hclk. split_and!.
  - done.
  - by rewrite insert_insert_eq.
  - by rewrite <- app_assoc.
  - intros [Hnd _ _]. simpl in Hnd. rewrite <- app_assoc in Hnd. simpl in Hnd.
    apply NoDup_app in Hnd as (_ & _ & Hnd).
    apply NoDup_cons in Hnd as [Hnotin _]. apply Hnotin. by left.
Qed.

Lemma create_process_same_instant_collides_witness :
  let r1 := ProcessManager.create_process Example.float_repr "upload" Example.clk
              (ProcessManager.__init__ "A") in
  let r2 := ProcessManager.create_process Example.float_repr "upload" Example.clk r1.2 in
  r2.1 = r1.1 /\
  ProcessManager.processes r2.2
  = <[r1.1 := Process.mk r1.1 "upload" READY (Example.clk 1%nat) None None VNone None]>
      (ProcessManager.processes (ProcessManager.__init__ "A")) /\
  ProcessManager.ready_queue r2.2
  = ProcessManager.ready_queue (ProcessManager.__init__ "A") ++ [r1.1; r1.1] /\
  ~ queues_sound r2.2.
Proof.
  apply (create_process_same_instant_collides Example.float_repr "upload" Example.clk
           Example.clk (ProcessManager.__init__ "A")).
  reflexivity.
Defined.

(** * The acknowledgements *)

Lemma foldl_delete_lookup {A} (l : list string) : forall (m : gmap string A) k,
  foldl (fun p message_id => delete message_id p) m l !! k
  = if decide (k ∈ l) then None else m !! k.
Proof.
  induction l as [|x l IH]; intros m k; cbn [foldl].
  - by destruct (decide (k ∈ [])) as [?%elem_of_nil|].
  - rewrite IH.
    destruct (decide (k ∈ l)) as [H1|H1], (decide (k ∈ x :: l)) as [H2|H2]; try done.
    + exfalso. apply H2. by right.
    + apply elem_of_cons in H2 as [-> | ?]; [apply lookup_delete_eq|done].
    + rewrite lookup_delete_ne; [done|]. intros ->. apply H2. by left.
Qed.

Lemma elem_of_expired_messages current_time tcp message_id :
  message_id ∈ Acks.expired_messages current_time tcp <->
  exists entry,
    TCPCommunication.pending_acks tcp !! message_id = Some entry /\
    Acks.expired current_time (message_id, entry) = true.
Proof.
  unfold Acks.expired_messages. rewrite list_elem_of_fmap. split.
  - intros ([k entry] & -> & [Hexp Hin%elem_of_map_to_list]%list_elem_of_filter).
    by exists entry.
  - intros (entry & Hin & Hexp). exists (message_id, entry). split; [done|].
    apply list_elem_of_filter. split; [done|]. by apply elem_of_map_to_list.
Qed.

Lemma ack_checker_lookup current_time tcp message_id :
  TCPCommunication.pending_acks (Acks._ack_checker current_time tcp) !! message_id
  = match TCPCommunication.pending_acks tcp !! message_id with
    | Some (message, sent_time) =>
        if Qle_bool (current_time - sent_time) 5
        then Some (message, sent_time) else None
    | None => None
    end.
Proof.
  unfold Acks._ack_checker. simpl. rewrite foldl_delete_lookup.
  destruct (TCPCommunication.pending_acks tcp !! message_id) as [[message sent_time]|]
    eqn:Hm.
  - destruct (decide (message_id ∈ Acks.expired_messages current_time tcp)) as [Hin|Hnot].
    + apply elem_of_expired_messages in Hin as (entry & Hentry & Hexp).
      rewrite Hm in Hentry. injection Hentry as <-.
      unfold Acks.expired, Acks.ack_timeout in Hexp. simpl in Hexp.
      by destruct (Qle_bool (current_time - sent_time) 5).
    + destruct (Qle_bool (current_time - sent_time) 5) eqn:Hle; [done|].
      exfalso. apply Hnot. apply elem_of_expired_messages.
      exists (message, sent_time). split; [done|].
      unfold Acks.expired, Acks.ack_timeout. simpl. by rewrite Hle.
  - destruct (decide (message_id ∈ Acks.expired_messages current_time tcp)) as [Hin|];
      [|done].
    apply elem_of_expired_messages in Hin as (entry & Hentry & _). congruence.
Qed.

(** X9. One pass of the acknowledgement checker at time [t] removes
    exactly the messages that were sent more than [ack_timeout] (5
    seconds) before [t]: an entry that is at most 5 seconds old is kept as
    it is, an older one is gone, and nothing else of the transport
    changes. *)
Theorem ack_checker_removes_exactly_the_expired current_time tcp message_id :
  TCPCommunication.pending_acks (Acks._ack_checker current_time tcp) !! message_id
  = match TCPCommunication.pending_acks tcp !! message_id with
    | Some (message, sent_time) =>
        if Qle_bool (current_time - sent_time) 5
        then Some (message, sent_time) else None
    | None => None
    end /\
  TCPCommunication.node_id (Acks._ack_checker current_time tcp)
  = TCPCommunication.node_id tcp /\
  TCPCommunication.ip (Acks._ack_checker current_time tcp) = TCPCommunication.ip tcp /\
  TCPCommunication.port (Acks._ack_checker current_time tcp)
  = TCPCommunication.port tcp.
Proof.
  split; [apply ack_checker_lookup|done].
Qed.

(** X10. An acknowledgement undoes the bookkeeping of the message it
    answers: after [send_message] has sent a message that requires an
    acknowledgement and whose id was not pending, handling the
    acknowledgement that names this id gives back the transport as it was
    before the send; an acknowledgement that names no pending message
    changes nothing. *)
Theorem ack_clears_what_send_recorded message ack_message now tcp :
  NetworkMessage.requires_ack message = true ->
  TCPCommunication.pending_acks tcp !! NetworkMessage.message_id message = None ->
  Dict.get_default (NetworkMessage.payload ack_message) "original_message_id" VNone
  = Py.Ok (VStr (NetworkMessage.message_id message)) ->
  Acks._handle_ack ack_message (TCPCommunication.send_message message now true tcp).2
  = (Py.Ok (), tcp) /\
  Acks._handle_ack ack_message tcp = (Py.Ok (), tcp).
Proof.
  intros Hack Hnone Hid. unfold Acks._handle_ack, TCPCommunication.send_message.
  rewrite Hid, Hack. simpl. rewrite lookup_insert_eq, Hnone. split; [|done].
  unfold Acks.set_pending_acks. simpl. rewrite delete_insert_id by done.
  by destruct tcp.
Qed.

Lemma ack_clears_what_send_recorded_witness :
  let message :=
    NetworkMessage.mk "m1" DATA_TRANSFER "127.0.0.1" "127.0.0.1" (VDict []) 10%Q true in
  let ack_message :=
    NetworkMessage.mk "m2" DATA_ACK "127.0.0.1" "127.0.0.1"
      (VDict [("original_message_id", VStr "m1")]) 11%Q false in
  let tcp := TCPCommunication.mk "A" "127.0.0.1" 8000 ∅ in
  Acks._handle_ack ack_message (TCPCommunication.send_message message 10%Q true tcp).2
  = (Py.Ok (), tcp) /\
  Acks._handle_ack ack_message tcp = (Py.Ok (), tcp).
Proof.
  apply ack_clears_what_send_recorded; reflexivity.
Defined.

Section AckOfRequest.
Context {S : Type}.
Variable float_repr : Q -> string.




End AckOfRequest.

(** * More about the disk *)

Lemma free_from_ascending bl : forall i,
  StronglySorted lt (VirtualDisk.free_from i bl).
Proof.
  induction bl as [|b bl IH]; intros i; simpl; [constructor|].
  destruct (decide (StorageBlock.status b = FREE)); [|apply IH].
  constructor; [apply IH|]. apply Forall_forall. intros p Hp.
  apply elem_of_free_from in Hp. lia.
Qed.

Lemma take_ascending_lowest (l : list nat) : forall n x y,
  StronglySorted lt l -> x ∈ take n l -> y ∈ l -> (y < x)%nat -> y ∈ take n l.
Proof.
  induction l as [|a l IH]; intros n x y Hs Hx Hy Hlt.
  - by apply elem_of_nil in Hy.
  - apply StronglySorted_inv in Hs as [Hs Ha].
    destruct n as [|n]; [by apply elem_of_nil in Hx|]. simpl in *.
    apply elem_of_cons in Hy as [-> | Hy]; [by left|].
    apply elem_of_cons in Hx as [-> | Hx].
    + rewrite Forall_forall in Ha. apply Ha in Hy. lia.
    + right. by eapply IH.
Qed.

Lemma take_ascending (l : list nat) n :
  StronglySorted lt l -> StronglySorted lt (take n l).
Proof.
  revert n. induction l as [|a l IH]; intros [|n] Hs; simpl; try constructor.
  - apply IH. by apply StronglySorted_inv in Hs as [? _].
  - apply StronglySorted_inv in Hs as [_ Ha].
    rewrite Forall_forall in *. intros x Hx. apply Ha.
    by apply (subseteq_take n l).
Qed.

Lemma allocated_ids d fid name size now ids d1 :
  disk_inv d ->
  VirtualDisk.allocate_storage fid name size now d = (Py.Ok (Some ids), d1) ->
  ids = Z.of_nat
          <$> take (Z.to_nat ((size + VirtualDisk.block_size d - 1)
                              / VirtualDisk.block_size d))
                (VirtualDisk.free_blocks (VirtualDisk.blocks d)).
Proof.
  intros Hinv Halloc. pose proof (inv_block_size d Hinv) as Hbs.
  destruct (Z.lt_ge_cases
              (Py.len (VirtualDisk.free_blocks (VirtualDisk.blocks d)))
              ((size + VirtualDisk.block_size d - 1) / VirtualDisk.block_size d))
    as [Hlt|Hge].
  - rewrite allocate_storage_insufficient in Halloc by (done || lia). done.
  - destruct (allocate_storage_sufficient fid name size now d Hinv Hge)
      as (bl' & Heq & _).
    rewrite Heq in Halloc. by injection Halloc as <- _.
Qed.

(** X12. A new disk. With a positive capacity, the constructor raises
    [ZeroDivisionError] for a block size of 0; for a positive block size
    it makes a sound disk of [capacity // block_size] blocks, block [i]
    free, without owner or checksum, at offset [i * block_size], with no
    file and both counters at 0. An image that exists already is kept as
    it is, whatever its length; a new image has [capacity] zero bytes. *)
Theorem new_disk_is_empty nid capacity_gb existing :
  0 < capacity_gb ->
  VirtualDisk.__init__ nid capacity_gb 0 existing
  = Py.Raise (Py.mk_exn Py.ZeroDivisionError "integer division or modulo by zero") /\
  forall block_size_kb, 0 < block_size_kb ->
    exists d,
      VirtualDisk.__init__ nid capacity_gb block_size_kb existing = Py.Ok d /\
      disk_inv d /\
      VirtualDisk.node_id d = nid /\
      VirtualDisk.block_size d = block_size_kb * 1024 /\
      VirtualDisk.capacity_bytes d = capacity_gb * 1024 * 1024 * 1024 /\
      VirtualDisk.total_blocks d
      = VirtualDisk.capacity_bytes d / VirtualDisk.block_size d /\
      Py.len (VirtualDisk.blocks d) = VirtualDisk.total_blocks d /\
      (forall i, 0 <= i < VirtualDisk.total_blocks d ->
         VirtualDisk.blocks d !! Z.to_nat i
         = Some (StorageBlock.mk i (i * VirtualDisk.block_size d)
                   (VirtualDisk.block_size d) FREE None None)) /\
      VirtualDisk.files d = ∅ /\
      VirtualDisk.allocated_blocks d = 0 /\
      VirtualDisk.used_storage d = 0 /\
      VirtualDisk.disk_img d
      = match existing with
        | Some img => img
        | None => Py.zeros (VirtualDisk.capacity_bytes d)
        end.
Proof.
  intros Hcap. split; [done|]. intros block_size_kb Hbs.
  unfold VirtualDisk.__init__. rewrite floordiv_ok by lia. simpl.
  set (capacity := capacity_gb * 1024 * 1024 * 1024).
  set (bs := block_size_kb * 1024).
  assert (Htotal : 0 <= capacity / bs) by (apply Z.div_pos; lia).
  assert (Himg : VirtualDisk._initialize_disk capacity existing
                 = Py.Ok match existing with
                         | Some img => img
                         | None => Py.zeros capacity
                         end).
  { unfold VirtualDisk._initialize_disk. destruct existing as [img|]; [done|].
    rewrite seek_nonneg by lia. simpl. unfold Py.file_write, Py.zeros.
    rewrite take_nil, drop_nil, app_nil_r. simpl. rewrite Nat.sub_0_r.
    replace (Z.to_nat capacity) with (S (Z.to_nat (capacity - 1))) by lia.
    by rewrite replicate_S_end. }
  rewrite Himg. simpl. eexists. split; [reflexivity|]. simpl.
  split_and!; try done.
  - apply fresh_disk_inv; [lia|done].
  - unfold VirtualDisk._initialize_blocks, Py.range, Py.len.
    rewrite length_fmap, length_seqZ. lia.
  - intros i Hi. unfold VirtualDisk._initialize_blocks, Py.range.
    rewrite list_lookup_fmap, lookup_seqZ_lt by lia. simpl.
    by rewrite Z2Nat.id by lia.
Qed.

Lemma new_disk_is_empty_witness :
  VirtualDisk.__init__ "A" 1 0 (Some [])
  = Py.Raise (Py.mk_exn Py.ZeroDivisionError "integer division or modulo by zero") /\
  exists d,
    VirtualDisk.__init__ "A" 1 64 (Some []) = Py.Ok d /\
    disk_inv d /\
    VirtualDisk.total_blocks d = 16384.
Proof.
  destruct (new_disk_is_empty "A" 1 (Some [])) as [Hzero Hnew]; [lia|].
  split; [exact Hzero|].
  destruct (Hnew 64) as (d & Hd & Hinv & _ & Hbs & Hcap & Htotal & _); [lia|].
  exists d. split_and!; [done..|]. by rewrite Htotal, Hcap, Hbs.
Defined.

(** X13. An allocation takes the free blocks with the lowest numbers, in
    increasing order: on a sound disk, the ids that [allocate_storage]
    returns are strictly increasing, and every free block with a smaller
    number than a returned id is returned too. *)
Theorem allocation_takes_lowest_free_blocks d fid name size now ids d1 :
  disk_inv d ->
  VirtualDisk.allocate_storage fid name size now d = (Py.Ok (Some ids), d1) ->
  StronglySorted Z.lt ids /\
  forall id j,
    id ∈ ids -> 0 <= j < id ->
    (exists b, VirtualDisk.blocks d !! Z.to_nat j = Some b /\
               StorageBlock.status b = FREE) ->
    j ∈ ids.
Proof.
  intros Hinv Halloc. rewrite (allocated_ids d fid name size now ids d1 Hinv Halloc).
  set (n := Z.to_nat ((size + VirtualDisk.block_size d - 1) / VirtualDisk.block_size d)).
  pose proof (free_from_ascending (VirtualDisk.blocks d) 0) as Hsorted.
  fold (VirtualDisk.free_blocks (VirtualDisk.blocks d)) in Hsorted.
  split.
  - apply (StronglySorted_fmap Z.of_nat lt Z.lt); [|by apply take_ascending].
    intros x y. lia.
  - intros id j Hid Hj Hfree.
    apply list_elem_of_fmap in Hid as (p & -> & Hp).
    apply list_elem_of_fmap. exists (Z.to_nat j). split; [lia|].
    apply (take_ascending_lowest _ n p); [done|done| |lia].
    by apply elem_of_free_blocks.
Qed.

Lemma allocation_takes_lowest_free_blocks_witness :
  StronglySorted Z.lt [0; 1] /\
  forall id j,
    id ∈ [0; 1] -> 0 <= j < id ->
    (exists b, VirtualDisk.blocks Example.small_disk !! Z.to_nat j = Some b /\
               StorageBlock.status b = FREE) ->
    j ∈ [0; 1].
Proof.
  apply (allocation_takes_lowest_free_blocks Example.small_disk "f" "f.txt" 6 0%Q
           [0; 1] Example.small_disk_with_file).
  - exact example_small_disk_inv.
  - reflexivity.
Defined.

(** X14. [allocate_storage] does not check the sign of the size. On a
    sound disk, a size of minus one block or less is accepted: the call
    returns an empty list of blocks, records a file without blocks, and
    lowers [allocated_blocks] and [used_storage], so that the counter no
    longer counts the blocks that are not free. *)
Theorem negative_size_lowers_the_counters d fid name size now :
  disk_inv d -> size <= - VirtualDisk.block_size d ->
  exists d1,
    VirtualDisk.allocate_storage fid name size now d = (Py.Ok (Some []), d1) /\
    VirtualDisk.blocks d1 = VirtualDisk.blocks d /\
    VirtualDisk.files d1 !! fid
    = Some (VirtualFile.mk fid name size [] now
              (VirtualDisk.file_checksum fid name size)) /\
    VirtualDisk.allocated_blocks d1 < VirtualDisk.allocated_blocks d /\
    VirtualDisk.used_storage d1 < VirtualDisk.used_storage d /\
    VirtualDisk.allocated_blocks d1 <> count_non_free (VirtualDisk.blocks d1).
Proof.
  intros Hinv Hsize. pose proof (inv_block_size d Hinv) as Hbs.
  assert (Hreq : (size + VirtualDisk.block_size d - 1) / VirtualDisk.block_size d < 0).
  { apply Z.div_lt_upper_bound; lia. }
  destruct (allocate_storage_sufficient fid name size now d Hinv)
    as (bl' & Heq & Hlen & Hbl & _).
  { pose proof (len_nonneg (VirtualDisk.free_blocks (VirtualDisk.blocks d))). lia. }
  replace (Z.to_nat ((size + VirtualDisk.block_size d - 1) / VirtualDisk.block_size d))
    with 0%nat in * by lia.
  simpl in *.
  assert (bl' = VirtualDisk.blocks d) as ->.
  { apply list_eq. intros i. by rewrite Hbl. }
  eexists. split; [exact Heq|]. simpl.
  rewrite lookup_insert_eq. split_and!; [done|done|lia|lia|].
  rewrite <- (inv_count d Hinv). lia.
Qed.

Lemma negative_size_lowers_the_counters_witness :
  exists d1,
    VirtualDisk.allocate_storage "f" "f.txt" (-4) 0%Q Example.small_disk
    = (Py.Ok (Some []), d1) /\
    VirtualDisk.blocks d1 = VirtualDisk.blocks Example.small_disk /\
    VirtualDisk.files d1 !! "f"
    = Some (VirtualFile.mk "f" "f.txt" (-4) [] 0%Q
              (VirtualDisk.file_checksum "f" "f.txt" (-4))) /\
    VirtualDisk.allocated_blocks d1 < VirtualDisk.allocated_blocks Example.small_disk /\
    VirtualDisk.used_storage d1 < VirtualDisk.used_storage Example.small_disk /\
    VirtualDisk.allocated_blocks d1 <> count_non_free (VirtualDisk.blocks d1).
Proof.
  apply (negative_size_lowers_the_counters Example.small_disk "f" "f.txt" (-4) 0%Q).
  - exact example_small_disk_inv.
  - simpl. lia.
Defined.

(** X15. A deleted file is gone. On a sound disk, after [delete_file] of
    a file that is there, the same id is unknown to every operation:
    [read_data] returns [None], [write_data] and a second [delete_file]
    return [False], and none of them changes the disk. *)
Theorem deleted_file_is_unknown d fid vf :
  disk_inv d -> VirtualDisk.files d !! fid = Some vf ->
  exists d',
    VirtualDisk.delete_file fid d = (Py.Ok true, d') /\
    (forall size offset, VirtualDisk.read_data fid size offset d' = Py.Ok None) /\
    (forall data offset,
       VirtualDisk.write_data fid data offset d' = (Py.Ok false, d')) /\
    VirtualDisk.delete_file fid d' = (Py.Ok false, d').
Proof.
  intros Hinv Hf.
  destruct (delete_file_known fid vf d Hinv Hf) as (d' & Hdel & Hfiles & _).
  assert (Hgone : VirtualDisk.files d' !! fid = None)
    by (rewrite Hfiles; apply lookup_delete_eq).
  exists d'. split_and!; [done| | |].
  - intros size offset. unfold VirtualDisk.read_data. by rewrite Hgone.
  - intros data offset. by apply write_data_unknown.
  - by apply delete_file_unknown.
Qed.

Lemma deleted_file_is_unknown_witness :
  exists d',
    VirtualDisk.delete_file "f" Example.small_disk_with_file = (Py.Ok true, d') /\
    (forall size offset, VirtualDisk.read_data "f" size offset d' = Py.Ok None) /\
    (forall data offset,
       VirtualDisk.write_data "f" data offset d' = (Py.Ok false, d')) /\
    VirtualDisk.delete_file "f" d' = (Py.Ok false, d').
Proof.
  apply (deleted_file_is_unknown Example.small_disk_with_file "f" Example.the_file).
  - exact example_small_disk_with_file_inv.
  - exact example_the_file.
Defined.

(** X16. Reading less gives a prefix of reading more. On a sound disk,
    for a file that is there and an offset that is not negative,
    [read_data] never raises and returns at most [size] bytes; reading
    [size' <= size] bytes at the same offset returns the first [size']
    bytes of what reading [size] bytes returns. *)
Theorem read_data_shorter_is_prefix d fid vf size size' offset :
  disk_inv d -> VirtualDisk.files d !! fid = Some vf ->
  0 <= offset -> 0 <= size' <= size ->
  exists r,
    VirtualDisk.read_data fid size offset d = Py.Ok (Some r) /\
    Py.len r <= size /\
    VirtualDisk.read_data fid size' offset d = Py.Ok (Some (take (Z.to_nat size') r)).
Proof.
  intros Hinv Hf Hoff Hsize. pose proof (inv_block_size d Hinv) as Hbs.
  unfold VirtualDisk.read_data. rewrite Hf, floordiv_ok, modulo_ok by lia. simpl.
  destruct (slice_from_suffix (VirtualFile.blocks vf) (offset / VirtualDisk.block_size d))
    as [k ->].
  assert (Hids : forall id, id ∈ drop k (VirtualFile.blocks vf) ->
                   0 <= id < Py.len (VirtualDisk.blocks d)).
  { intros id Hid. apply (owns_valid d vf); [by eapply inv_owned|].
    by apply (subseteq_drop k). }
  pose proof (Z.mod_pos_bound offset (VirtualDisk.block_size d) Hbs) as Hbo.
  destruct (read_loop_prefix size size' (drop k (VirtualFile.blocks vf))
              (offset mod VirtualDisk.block_size d) [] d) as (r & Hr & Hr');
    [by apply disk_inv_laid_out|done|done|unfold Py.len; simpl; lia|].
  destruct (read_loop_prefix size size (drop k (VirtualFile.blocks vf))
              (offset mod VirtualDisk.block_size d) [] d) as (r2 & Hr2 & Hr2');
    [by apply disk_inv_laid_out|done|done|unfold Py.len; simpl; lia|].
  rewrite Hr in Hr2. injection Hr2 as <-. rewrite Hr in Hr2'. injection Hr2' as Htake.
  rewrite Hr, Hr'. simpl. exists r. split_and!; [done| |done].
  rewrite Htake. unfold Py.len. rewrite length_take. lia.
Qed.

Lemma read_data_shorter_is_prefix_witness :
  exists r,
    VirtualDisk.read_data "f" 6 1 Example.small_disk_with_file = Py.Ok (Some r) /\
    Py.len r <= 6 /\
    VirtualDisk.read_data "f" 2 1 Example.small_disk_with_file
    = Py.Ok (Some (take (Z.to_nat 2) r)).
Proof.
  apply (read_data_shorter_is_prefix Example.small_disk_with_file "f" Example.the_file).
  - exact example_small_disk_with_file_inv.
  - exact example_the_file.
  - lia.
  - lia.
Defined.

(** * More about the handlers of a node and the calls between nodes *)

Lemma set_virtual_disk_same n : VirtualNode.set_virtual_disk (VirtualNode.virtual_disk n) n = n.
Proof. by destruct n. Qed.

Lemma store_file_chunk_hash_mismatch file_id data chunk_hash now n :
  chunk_hash <> md5_hexdigest data ->
  VirtualNode.store_file_chunk file_id (Hex.hex data) chunk_hash now n
  = (VirtualNode.failure "Hash mismatch", n).
Proof.
  intros Hne. unfold VirtualNode.store_file_chunk. rewrite fromhex_hex.
  destruct (String.eqb_spec (md5_hexdigest data) chunk_hash); [congruence|done].
Qed.

Lemma store_file_chunk_no_room file_id data now n :
  disk_inv (VirtualNode.virtual_disk n) ->
  Py.len (VirtualDisk.free_blocks (VirtualDisk.blocks (VirtualNode.virtual_disk n)))
  < (Py.len data + VirtualDisk.block_size (VirtualNode.virtual_disk n) - 1)
    / VirtualDisk.block_size (VirtualNode.virtual_disk n) ->
  VirtualNode.store_file_chunk file_id (Hex.hex data) (md5_hexdigest data) now n
  = (VirtualNode.failure "Insufficient storage", n).
Proof.
  intros Hinv Hroom. pose proof (inv_block_size _ Hinv).
  unfold VirtualNode.store_file_chunk. rewrite fromhex_hex, String.eqb_refl. simpl.
  rewrite allocate_storage_insufficient by (done || lia).
  by rewrite set_virtual_disk_same.
Qed.

Lemma retrieve_file_chunk_unknown file_id n :
  VirtualDisk.files (VirtualNode.virtual_disk n) !! (file_id +:+ "_chunk") = None ->
  VirtualNode.retrieve_file_chunk file_id n = (VirtualNode.failure "Chunk not found", n).
Proof.
  intros Hnone. unfold VirtualNode.retrieve_file_chunk, VirtualDisk.read_data.
  by rewrite Hnone.
Qed.

(** X17. A request that a node refuses changes nothing on the node. A
    chunk whose hash is not the MD5 of its bytes is refused with "Hash
    mismatch"; a chunk for which a sound disk has too few free blocks is
    refused with "Insufficient storage"; a retrieval of a file id without
    stored chunk is refused with "Chunk not found". In the three cases the
    disk and the counters of the node are as before. *)
Theorem refused_requests_change_nothing n file_id data chunk_hash now :
  (chunk_hash <> md5_hexdigest data ->
   VirtualNode.store_file_chunk file_id (Hex.hex data) chunk_hash now n
   = (VirtualNode.failure "Hash mismatch", n)) /\
  (disk_inv (VirtualNode.virtual_disk n) ->
   Py.len (VirtualDisk.free_blocks (VirtualDisk.blocks (VirtualNode.virtual_disk n)))
   < (Py.len data + VirtualDisk.block_size (VirtualNode.virtual_disk n) - 1)
     / VirtualDisk.block_size (VirtualNode.virtual_disk n) ->
   VirtualNode.store_file_chunk file_id (Hex.hex data) (md5_hexdigest data) now n
   = (VirtualNode.failure "Insufficient storage", n)) /\
  (VirtualDisk.files (VirtualNode.virtual_disk n) !! (file_id +:+ "_chunk") = None ->
   VirtualNode.retrieve_file_chunk file_id n
   = (VirtualNode.failure "Chunk not found", n)).
Proof.
  split_and!.
  - apply store_file_chunk_hash_mismatch.
  - apply store_file_chunk_no_room.
  - apply retrieve_file_chunk_unknown.
Qed.

Lemma refused_requests_change_nothing_witness :
  VirtualNode.store_file_chunk "F" (Hex.hex Example.chunk_a) "00" 0%Q Example.small_node
  = (VirtualNode.failure "Hash mismatch", Example.small_node) /\
  VirtualNode.store_file_chunk "F" (Hex.hex (Py.zeros 13))
    (md5_hexdigest (Py.zeros 13)) 0%Q Example.small_node
  = (VirtualNode.failure "Insufficient storage", Example.small_node) /\
  VirtualNode.retrieve_file_chunk "F" Example.small_node
  = (VirtualNode.failure "Chunk not found", Example.small_node).
Proof.
  destruct (refused_requests_change_nothing Example.small_node "F" Example.chunk_a
              "00" 0%Q) as (Hhash & _ & Hunknown).
  destruct (refused_requests_change_nothing Example.small_node "F" (Py.zeros 13)
              "00" 0%Q) as (_ & Hroom & _).
  split_and!.
  - apply Hhash. intros H. vm_compute in H. discriminate H.
  - apply Hroom; [exact example_small_disk_inv|]. vm_compute. reflexivity.
  - apply Hunknown. reflexivity.
Defined.

(** A chunk stored on a node, then retrieved. *)
Lemma store_then_retrieve file_id c now n B n1 :
  disk_inv (VirtualNode.virtual_disk n) ->
  img_covers (VirtualNode.virtual_disk n) ->
  Py.len c <= 1024 * 1024 ->
  VirtualNode.store_file_chunk file_id (Hex.hex c) (md5_hexdigest c) now n
  = (stored B, n1) ->
  Py.len B
  = (Py.len c + VirtualDisk.block_size (VirtualNode.virtual_disk n) - 1)
    / VirtualDisk.block_size (VirtualNode.virtual_disk n) /\
  exists extra,
    VirtualNode.retrieve_file_chunk file_id n1
    = (retrieved (c ++ extra),
       VirtualNode.mk (VirtualNode.node_id n1) (VirtualNode.capacity_gb n1)
         (VirtualNode.port n1) (VirtualNode.virtual_disk n1) (VirtualNode.is_active n1)
         (VirtualNode.start_time n1) (VirtualNode.files_uploaded n1)
         (VirtualNode.files_downloaded n1 + 1)
         (VirtualNode.bytes_transferred n1 + Py.len (c ++ extra))
         (VirtualNode.active_transfers n1)) /\
    Py.len (c ++ extra)
    = Z.min (1024 * 1024)
        (Py.len B * VirtualDisk.block_size (VirtualNode.virtual_disk n)).
Proof.
  intros Hinv Hcov Hc Hs.
  destruct (store_file_chunk_stored _ _ _ _ _ _ Hinv Hs) as (da & Ha & Hw).
  destruct (store_on_disk _ _ _ _ _ _ _ Hinv Ha Hw)
    as (Hinv1 & Hnd & Hfit & Hfiles & Hcount & Hbs1 & Hlen1 & Himg1 & HB & Hout & Hread).
  pose proof (len_nonneg c) as Hc0.
  destruct (allocate_storage_some _ _ _ _ _ _ _ Hinv Hc0 Ha) as (_ & _ & HlenB & _).
  split; [done|].
  set (d := VirtualNode.virtual_disk n) in *.
  set (d1 := VirtualNode.virtual_disk n1) in *.
  set (fidc := file_id +:+ "_chunk") in *.
  pose proof (inv_block_size _ Hinv1) as Hbs.
  assert (Hvf : VirtualDisk.files d1 !! fidc
                = Some (VirtualFile.mk fidc fidc (Py.len c) B now
                          (VirtualDisk.file_checksum fidc fidc (Py.len c)))).
  { rewrite Hfiles. apply lookup_insert_eq. }
  assert (Hvalid : forall id, id ∈ B -> 0 <= id < Py.len (VirtualDisk.blocks d1)).
  { intros id Hid. destruct (HB id Hid) as (H0 & _ & b & Hb & _).
    apply lookup_lt_Some in Hb. unfold Py.len. lia. }
  rewrite (read_data_from_start _ _ _ _ Hbs Hvf) in Hread. simpl in Hread.
  destruct (read_loop_prefix (1024 * 1024) (Py.len c) B 0 [] d1) as (r & Hr & Hr');
    [by apply disk_inv_laid_out|done|lia|unfold Py.len at 1; simpl; lia|].
  rewrite Hr' in Hread. injection Hread as Htake.
  assert (c ++ drop (Z.to_nat (Py.len c)) r = r) as Hsplit.
  { rewrite <- Htake at 1. apply take_drop. }
  exists (drop (Z.to_nat (Py.len c)) r). rewrite Hsplit. split.
  - unfold VirtualNode.retrieve_file_chunk. fold fidc. fold d1.
    rewrite (read_data_from_start _ _ _ _ Hbs Hvf). simpl. rewrite Hr.
    reflexivity.
  - destruct (read_loop_full (1024 * 1024) B 0 [] d1) as (r' & Hr2 & Hlen);
      [by apply disk_inv_laid_out| |done|lia|unfold Py.len; simpl; lia|].
    { unfold img_covers, Py.len in *. rewrite Hlen1, Hbs1. lia. }
    assert (r' = r) as -> by congruence. rewrite Hlen, Hbs1.
    pose proof (len_nonneg B). unfold Py.len at 1. simpl.
    assert (0 <= Py.len B * VirtualDisk.block_size d) by (rewrite <- Hbs1; nia).
    lia.
Qed.

(** X18. A chunk that fills its blocks comes back as it was stored. On a
    sound node whose image covers its blocks, after a successful
    [store_file_chunk] of at most 1 MiB, [retrieve_file_chunk] succeeds
    and returns the chunk followed by the rest of its last block, in all
    as many bytes as the blocks hold (at most 1 MiB); when the length of
    the chunk is a multiple of the block size, it returns exactly the
    chunk, with the hash it was stored with. *)
Theorem aligned_chunk_round_trips file_id c now n B n1 :
  disk_inv (VirtualNode.virtual_disk n) ->
  img_covers (VirtualNode.virtual_disk n) ->
  Py.len c <= 1024 * 1024 ->
  VirtualNode.store_file_chunk file_id (Hex.hex c) (md5_hexdigest c) now n
  = (stored B, n1) ->
  exists extra n2,
    VirtualNode.retrieve_file_chunk file_id n1 = (retrieved (c ++ extra), n2) /\
    Py.len (c ++ extra)
    = Z.min (1024 * 1024)
        (Py.len B * VirtualDisk.block_size (VirtualNode.virtual_disk n)) /\
    VirtualNode.files_downloaded n2 = VirtualNode.files_downloaded n1 + 1 /\
    VirtualNode.virtual_disk n2 = VirtualNode.virtual_disk n1 /\
    (Py.len c mod VirtualDisk.block_size (VirtualNode.virtual_disk n) = 0 ->
     extra = [] /\
     VirtualNode.retrieve_file_chunk file_id n1 = (retrieved c, n2)).
Proof.
  intros Hinv Hcov Hc Hs. pose proof (inv_block_size _ Hinv) as Hbs.
  destruct (store_then_retrieve file_id c now n B n1 Hinv Hcov Hc Hs)
    as (HlenB & extra & Hret & Hlen).
  eexists extra, _. split_and!; [exact Hret|exact Hlen|done|done|].
  intros Hmod.
  assert (Hfull : Py.len B * VirtualDisk.block_size (VirtualNode.virtual_disk n)
                  = Py.len c).
  { rewrite HlenB.
    pose proof (Z.div_mod (Py.len c) (VirtualDisk.block_size (VirtualNode.virtual_disk n))
                  ltac:(lia)) as Hdm.
    rewrite Hmod, Z.add_0_r in Hdm.
    replace (Py.len c + VirtualDisk.block_size (VirtualNode.virtual_disk n) - 1)
      with (VirtualDisk.block_size (VirtualNode.virtual_disk n) - 1
            + Py.len c / VirtualDisk.block_size (VirtualNode.virtual_disk n)
              * VirtualDisk.block_size (VirtualNode.virtual_disk n)) by lia.
    rewrite Z.div_add by lia. rewrite Z.div_small by lia. lia. }
  assert (extra = []) as ->.
  { apply length_zero_iff_nil. rewrite Hfull in Hlen. unfold Py.len in *.
    rewrite length_app in Hlen. lia. }
  split; [done|]. rewrite app_nil_r in Hret. by rewrite app_nil_r.
Qed.

Lemma aligned_chunk_round_trips_witness :
  let c := Py.encode "abcd" in
  let n1 := (VirtualNode.store_file_chunk "F" (Hex.hex c) (md5_hexdigest c) 0%Q
               Example.small_node).2 in
  exists extra n2,
    VirtualNode.retrieve_file_chunk "F" n1 = (retrieved (c ++ extra), n2) /\
    Py.len (c ++ extra)
    = Z.min (1024 * 1024)
        (Py.len [0] * VirtualDisk.block_size (VirtualNode.virtual_disk Example.small_node)) /\
    VirtualNode.files_downloaded n2 = VirtualNode.files_downloaded n1 + 1 /\
    VirtualNode.virtual_disk n2 = VirtualNode.virtual_disk n1 /\
    (Py.len c mod VirtualDisk.block_size (VirtualNode.virtual_disk Example.small_node) = 0 ->
     extra = [] /\
     VirtualNode.retrieve_file_chunk "F" n1 = (retrieved c, n2)).
Proof.
  intros c n1.
  apply (aligned_chunk_round_trips "F" c 0%Q Example.small_node [0] n1).
  - exact example_small_disk_inv.
  - by vm_compute.
  - by vm_compute.
  - vm_compute. reflexivity.
Defined.

Section RemoteCalls.
Context {S : Type}.
Variable float_repr : Q -> string.

Lemma dispatch_registered (peer : RPCService.t S) method_name f params peer_clk s :
RPCService.rpc_methods peer !! method_name = Some f ->
RPCService.dispatch float_repr peer (VStr method_name) params peer_clk s
= match f params peer_clk s with
  | (Py.Ok r, s') => ((r, VNone), s')
  | (Py.Raise e, s') => ((VNone, VStr (Py.exn_str e)), s')
  end.
Proof.
intros H. unfold RPCService.dispatch, RPCService.callable in *. by rewrite H.
Qed.

(** X19. What a remote call gives back. When the request and the response
  are delivered and the peer has registered the method, the caller gets
  the value that the method returned, and the peer is in the state in
  which the method left it. When the method raised, the caller gets an
  [Exception] that carries only the text of what was raised, whatever
  its class; an exception without text is not seen at all: the call
  returns [None]. In every case the call is no longer pending. *)
Theorem remote_call_gives_back_the_outcome (peer : RPCService.t S) s method_name f
  params timeout clk msg_id peer_clk peer_now (st : RPCService.t S) outcome s' :
RPCService.rpc_methods peer !! method_name = Some f ->
f (if truthy params then params else VDict []) peer_clk s = (outcome, s') ->
exists st',
  RPCService.call_peer float_repr peer s method_name params timeout clk msg_id
    peer_clk peer_now st
  = (match outcome with
     | Py.Ok r => Py.Ok r
     | Py.Raise e =>
         if String.eqb (Py.exn_str e) "" then Py.Ok VNone
         else Py.Raise (Py.mk_exn Py.Exception (Py.exn_str e))
     end, st', s') /\
  RPCService.pending_calls st'
    !! RPCService.call_id_of float_repr (RPCService.node_id st) method_name (clk 0%nat)
  = None.
Proof.
intros Hf Hcall.
pose proof (dispatch_registered peer method_name f
              (if truthy params then params else VDict []) peer_clk s Hf) as Hd.
rewrite Hcall in Hd.
destruct outcome as [r|e].
- destruct (call_peer_spec float_repr peer s method_name params timeout clk msg_id
              peer_clk peer_now st _ _ _ Hd) as (st' & Hpeer & Hpending).
  by exists st'.
- destruct (call_peer_spec float_repr peer s method_name params timeout clk msg_id
              peer_clk peer_now st _ _ _ Hd) as (st' & Hpeer & Hpending).
  exists st'. split; [|done]. rewrite Hpeer. simpl.
  by destruct (String.eqb (Py.exn_str e) "").
Qed.

(** X20. A response is used once. Handling the same response message a
  second time changes nothing: whatever the message and the state of the
  service, two deliveries leave the state that one delivery leaves. *)
Theorem second_response_changes_nothing (st : RPCService.t S) msg :
RPCService.deliver (RPCService.deliver st msg) msg = RPCService.deliver st msg.
Proof.
unfold RPCService.deliver, RPCService._handle_rpc_response.
destruct (Dict.subscript (NetworkMessage.payload msg) "call_id")
  as [[| | | |cid| |]|e] eqn:Hcid; simpl; rewrite ?Hcid; try done.
destruct (RPCService.pending_calls st !! cid) as [[ref t]|] eqn:Hp; simpl;
  rewrite ?Hcid, ?Hp; [|done].
destruct (Dict.subscript (NetworkMessage.payload msg) "result") as [r|e] eqn:Hr;
  simpl; rewrite ?Hcid, ?Hp, ?Hr; [|done].
destruct (Dict.subscript (NetworkMessage.payload msg) "error") as [err|e] eqn:He;
  simpl; rewrite ?Hcid.
- by rewrite lookup_delete_eq.
- simpl. rewrite ?Hp. simpl. rewrite ?Hr, ?He. simpl.
  unfold RPCService.set_containers. simpl. f_equal.
  destruct (decide (ref < length (RPCService.containers st))%nat) as [Hlt|Hge].
  + rewrite list_lookup_insert_eq by done. simpl.
    by rewrite list_insert_insert_eq.
  + by rewrite !(list_insert_ge (RPCService.containers st)) by lia.
Qed.

End RemoteCalls.

Lemma remote_call_gives_back_the_outcome_witness :
  exists st',
    RPCService.call_peer Example.float_repr Failing.service_b Example.small_node "boom"
      VNone 30%Q Example.clk "m1" Example.clk 20%Q Example.service_a
    = (Py.Raise (Py.mk_exn Py.Exception "boom"), st', Example.small_node) /\
    RPCService.pending_calls st'
      !! RPCService.call_id_of Example.float_repr "A" "boom" (Example.clk 0%nat)
    = None.
Proof.
  apply (remote_call_gives_back_the_outcome Example.float_repr Failing.service_b
           Example.small_node "boom" Failing.boom VNone 30%Q Example.clk "m1"
           Example.clk 20%Q Example.service_a
           (Py.Raise (Py.mk_exn Py.ValueError "boom")) Example.small_node).
  - vm_compute. reflexivity.
  - reflexivity.
Defined.

(** * More about the distribution of a file *)

Lemma slice_take_drop {A} (l : list A) lo hi :
  0 <= lo <= hi ->
  Py.slice l lo hi = take (Z.to_nat (hi - lo)) (drop (Z.to_nat lo) l).
Proof.
  intros Hlo. unfold Py.slice, Py.clamp, Py.len.
  destruct (Z.ltb_spec lo 0); [lia|]. destruct (Z.ltb_spec hi 0); [lia|].
  destruct (Z.le_gt_cases hi (Z.of_nat (length l))) as [Hhi|Hhi].
  - by rewrite !Z.min_l by lia.
  - rewrite (Z.min_r hi) by lia.
    destruct (Z.le_gt_cases lo (Z.of_nat (length l))) as [Hlo'|Hlo'].
    + rewrite Z.min_l by lia. rewrite !take_ge; [done|rewrite length_drop; lia..].
    + rewrite Z.min_r by lia. rewrite !drop_ge by lia. by rewrite !take_nil.
Qed.

Lemma pieces_rejoin {A} (size : nat) : forall n (l : list A),
  (length l <= n * size)%nat ->
  mjoin ((fun j => take size (drop (j * size) l)) <$> seq 0 n) = l.
Proof.
  induction n as [|n IH]; intros l Hlen.
  - simpl in *. by destruct l; [|simpl in Hlen; lia].
  - cbn [seq fmap list_fmap mjoin list_join]. rewrite <- fmap_S_seq, <- list_fmap_compose.
    rewrite Nat.mul_0_l, drop_0.
    rewrite (list_fmap_ext _ (fun j => take size (drop (j * size) (drop size l)))
               (seq 0 n)).
    + rewrite IH by (rewrite length_drop; lia). apply take_drop.
    + intros _ j _. simpl. rewrite drop_drop. do 2 f_equal; lia.
Qed.

Lemma chunks_data_rejoin file_id (file_data : list byte) :
  mjoin (VirtualNode.data <$> VirtualNode.split_chunks file_id file_data) = file_data.
Proof.
  rewrite split_chunks_spec, <- list_fmap_compose.
  set (n := Z.to_nat ((Py.len file_data + VirtualNode.chunk_size - 1)
                      / VirtualNode.chunk_size)).
  rewrite (list_fmap_ext _
             (fun j => take (Z.to_nat VirtualNode.chunk_size)
                         (drop (j * Z.to_nat VirtualNode.chunk_size) file_data))
             (seq 0 n)).
  - apply pieces_rejoin.
    pose proof (required_blocks_ceil (Py.len file_data) VirtualNode.chunk_size
                  ltac:(done)) as Hceil.
    pose proof (len_nonneg file_data). subst n. unfold Py.len in *.
    unfold VirtualNode.chunk_size in *. simpl in Hceil. nia.
  - intros _ j _. simpl. rewrite slice_take_drop by (unfold VirtualNode.chunk_size; lia).
    f_equal; [f_equal; lia|]. f_equal. unfold VirtualNode.chunk_size. lia.
Qed.

(** X21. The chunks of a file are the file. Whatever the file, its chunks
    joined in order give back its bytes; the chunks are numbered 0, 1, 2,
    ... in order, and no two of them have the same chunk id. *)
Theorem chunks_rejoin_to_the_file file_id (file_data : list byte) :
  let chunks := VirtualNode.split_chunks file_id file_data in
  mjoin (VirtualNode.data <$> chunks) = file_data /\
  VirtualNode.chunk_index <$> chunks = seqZ 0 (Py.len chunks) /\
  NoDup (VirtualNode.chunk_id <$> chunks).
Proof.
  intros chunks. split_and!.
  - apply chunks_data_rejoin.
  - subst chunks. rewrite split_chunks_spec.
    set (n := Z.to_nat ((Py.len file_data + VirtualNode.chunk_size - 1)
                        / VirtualNode.chunk_size)).
    unfold Py.len at 1. rewrite length_fmap, length_seq, <- list_fmap_compose.
    apply list_eq. intros i. rewrite list_lookup_fmap.
    destruct (decide (i < n)%nat) as [Hlt|Hge].
    + rewrite lookup_seq_lt, lookup_seqZ_lt by lia. done.
    + rewrite lookup_seq_ge, lookup_seqZ_ge by lia. done.
  - apply chunk_ids_NoDup.
Qed.

Section MoreDistribution.
Context {World : Type}.
Variable read_file : string -> Py.res (list byte).
Variable basename : string -> string.
Variable json_dumps : pyval -> string.
Variable rpc : string -> Z -> string -> pyval -> World -> Py.res pyval * World.

(** X22. No distribution without a file or without peers. When the file
  cannot be read, the result is a failure with the text of the error;
  when the node is the only one in the table of nodes, the result is the
  failure "No other nodes available". In both cases no remote call is
  made, nothing is printed and the node is unchanged. *)
Theorem nothing_to_distribute nodes file_path replication_factor now self w :
(forall e, read_file file_path = Py.Raise e ->
   VirtualNode.distribute_file read_file basename json_dumps rpc nodes file_path
     replication_factor now self w
   = (VirtualNode.failure (Py.exn_str e), self, w, [])) /\
(forall file_data, read_file file_path = Py.Ok file_data ->
   (forall node, node ∈ nodes.*1 -> node = VirtualNode.node_id self) ->
   VirtualNode.distribute_file read_file basename json_dumps rpc nodes file_path
     replication_factor now self w
   = (VirtualNode.failure "No other nodes available", self, w, [])).
Proof.
split.
- intros e Hread. unfold VirtualNode.distribute_file. by rewrite Hread.
- intros file_data Hread Halone. unfold VirtualNode.distribute_file.
  rewrite Hread. cbv zeta. fold (candidates nodes self).
  assert (candidates nodes self = []) as ->; [|done].
  destruct (candidates nodes self) as [|node l] eqn:Hc; [done|].
  assert (Hin : node ∈ candidates nodes self) by (rewrite Hc; by left).
  apply list_elem_of_filter in Hin as [Hne Hin]. by apply Halone in Hin.
Qed.

(** X23. The metadata of a distribution is not stored. [distribute_file]
  writes the metadata under the id [<file_id>_metadata] without
  allocating storage for it: on a node whose disk has no file of that
  id, the write is refused and the result is not looked at, so the node,
  its disk included, is after the distribution as it was before,
  whatever the peers answered. *)
Theorem distribution_does_not_store_metadata nodes file_path replication_factor now
  self w file_data :
read_file file_path = Py.Ok file_data ->
VirtualDisk.files (VirtualNode.virtual_disk self)
  !! (md5_hexdigest file_data +:+ "_metadata") = None ->
(VirtualNode.distribute_file read_file basename json_dumps rpc nodes file_path
   replication_factor now self w).1.1.2 = self.
Proof.
intros Hread Hnone. unfold VirtualNode.distribute_file. rewrite Hread. cbv zeta.
destruct (Py.len _ =? 0); [done|].
destruct (VirtualNode.distribute_chunks _ _ _ _ _ _ _) as [[[]|e] p]; [|done].
rewrite write_data_unknown by done. simpl. apply set_virtual_disk_same.
Qed.

(** X24. An empty file is distributed without any call. With at least one
  candidate and a sound disk, the distribution of a file of 0 bytes
  succeeds at once: no chunk, an empty map, no remote call, nothing
  printed. *)
Theorem empty_file_has_no_chunks nodes file_path replication_factor now self w :
read_file file_path = Py.Ok [] ->
1 <= Py.len (candidates nodes self) ->
disk_inv (VirtualNode.virtual_disk self) ->
exists self',
  VirtualNode.distribute_file read_file basename json_dumps rpc nodes file_path
    replication_factor now self w
  = (VDict [("success", VBool true);
            ("file_id", VStr (md5_hexdigest []));
            ("filename", VStr (basename file_path));
            ("file_size", VInt 0);
            ("chunk_count", VInt 0);
            ("chunks_distributed", VInt 0);
            ("chunk_distribution", VDict []);
            ("replication_factor",
             VInt (Z.min replication_factor (Py.len (candidates nodes self))))],
     self', w, []).
Proof.
intros Hread Hk Hinv.
assert (Hnone : VirtualNode.split_chunks (md5_hexdigest []) [] = []) by done.
destruct (distribute_file_returns read_file basename json_dumps rpc nodes file_path
            replication_factor now self w [] (VirtualNode.mk_progress [] 0 [] w)
            Hread Hk Hinv) as (self' & Hret).
- by rewrite Hnone.
- exists self'. rewrite Hret, Hnone. done.
Qed.

End MoreDistribution.

Lemma nothing_to_distribute_witness :
  VirtualNode.distribute_file Cluster.read_small Cluster.basename Cluster.json_dumps
    Cluster.stores_all [("A", ("127.0.0.1", 8000))] "abc.txt" 2 0%Q Cluster.node_a 0%nat
  = (VirtualNode.failure "No other nodes available", Cluster.node_a, 0%nat, []).
Proof.
  apply (proj2 (nothing_to_distribute Cluster.read_small Cluster.basename
                  Cluster.json_dumps Cluster.stores_all [("A", ("127.0.0.1", 8000))]
                  "abc.txt" 2 0%Q Cluster.node_a 0%nat) Cluster.small_file eq_refl).
  intros node Hin. apply list_elem_of_singleton in Hin. exact Hin.
Defined.

Lemma distribution_does_not_store_metadata_witness :
  (VirtualNode.distribute_file Cluster.read_small Cluster.basename Cluster.json_dumps
     Cluster.stores_all Cluster.nodes "abc.txt" 2 0%Q Cluster.node_a 0%nat).1.1.2
  = Cluster.node_a.
Proof.
  apply (distribution_does_not_store_metadata Cluster.read_small Cluster.basename
           Cluster.json_dumps Cluster.stores_all Cluster.nodes "abc.txt" 2 0%Q
           Cluster.node_a 0%nat Cluster.small_file eq_refl).
  reflexivity.
Defined.

Lemma empty_file_has_no_chunks_witness :
  exists self',
    VirtualNode.distribute_file (fun _ => Py.Ok []) Cluster.basename Cluster.json_dumps
      Cluster.stores_all Cluster.nodes "empty.bin" 2 0%Q Cluster.node_a 0%nat
    = (VDict [("success", VBool true);
              ("file_id", VStr (md5_hexdigest []));
              ("filename", VStr (Cluster.basename "empty.bin"));
              ("file_size", VInt 0);
              ("chunk_count", VInt 0);
              ("chunks_distributed", VInt 0);
              ("chunk_distribution", VDict []);
              ("replication_factor",
               VInt (Z.min 2 (Py.len (candidates Cluster.nodes Cluster.node_a))))],
       self', 0%nat, []).
Proof.
  apply (empty_file_has_no_chunks (fun _ => Py.Ok []) Cluster.basename
           Cluster.json_dumps Cluster.stores_all Cluster.nodes "empty.bin" 2 0%Q
           Cluster.node_a 0%nat eq_refl).
  - by vm_compute.
  - exact example_small_disk_inv.
Defined.

(** * Files do not disturb each other *)

Lemma read_loop_ext size ids d1 d2 : forall bo acc,
  VirtualDisk.blocks d1 = VirtualDisk.blocks d2 ->
  VirtualDisk.block_size d1 = VirtualDisk.block_size d2 ->
  VirtualDisk.disk_img d1 = VirtualDisk.disk_img d2 ->
  VirtualDisk.read_loop size ids bo acc d1 = VirtualDisk.read_loop size ids bo acc d2.
Proof.
  intros bo acc Hb Hs Hi. revert bo acc.
  induction ids as [|id ids IH]; intros bo acc; [done|].
  cbn [VirtualDisk.read_loop]. rewrite Hb, Hs, Hi.
  destruct (size <=? Py.len acc); [done|].
  destruct (Py.getitem (VirtualDisk.blocks d2) id) as [[pos block]|]; [|done].
  simpl. destruct (Py.seek _); simpl; [|done]. apply IH.
Qed.

Lemma read_loop_frame upd touched_ids d d' size ids : forall bo acc,
  touched upd touched_ids d d' -> laid_out d -> img_covers d ->
  (forall id, id ∈ ids -> 0 <= id < Py.len (VirtualDisk.blocks d) /\ id ∉ touched_ids) ->
  0 <= bo < VirtualDisk.block_size d ->
  VirtualDisk.read_loop size ids bo acc d' = VirtualDisk.read_loop size ids bo acc d.
Proof.
  induction ids as [|id ids IH]; intros bo acc Ht Hlay Hcov Hids Hbo; [done|].
  destruct (Z.le_gt_cases size (Py.len acc)) as [Hdone|Hmore].
  { by rewrite !read_loop_done. }
  destruct (Hids id) as [Hid Hnot]; [by left|].
  pose proof (touched_laid_out _ _ _ _ Ht Hlay) as Hlay'.
  pose proof (touched_block_size _ _ _ _ Ht) as Hbs'.
  pose proof (touched_length _ _ _ _ Ht) as Hlen'.
  destruct (laid_out_getitem d id Hlay Hid) as (b & Hb & _).
  assert (Hid' : 0 <= id < Py.len (VirtualDisk.blocks d'))
    by (unfold Py.len in *; lia).
  destruct (laid_out_getitem d' id Hlay' Hid') as (b' & Hb' & _).
  rewrite (read_loop_cons size id ids bo acc d' b') by (done || lia).
  rewrite (read_loop_cons size id ids bo acc d b) by (done || lia).
  rewrite Hbs'.
  assert (Hbs : 0 < VirtualDisk.block_size d) by apply Hlay.
  assert (0 <= id * VirtualDisk.block_size d) by nia.
  rewrite (touched_img _ _ _ _ Ht).
  - apply IH; [done|done|done| |lia]. intros x Hx. apply Hids. by right.
  - lia.
  - unfold img_covers, Py.len in *. nia.
  - intros x Hx. destruct (Z.lt_ge_cases id x) as [Hlt|Hge].
    + left. nia.
    + right. assert (x <> id) by (by intros ->). nia.
Qed.

Lemma read_data_frame upd d d' fid2 vf2 size offset2 touched_ids :
  touched upd touched_ids d d' -> disk_inv d -> img_covers d ->
  VirtualDisk.files d !! fid2 = Some vf2 ->
  (forall id, id ∈ VirtualFile.blocks vf2 -> id ∉ touched_ids) ->
  0 <= offset2 ->
  VirtualDisk.read_data fid2 size offset2 d' = VirtualDisk.read_data fid2 size offset2 d.
Proof.
  intros Ht Hinv Hcov Hf2 Hdis Hoff. pose proof (inv_block_size d Hinv) as Hbs.
  unfold VirtualDisk.read_data.
  rewrite (touched_files _ _ _ _ Ht), Hf2, (touched_block_size _ _ _ _ Ht).
  rewrite floordiv_ok, modulo_ok by lia. simpl.
  destruct (slice_from_suffix (VirtualFile.blocks vf2) (offset2 / VirtualDisk.block_size d))
    as [k ->].
  rewrite (read_loop_frame upd touched_ids d d'); [done|done| |done| |].
  - by apply disk_inv_laid_out.
  - intros id Hid. apply (subseteq_drop k) in Hid. split; [|by apply Hdis].
    apply (owns_valid d vf2); [by eapply inv_owned|done].
  - by apply Z.mod_pos_bound.
Qed.

(** X25. Files do not disturb each other. On a sound disk whose image
    covers its blocks, writing to a file, with whatever data and offset,
    or deleting it, does not change what [read_data] returns for another
    file, for every size and every offset that is not negative. *)
Theorem other_files_read_the_same d fid vf fid2 vf2 data offset size offset2 :
  disk_inv d -> img_covers d ->
  VirtualDisk.files d !! fid = Some vf ->
  VirtualDisk.files d !! fid2 = Some vf2 ->
  fid <> fid2 -> 0 <= offset2 ->
  VirtualDisk.read_data fid2 size offset2 (VirtualDisk.write_data fid data offset d).2
  = VirtualDisk.read_data fid2 size offset2 d /\
  VirtualDisk.read_data fid2 size offset2 (VirtualDisk.delete_file fid d).2
  = VirtualDisk.read_data fid2 size offset2 d.
Proof.
  intros Hinv Hcov Hf Hf2 Hne Hoff.
  assert (Hdis : forall id, id ∈ VirtualFile.blocks vf2 -> id ∉ VirtualFile.blocks vf).
  { intros id Hid. by apply (inv_disjoint d Hinv fid2 fid vf2 vf). }
  split.
  - destruct (write_data_known fid vf data offset d Hinv Hf) as (d' & -> & Ht).
    simpl. by apply (read_data_frame occupied d d' fid2 vf2 size offset2
                       (VirtualFile.blocks vf)).
  - destruct (inv_owned d Hinv fid vf Hf) as [Hnd Hown].
    destruct (delete_loop_spec (VirtualFile.blocks vf) d) as (dl & Hloop & Ht & _);
      [by apply disk_inv_laid_out|done| |].
    { intros id Hid. eapply owns_valid; [|done]. by eapply inv_owned. }
    unfold VirtualDisk.delete_file. rewrite Hf, Hloop. cbn [snd].
    rewrite <- (read_data_frame released d dl fid2 vf2 size offset2
                  (VirtualFile.blocks vf)) by done.
    unfold VirtualDisk.read_data. simpl.
    rewrite lookup_delete_ne by done.
    destruct (VirtualDisk.files dl !! fid2); [|done].
    destruct (Py.floordiv _ _); simpl; [|done].
    destruct (Py.modulo _ _); simpl; [|done].
    by rewrite (read_loop_ext _ _ _ dl).
Qed.

Lemma two_files_disk_inv : disk_inv TwoFiles.disk.
Proof.
  apply allocate_storage_inv; [exact example_small_disk_with_file_inv|lia].
Qed.

Lemma other_files_read_the_same_witness :
  VirtualDisk.read_data "g" 4 0
    (VirtualDisk.write_data "f" (Py.encode "abcdefgh") 0 TwoFiles.disk).2
  = VirtualDisk.read_data "g" 4 0 TwoFiles.disk /\
  VirtualDisk.read_data "g" 4 0 (VirtualDisk.delete_file "f" TwoFiles.disk).2
  = VirtualDisk.read_data "g" 4 0 TwoFiles.disk.
Proof.
  apply (other_files_read_the_same TwoFiles.disk "f" Example.the_file "g"
           TwoFiles.file_g).
  - exact two_files_disk_inv.
  - by vm_compute.
  - vm_compute. reflexivity.
  - vm_compute. reflexivity.
  - discriminate.
  - lia.
Defined.

(** * The blocks that a write marks *)

Lemma write_loop_marks data ids : forall d w,
  laid_out d -> NoDup ids ->
  (forall id, id ∈ ids -> 0 <= id < Py.len (VirtualDisk.blocks d)) ->
  0 <= w ->
  exists d',
    VirtualDisk.write_loop data ids w 0 d = (Py.Ok (), d') /\
    (forall k id b,
       ids !! k = Some id -> VirtualDisk.blocks d !! Z.to_nat id = Some b ->
       VirtualDisk.blocks d' !! Z.to_nat id
       = Some (if decide (w + Z.of_nat k * VirtualDisk.block_size d < Py.len data)
               then written
                      (Py.slice data (w + Z.of_nat k * VirtualDisk.block_size d)
                         (w + Z.of_nat k * VirtualDisk.block_size d
                          + Z.min (Py.len data
                                   - (w + Z.of_nat k * VirtualDisk.block_size d))
                              (VirtualDisk.block_size d))) b
               else b)) /\
    (forall i, Z.of_nat i ∉ ids ->
       VirtualDisk.blocks d' !! i = VirtualDisk.blocks d !! i).
Proof.
  induction ids as [|id ids IH]; intros d w Hlay Hnd Hids Hw.
  - exists d. split_and!; [done| |done]. intros k id b. by rewrite lookup_nil.
  - assert (Hbs : 0 < VirtualDisk.block_size d) by apply Hlay.
    destruct (Z.le_gt_cases (Py.len data) w) as [Hdone|Hmore].
    { exists d. split_and!; [| |done].
      - cbn [VirtualDisk.write_loop]. by destruct (Z.leb_spec (Py.len data) w); [|lia].
      - intros k id' b _ Hb. rewrite Hb. by rewrite decide_False by nia. }
    apply NoDup_cons in Hnd as [Hnotin Hnd].
    assert (0 <= id < Py.len (VirtualDisk.blocks d)) as Hid by (apply Hids; left).
    destruct (laid_out_getitem d id Hlay Hid) as (b0 & Hb0 & _).
    rewrite (write_loop_cons data id ids w 0 d b0) by (done || lia).
    pose proof (write_first_touched data id w 0 b0 d Hlay ltac:(lia) Hb0 ltac:(lia)
                  ltac:(lia)) as Ht1.
    set (d1 := write_first data id w 0 b0 d) in *.
    assert (Hbs1 : VirtualDisk.block_size d1 = VirtualDisk.block_size d) by done.
    assert (Hblocks1 : VirtualDisk.blocks d1
              = <[Z.to_nat id :=
                    written (Py.slice data w
                               (w + Z.min (Py.len data - w)
                                      (VirtualDisk.block_size d - 0))) b0]>
                  (VirtualDisk.blocks d)) by done.
    destruct (IH d1 (w + Z.min (Py.len data - w) (VirtualDisk.block_size d - 0)))
      as (d' & Hloop & Hmarks & Hframe).
    + by eapply touched_laid_out.
    + done.
    + intros x Hx. unfold Py.len. rewrite (touched_length _ _ _ _ Ht1).
      apply Hids. by right.
    + lia.
    + exists d'. split_and!; [done| |].
      * intros [|k] id' b Hk Hb.
        -- injection Hk as <-. rewrite Hframe by (by rewrite Z2Nat.id by lia).
           rewrite Hblocks1, list_lookup_insert_eq by (by eapply lookup_lt_Some).
           assert (b = b0) as -> by congruence.
           rewrite decide_True by lia.
           by rewrite Z.mul_0_l, !Z.add_0_r, Z.sub_0_r.
        -- simpl in Hk.
           assert (Hne : id' <> id).
           { intros ->. apply Hnotin. by eapply list_elem_of_lookup_2. }
           assert (Hid' : 0 <= id') by (apply Hids; right; by eapply list_elem_of_lookup_2).
           rewrite (Hmarks k id' b Hk).
           2:{ rewrite Hblocks1, list_lookup_insert_ne by lia. done. }
           rewrite Hbs1, Z.sub_0_r.
           destruct (Z.le_gt_cases (VirtualDisk.block_size d) (Py.len data - w))
             as [Hfull|Hlast].
           ++ rewrite Z.min_r by lia.
              replace (w + VirtualDisk.block_size d
                       + Z.of_nat k * VirtualDisk.block_size d)
                with (w + Z.of_nat (S k) * VirtualDisk.block_size d) by lia.
              done.
           ++ rewrite Z.min_l by lia.
              rewrite !decide_False; [done|nia|nia].
      * intros i Hi. apply not_elem_of_cons in Hi as [Hne Hi].
        rewrite Hframe by done. rewrite Hblocks1.
        apply list_lookup_insert_ne. lia.
Qed.

(** X26. A write marks the blocks that receive bytes, and only those. On
    a sound disk, [write_data] at offset 0 of a known file leaves the
    block at position [k] of the file OCCUPIED, with the MD5 of the bytes
    written to it as checksum, when [k * block_size] is below the length
    of the data; the other blocks of the file, and every block of the
    disk that is not in the file, are as before. The owner of a block
    never changes. *)
Theorem write_marks_the_blocks_it_fills d fid vf data :
  disk_inv d -> VirtualDisk.files d !! fid = Some vf ->
  exists d',
    VirtualDisk.write_data fid data 0 d = (Py.Ok true, d') /\
    (forall k id b,
       VirtualFile.blocks vf !! k = Some id ->
       VirtualDisk.blocks d !! Z.to_nat id = Some b ->
       VirtualDisk.blocks d' !! Z.to_nat id
       = Some (if decide (Z.of_nat k * VirtualDisk.block_size d < Py.len data)
               then written (piece_of data (VirtualDisk.block_size d) (Z.of_nat k)) b
               else b)) /\
    (forall i, Z.of_nat i ∉ VirtualFile.blocks vf ->
       VirtualDisk.blocks d' !! i = VirtualDisk.blocks d !! i).
Proof.
  intros Hinv Hf. pose proof (inv_block_size d Hinv) as Hbs.
  destruct (inv_owned d Hinv fid vf Hf) as [Hnd Hown].
  destruct (write_loop_marks data (VirtualFile.blocks vf) d 0) as (d' & Hloop & Hmarks & Hframe).
  - by apply disk_inv_laid_out.
  - done.
  - intros id Hid. by apply (owns_valid d vf).
  - done.
  - exists d'. split_and!; [| |done].
    + unfold VirtualDisk.write_data. rewrite Hf, floordiv_ok, modulo_ok by lia.
      rewrite Z.div_0_l, Z.mod_0_l by lia. rewrite slice_from_nonneg by done.
      change (Z.to_nat 0) with 0%nat. by rewrite drop_0, Hloop.
    + intros k id b Hk Hb. rewrite (Hmarks k id b Hk Hb). unfold piece_of.
      by rewrite !Z.add_0_l.
Qed.

Lemma write_marks_the_blocks_it_fills_witness :
  exists d',
    VirtualDisk.write_data "f" (Py.encode "abc") 0 Example.small_disk_with_file
    = (Py.Ok true, d') /\
    (forall k id b,
       VirtualFile.blocks Example.the_file !! k = Some id ->
       VirtualDisk.blocks Example.small_disk_with_file !! Z.to_nat id = Some b ->
       VirtualDisk.blocks d' !! Z.to_nat id
       = Some (if decide (Z.of_nat k * VirtualDisk.block_size Example.small_disk_with_file
                          < Py.len (Py.encode "abc"))
               then written
                      (piece_of (Py.encode "abc")
                         (VirtualDisk.block_size Example.small_disk_with_file)
                         (Z.of_nat k)) b
               else b)) /\
    (forall i, Z.of_nat i ∉ VirtualFile.blocks Example.the_file ->
       VirtualDisk.blocks d' !! i
       = VirtualDisk.blocks Example.small_disk_with_file !! i).
Proof.
  apply (write_marks_the_blocks_it_fills Example.small_disk_with_file "f"
           Example.the_file).
  - exact example_small_disk_with_file_inv.
  - exact example_the_file.
Defined.

(** * The table of nodes *)

Lemma dict_set_keys {A} k (v : A) kv :
  (Dict.set k v kv).*1 = if decide (k ∈ kv.*1) then kv.*1 else kv.*1 ++ [k].
Proof.
  induction kv as [|[k' v'] kv IH].
  - simpl. by destruct (decide (k ∈ [])) as [?%elem_of_nil|].
  - cbn [Dict.set]. destruct (decide (k' = k)) as [-> | Hne]; rewrite !fmap_cons; cbn [fst].
    + rewrite decide_True; [done|by left].
    + rewrite IH. destruct (decide (k ∈ kv.*1)) as [Hin|Hnot].
      * rewrite decide_True; [done|by right].
      * rewrite decide_False; [done|]. by intros [?|?]%elem_of_cons.
Qed.

Lemma dict_set_Forall {A} (P : string * A -> Prop) k v kv :
  Forall P kv -> P (k, v) -> Forall P (Dict.set k v kv).
Proof.
  intros Hall Hp. induction Hall as [|[k' v'] kv Hx Hall IH]; simpl.
  - by constructor.
  - destruct (decide (k' = k)); by constructor.
Qed.

Lemma dict_get_set_eq {A} k (v : A) kv : Dict.get k (Dict.set k v kv) = Some v.
Proof.
  induction kv as [|[k' v'] kv IH]; simpl.
  - by rewrite decide_True.
  - destruct (decide (k' = k)) as [-> | Hne]; simpl.
    + by rewrite decide_True.
    + by rewrite decide_False.
Qed.

Lemma dict_set_elem {A} k (v : A) kv : (k, v) ∈ Dict.set k v kv.
Proof.
  induction kv as [|[k' v'] kv IH]; simpl.
  - by left.
  - destruct (decide (k' = k)); [by left|by right].
Qed.

Lemma filter_all_true (l : list (string * bool)) :
  Forall (fun entry => entry.2 = true) l ->
  filter (fun entry : string * bool => entry.2 = true) l = l.
Proof.
  induction l as [|entry l IH]; intros Hall; [done|].
  apply Forall_cons in Hall as [Hentry Hall].
  rewrite filter_cons_True by done. by rewrite IH.
Qed.

Lemma add_node_all_alive node_id port outcome nm :
  all_alive nm -> all_alive (NetworkManager.add_node node_id port outcome nm).2.
Proof.
  intros [Hkeys Hall]. unfold NetworkManager.add_node.
  destruct (IPManager.allocate_ip node_id (NetworkManager.ip_manager nm)) as [[ip|e] ipm];
    [|done].
  destruct (NetworkManager.start_server outcome _) as [r tcp]. split; simpl.
  - by rewrite !dict_set_keys, Hkeys.
  - by apply dict_set_Forall.
Qed.

Lemma discover_fold node_id reachable (entries : list (string * TCPCommunication.t)) :
  forall found status,
    (forall entry, entry ∈ entries -> entry.1 ∈ status.*1) ->
    Forall (fun entry => entry.2 = true) status ->
    let r := foldl (NetworkManager.discover_step node_id reachable) (found, status)
               entries in
    r.1 = found ++ filter (fun id => id <> node_id /\ reachable id = true) entries.*1 /\
    r.2.*1 = status.*1 /\
    Forall (fun entry => entry.2 = true) r.2.
Proof.
  induction entries as [|[id tcp] entries IH]; intros found status Hin Hall; cbv zeta.
  - simpl. by rewrite app_nil_r.
  - cbn [foldl]. rewrite fmap_cons. cbn [fst].
    assert (Hstep : NetworkManager.discover_step node_id reachable (found, status) (id, tcp)
                    = if decide (id = node_id) then (found, status)
                      else if reachable id
                           then (found ++ [id], Dict.set id true status)
                           else (found, status)) by done.
    rewrite Hstep. clear Hstep.
    assert (Hrest : forall entry, entry ∈ entries -> entry.1 ∈ status.*1)
      by (intros entry He; apply Hin; by right).
    destruct (decide (id = node_id)) as [-> | Hne].
    + rewrite filter_cons_False by (by intros [? _]). by apply IH.
    + destruct (reachable id) eqn:Hr.
      * rewrite filter_cons_True by done.
        assert (Hid : id ∈ status.*1) by (apply (Hin (id, tcp)); by left).
        destruct (IH (found ++ [id]) (Dict.set id true status)) as (H1 & H2 & H3).
        -- intros entry He. rewrite dict_set_keys, decide_True by done. by apply Hrest.
        -- by apply dict_set_Forall.
        -- split_and!; [|by rewrite H2, dict_set_keys, decide_True|done].
           by rewrite H1, <- app_assoc.
      * rewrite filter_cons_False by (intros [_ ?]; congruence). by apply IH.
Qed.

Lemma discover_nodes_spec node_id reachable nm :
  all_alive nm ->
  (NetworkManager.discover_nodes node_id reachable nm).1
  = (if decide (node_id ∈ (NetworkManager.nodes nm).*1)
     then filter (fun id => id <> node_id /\ reachable id = true)
            (NetworkManager.nodes nm).*1
     else []) /\
  all_alive (NetworkManager.discover_nodes node_id reachable nm).2 /\
  NetworkManager.nodes (NetworkManager.discover_nodes node_id reachable nm).2
  = NetworkManager.nodes nm.
Proof.
  intros [Hkeys Hall]. unfold NetworkManager.discover_nodes.
  destruct (Dict.get node_id (NetworkManager.nodes nm)) as [tcp|] eqn:Hget.
  - destruct (discover_fold node_id reachable (NetworkManager.nodes nm) []
                (NetworkManager.node_status nm)) as (H1 & H2 & H3); [|done|].
    { intros entry He. rewrite Hkeys. by apply list_elem_of_fmap_2. }
    destruct (foldl _ _ _) as [found status]. simpl in *.
    rewrite decide_True.
    + split_and!; [done| |done]. split; simpl; [congruence|done].
    + clear -Hget. induction (NetworkManager.nodes nm) as [|[k v] kv IH];
        simpl in *; [done|].
      destruct (decide (k = node_id)) as [-> | Hne]; [by left|]. right. by apply IH.
  - rewrite decide_False; [done|]. intros Hin.
    apply dict_get_known in Hin as [tcp Htcp]. congruence.
Qed.

Lemma run_all_alive ops : forall nm,
  all_alive nm -> all_alive (NetworkManager.run nm ops).
Proof.
  induction ops as [|o ops IH]; intros nm Halive; [done|].
  simpl. apply IH. destruct o as [node_id port outcome|node_id reachable]; simpl.
  - by apply add_node_all_alive.
  - by apply discover_nodes_spec.
Qed.

(** X27. The network manager never learns that a node is down. After
    every sequence of [add_node] and [discover_nodes] calls on a new
    manager, whatever happened to the sockets and whichever nodes could
    not be reached, the status table has exactly the nodes of the node
    table and marks each of them alive, so [get_network_info] reports as
    many active nodes as there are nodes. *)
Theorem no_node_is_ever_reported_down use_localhost ops :
  let nm := NetworkManager.run (NetworkManager.__init__ use_localhost) ops in
  all_alive nm /\
  NetworkManager.active_nodes (NetworkManager.get_network_info nm)
  = NetworkManager.total_nodes (NetworkManager.get_network_info nm).
Proof.
  intros nm.
  assert (Halive : all_alive nm).
  { apply run_all_alive. split; [done|constructor]. }
  split; [done|]. destruct Halive as [Hkeys Hall]. simpl.
  pose proof (filter_all_true _ Hall) as Hfilter.
  rewrite Hfilter. unfold Py.len.
  by rewrite <- (length_fmap fst (NetworkManager.node_status nm)), Hkeys, length_fmap.
Qed.

(** X28. What a discovery returns. On a manager whose status table is in
    step with its node table, [discover_nodes(node_id)] returns, in the
    order of the table, the nodes other than [node_id] to which the
    discovery message could be sent; it never returns [node_id] itself,
    returns nothing when [node_id] is not in the table, and leaves the
    table of nodes as it was. *)
Theorem discovery_returns_the_reachable_others node_id reachable nm :
  all_alive nm ->
  let r := NetworkManager.discover_nodes node_id reachable nm in
  r.1 = (if decide (node_id ∈ (NetworkManager.nodes nm).*1)
         then filter (fun id => id <> node_id /\ reachable id = true)
                (NetworkManager.nodes nm).*1
         else []) /\
  (node_id ∉ r.1) /\
  NetworkManager.nodes r.2 = NetworkManager.nodes nm /\
  all_alive r.2.
Proof.
  intros Halive r.
  destruct (discover_nodes_spec node_id reachable nm Halive) as (Hfound & Halive' & Hnodes).
  split_and!; [done| |done|done].
  subst r. rewrite Hfound. destruct (decide _); [|apply not_elem_of_nil].
  by intros [[? _] _]%list_elem_of_filter.
Qed.

Lemma discovery_returns_the_reachable_others_witness :
  let nm :=
    NetworkManager.run (NetworkManager.__init__ true)
      [NetworkManager.AddNode "A" 8000 NetworkManager.Bound;
       NetworkManager.AddNode "B" 8001 NetworkManager.Bound;
       NetworkManager.AddNode "C" 8002 NetworkManager.Bound] in
  let reachable := fun id => if decide (id = "B") then false else true in
  let r := NetworkManager.discover_nodes "A" reachable nm in
  r.1 = (if decide ("A" ∈ (NetworkManager.nodes nm).*1)
         then filter (fun id => id <> "A" /\ reachable id = true)
                (NetworkManager.nodes nm).*1
         else []) /\
  ("A" ∉ r.1) /\
  NetworkManager.nodes r.2 = NetworkManager.nodes nm /\
  all_alive r.2.
Proof.
  intros nm reachable.
  apply (discovery_returns_the_reachable_others "A" reachable nm).
  apply run_all_alive. split; [done|constructor].
Defined.

(** X29. The address that [add_node] returns is the one of the address
    manager, also when the server could not bind it. When the address is
    not available and the server falls back to localhost, [add_node]
    still returns the allocated address and the address manager keeps it,
    while the transport in the table of nodes, and with it
    [get_network_info], has 127.0.0.1. *)
Theorem fallback_address_is_not_reported node_id port nm ip ipm :
  IPManager.allocate_ip node_id (NetworkManager.ip_manager nm) = (Py.Ok ip, ipm) ->
  let r := NetworkManager.add_node node_id port NetworkManager.Fallback nm in
  r.1 = Py.Ok ip /\
  IPManager.get_node_ip node_id (NetworkManager.ip_manager r.2) = Some ip /\
  (TCPCommunication.ip <$> Dict.get node_id (NetworkManager.nodes r.2))
  = Some "127.0.0.1" /\
  (node_id, "127.0.0.1") ∈ NetworkManager.node_ips (NetworkManager.get_network_info r.2).
Proof.
  intros Halloc r. subst r. unfold NetworkManager.add_node. rewrite Halloc. simpl.
  split_and!; [done| |by rewrite dict_get_set_eq|].
  - by apply (allocate_ip_known_after node_id ip (NetworkManager.ip_manager nm) ipm).
  - apply list_elem_of_fmap.
    exists (node_id, NetworkManager.set_ip "127.0.0.1"
                       (TCPCommunication.mk node_id ip port ∅)).
    split; [done|]. apply dict_set_elem.
Qed.

Lemma fallback_address_is_not_reported_witness :
  let r := NetworkManager.add_node "A" 8000 NetworkManager.Fallback
             (NetworkManager.__init__ false) in
  r.1 = Py.Ok "10.0.0.1" /\
  IPManager.get_node_ip "A" (NetworkManager.ip_manager r.2) = Some "10.0.0.1" /\
  (TCPCommunication.ip <$> Dict.get "A" (NetworkManager.nodes r.2)) = Some "127.0.0.1" /\
  ("A", "127.0.0.1") ∈ NetworkManager.node_ips (NetworkManager.get_network_info r.2).
Proof.
  apply (fallback_address_is_not_reported "A" 8000 (NetworkManager.__init__ false)
           "10.0.0.1" (IPManager.allocate_ip "A" (IPManager.__init__ false)).2).
  reflexivity.
Defined.
